(** * Period-over-period KPI engine of the particle dashboard

    Shallow embedding of [calculate_kpis] and its helpers, as written in
    [src/processor.py] and duplicated in [streamlit_App/dashboard.py],
    together with the part of pandas the two files rely on.

    The code is embedded twice.  The first embedding, used for the control
    flow of the paths (windows, buckets, outcomes, labels, pages), takes a
    simple view of the data:
    - a float is either [NaN] or an exact rational [Num q]: rounding is not
      part of this view, the propagation and skipping of NaN is;
    - an instant is a whole number of seconds since the epoch (the form
      [pd.to_datetime(..., unit='s')] starts from), in a single fixed zone,
      never [NaT]; a calendar date is a day number since 1970-01-01;
    - a [DataFrame] is a list of value-column names and a list of rows; every
      row carries its [timestamp] and one cell per column.  [pd.DataFrame()]
      is the frame with no column and no row;
    - a Python exception is a left injection; [None] is [Datatypes.None].

    The second embedding, the module [Machine] in the last part, is the
    same code over binary64 floats, timestamp columns that can hold [NaT],
    dates bounded by the years 1 and 9999 and a 'timestamp' column that may
    still have to be converted.  What is proved there of the arithmetic of
    the variations, of the order of the statistics, of the daily path on
    every series and of the error of an unknown timeframe does not depend
    on the simple view. *)

From Stdlib Require Import ZArith QArith Qcanon String Ascii List Lia Bool
  Permutation.
Import ListNotations.

(* ================================================================== *)
(** ** Exceptions and the error monad *)

Inductive exception : Type :=
| ValueError (msg : string)
| IndexError
| KeyError (key : string).

Definition result (A : Type) : Type := (exception + A)%type.

Definition ret {A} (a : A) : result A := inr a.
Definition raise {A} (e : exception) : result A := inl e.
Definition bind {A B} (m : result A) (k : A -> result B) : result B :=
  match m with
  | inl e => inl e
  | inr a => k a
  end.

Notation "x <- m ;; k" := (bind m (fun x => k))
  (at level 61, m at next level, right associativity).

(* ================================================================== *)
(** ** Floats: NaN or an exact rational *)

Inductive float : Type :=
| NaN
| Num (q : Qc).

Definition Z2Qc (z : Z) : Qc := Q2Qc (inject_Z z).

Definition fsub (a b : float) : float :=
  match a, b with
  | Num x, Num y => Num (x - y)%Qc
  | _, _ => NaN
  end.

Definition fmul (a b : float) : float :=
  match a, b with
  | Num x, Num y => Num (x * y)%Qc
  | _, _ => NaN
  end.

(** Division by zero yields no finite number; every division of the program
    sits behind a test that the divisor is not zero. *)
Definition fdiv (a b : float) : float :=
  match a, b with
  | Num x, Num y => if Qc_eq_bool y 0%Qc then NaN else Num (x / y)%Qc
  | _, _ => NaN
  end.

(** [pd.isna] on a float. *)
Definition isna (a : float) : bool :=
  match a with
  | NaN => true
  | Num _ => false
  end.

(** [a == 0] on a float; NaN compares unequal to everything. *)
Definition feq0 (a : float) : bool :=
  match a with
  | NaN => false
  | Num q => Qc_eq_bool q 0%Qc
  end.

Definition Qcleb (x y : Qc) : bool :=
  match (x ?= y)%Qc with
  | Gt => false
  | _ => true
  end.

Definition Qcmin (x y : Qc) : Qc := if Qcleb x y then x else y.
Definition Qcmax (x y : Qc) : Qc := if Qcleb x y then y else x.

(* ================================================================== *)
(** ** Series reductions, [skipna=True] as pandas has it by default *)

Fixpoint dropna (l : list float) : list Qc :=
  match l with
  | [] => []
  | NaN :: t => dropna t
  | Num q :: t => q :: dropna t
  end.

Definition Qcsum (l : list Qc) : Qc := fold_right Qcplus 0%Qc l.

Definition series_min (l : list float) : float :=
  match dropna l with
  | [] => NaN
  | x :: xs => Num (fold_right Qcmin x xs)
  end.

Definition series_max (l : list float) : float :=
  match dropna l with
  | [] => NaN
  | x :: xs => Num (fold_right Qcmax x xs)
  end.

Definition series_mean (l : list float) : float :=
  match dropna l with
  | [] => NaN
  | x :: xs => Num (Qcsum (x :: xs) / Z2Qc (Z.of_nat (length (x :: xs))))%Qc
  end.

(* ================================================================== *)
(** ** Data frames *)

Record Row : Type := mkRow { timestamp : Z; cells : list float }.

Record DataFrame : Type := mkFrame { columns : list string; rows : list Row }.

(** [pd.DataFrame()] *)
Definition empty_DataFrame : DataFrame := mkFrame [] [].

(** [len(df)] *)
Definition len (df : DataFrame) : Z := Z.of_nat (length (rows df)).

Fixpoint index_of (c : string) (cols : list string) : option nat :=
  match cols with
  | [] => None
  | h :: t => if String.eqb c h then Some O
              else option_map S (index_of c t)
  end.

(** [df[c]]: the column as a list of floats, [KeyError] when the frame has
    no such column. *)
Definition getitem (df : DataFrame) (c : string) : result (list float) :=
  match index_of c (columns df) with
  | None => raise (KeyError c)
  | Some i => ret (map (fun r => nth i (cells r) NaN) (rows df))
  end.

(** [df[mask]] for a row predicate. *)
Definition select (p : Row -> bool) (df : DataFrame) : DataFrame :=
  mkFrame (columns df) (filter p (rows df)).

(** [s.iloc[-1]] *)
Definition iloc_last {A} (l : list A) : result A :=
  match rev l with
  | [] => raise IndexError
  | x :: _ => ret x
  end.

(** Python slice bounds: a negative bound counts from the end, and both are
    clamped to the length. *)
Definition slice_bound (n i : Z) : Z :=
  if (i <? 0)%Z then Z.max 0 (n + i) else Z.min i n.

Definition slice {A} (l : list A) (start stop : Z) : list A :=
  let n := Z.of_nat (length l) in
  let s := slice_bound n start in
  let e := slice_bound n stop in
  firstn (Z.to_nat (e - s)) (skipn (Z.to_nat s) l).

(** [df.iloc[start:stop]] *)
Definition iloc (df : DataFrame) (start stop : Z) : DataFrame :=
  mkFrame (columns df) (slice (rows df) start stop).

(** [df.tail(n)] for [n >= 0] *)
Definition tail (df : DataFrame) (n : Z) : DataFrame :=
  mkFrame (columns df)
          (skipn (length (rows df) - Z.to_nat n) (rows df)).

(** [df.sort_values('timestamp')], as a stable insertion sort. *)
Fixpoint insert_row (r : Row) (l : list Row) : list Row :=
  match l with
  | [] => [r]
  | h :: t => if (timestamp r <? timestamp h)%Z then r :: h :: t
              else h :: insert_row r t
  end.

Definition sort_rows (l : list Row) : list Row :=
  fold_left (fun acc r => insert_row r acc) l [].

Definition sort_values (df : DataFrame) : DataFrame :=
  mkFrame (columns df) (sort_rows (rows df)).

(* ================================================================== *)
(** ** Calendar: dates, week days and [strftime] *)

Local Open Scope Z_scope.

Definition seconds_per_day : Z := 86400.

(** [ts.dt.date], as a day number. *)
Definition dt_date (t : Z) : Z := t / seconds_per_day.

(** Midnight opening day [d]. *)
Definition midnight (d : Z) : Z := d * seconds_per_day.

(** [date.weekday()]: Monday is 0; day 0 (1970-01-01) is a Thursday. *)
Definition weekday (d : Z) : Z := (d + 3) mod 7.

(** Year, month and day of month of a day number (proleptic Gregorian). *)
Definition civil_from_days (d : Z) : Z * Z * Z :=
  let z := d + 719468 in
  let era := z / 146097 in
  let doe := z - era * 146097 in
  let yoe := (doe - doe / 1460 + doe / 36524 - doe / 146096) / 365 in
  let doy := doe - (365 * yoe + yoe / 4 - yoe / 100) in
  let mp := (5 * doy + 2) / 153 in
  let dd := doy - (153 * mp + 2) / 5 + 1 in
  let mm := if mp <? 10 then mp + 3 else mp - 9 in
  let yy := yoe + era * 400 + (if mm <=? 2 then 1 else 0) in
  (yy, mm, dd).

Definition digit (n : Z) : ascii := ascii_of_nat (48 + Z.to_nat (n mod 10)).

Definition two_digits (n : Z) : string :=
  String (digit (n / 10)) (String (digit n) EmptyString).

Definition four_digits (n : Z) : string :=
  (two_digits (n / 100) ++ two_digits n)%string.

(** [date.strftime('%d/%m/%Y')] *)
Definition strftime_dmY (d : Z) : string :=
  let '(yy, mm, dd) := civil_from_days d in
  (two_digits dd ++ "/" ++ two_digits mm ++ "/" ++ four_digits yy)%string.

(** [ts.strftime('%d/%m')]; the argument is [None] for [NaT], on which
    pandas raises. *)
Definition strftime_dm (t : option Z) : result string :=
  match t with
  | None => raise (ValueError "NaTType does not support strftime")
  | Some t =>
      let '(_, mm, dd) := civil_from_days (dt_date t) in
      ret (two_digits dd ++ "/" ++ two_digits mm)%string
  end.

(** [df['timestamp'].min()] and [.max()]; [None] is [NaT]. *)
Definition timestamp_min (df : DataFrame) : option Z :=
  match map timestamp (rows df) with
  | [] => None
  | t :: ts => Some (fold_right Z.min t ts)
  end.

Definition timestamp_max (df : DataFrame) : option Z :=
  match map timestamp (rows df) with
  | [] => None
  | t :: ts => Some (fold_right Z.max t ts)
  end.

(* ================================================================== *)
(** ** [df.resample(rule, on='timestamp')[c].mean().reset_index()]

    Every instant falls in the bin numbered [bin t]; bins are numbered
    consecutively.  pandas lays out one bin for every number from the bin
    of the earliest instant to the bin of the latest one, and the mean of a
    bin holding no value is NaN.  The result has the rows
    [(label b, mean of bin b)]. *)

Definition zrange (a b : Z) : list Z :=
  map (fun i => a + Z.of_nat i) (seq 0 (Z.to_nat (b - a + 1))).

Definition bin_values (bin : Z -> Z) (keyed : list (Z * float)) (b : Z)
  : list float :=
  map snd (filter (fun kv => bin (fst kv) =? b) keyed).

Definition resample_mean (bin label : Z -> Z) (df : DataFrame) (c : string)
  : result DataFrame :=
  vals <- getitem df c ;;
  let keyed := combine (map timestamp (rows df)) vals in
  match map (fun kv => bin (fst kv)) keyed with
  | [] => ret (mkFrame [c] [])
  | k :: ks =>
      let first := fold_right Z.min k ks in
      let last := fold_right Z.max k ks in
      ret (mkFrame [c]
             (map (fun b => mkRow (label b)
                              [series_mean (bin_values bin keyed b)])
                  (zrange first last)))
  end.

(** Rule ['D']: calendar days, labelled by their midnight. *)
Definition day_bin (t : Z) : Z := dt_date t.
Definition day_label (b : Z) : Z := midnight b.

(** Rule ['W-MON']: weeks closed on the right and labelled on the right by
    their Monday, so a week runs from Tuesday to the end of Monday. *)
Definition week_end (d : Z) : Z := d + (7 - weekday d) mod 7.
Definition week_bin (t : Z) : Z := week_end (dt_date t) / 7.
Definition week_label (b : Z) : Z := midnight (7 * b + 4).

Definition resample_D := resample_mean day_bin day_label.
Definition resample_W_MON := resample_mean week_bin week_label.

(* ================================================================== *)
(** ** The KPI result *)

Record KPI : Type := mkKPI {
  kpi_min : float;
  kpi_mean : float;
  kpi_max : float;
  min_delta : option float;
  min_delta_pct : option float;
  mean_delta : option float;
  mean_delta_pct : option float;
  max_delta : option float;
  max_delta_pct : option float;
  period_label : string
}.

Definition invalid_timeframe : exception :=
  ValueError "Timeframe doit être 'D', 'W' ou 'M'".

(* ================================================================== *)
(** ** [src/processor.py] *)

Module Processor.

(** [_calculate_variation] *)
Definition _calculate_variation (current_val : float)
    (previous_val : option float) : option float * option float :=
  match previous_val with
  | None => (None, None)
  | Some previous =>
      if isna previous || feq0 previous then (None, None)
      else
        let delta := fsub current_val previous in
        let delta_pct := fmul (fdiv delta previous) (Num (Z2Qc 100)) in
        (Some delta, Some delta_pct)
  end.

(** The windows of [_calculate_daily_kpis]. *)
Definition last_day_data (data : DataFrame) (last_date : Z) : DataFrame :=
  select (fun r => dt_date (timestamp r) =? last_date) data.

Definition prev_day_data (data : DataFrame) (last_date : Z) : DataFrame :=
  let prev_date := last_date - 1 in
  select (fun r => dt_date (timestamp r) =? prev_date) data.

(** [_calculate_daily_kpis] *)
Definition _calculate_daily_kpis (data : DataFrame) (particle : string)
  : result (option KPI) :=
  last_date <- iloc_last (map (fun r => dt_date (timestamp r)) (rows data)) ;;
  let last_day := last_day_data data last_date in
  if len last_day =? 0 then ret None
  else
    cur <- getitem last_day particle ;;
    let current_min := series_min cur in
    let current_mean := series_mean cur in
    let current_max := series_max cur in
    let prev_day := prev_day_data data last_date in
    prev <- getitem prev_day particle ;;
    let previous_min := series_min prev in
    let previous_mean := series_mean prev in
    let previous_max := series_max prev in
    let available := 0 <? len prev_day in
    let '(mean_d, mean_p) :=
      _calculate_variation current_mean
        (if available then Some previous_mean else None) in
    let '(min_d, min_p) :=
      _calculate_variation current_min
        (if available then Some previous_min else None) in
    let '(max_d, max_p) :=
      _calculate_variation current_max
        (if available then Some previous_max else None) in
    ret (Some (mkKPI current_min current_mean current_max
                 min_d min_p mean_d mean_p max_d max_p
                 (strftime_dmY last_date))).

(** The windows of [_calculate_weekly_kpis], cut out of the daily means. *)
Definition last_week_data (data_daily : DataFrame) : DataFrame :=
  tail data_daily (Z.min 7 (len data_daily)).

Definition prev_week_data (data_daily : DataFrame) : DataFrame :=
  if 14 <=? len data_daily then iloc data_daily (-14) (-7)
  else if 8 <=? len data_daily then iloc data_daily (-8) (-1)
  else empty_DataFrame.

(** [_calculate_weekly_kpis] *)
Definition _calculate_weekly_kpis (data : DataFrame) (particle : string)
  : result (option KPI) :=
  data_daily <- resample_D data particle ;;
  if len data_daily <? 2 then ret None
  else
    cur <- getitem (last_week_data data_daily) particle ;;
    let current_min := series_min cur in
    let current_mean := series_mean cur in
    let current_max := series_max cur in
    prev <- getitem (prev_week_data data_daily) particle ;;
    let previous_min := series_min prev in
    let previous_mean := series_mean prev in
    let previous_max := series_max prev in
    let available := 0 <? len (prev_week_data data_daily) in
    let '(mean_d, mean_p) :=
      _calculate_variation current_mean
        (if available then Some previous_mean else None) in
    let '(min_d, min_p) :=
      _calculate_variation current_min
        (if available then Some previous_min else None) in
    let '(max_d, max_p) :=
      _calculate_variation current_max
        (if available then Some previous_max else None) in
    start_date <- strftime_dm (timestamp_min (last_week_data data_daily)) ;;
    end_date <- strftime_dm (timestamp_max (last_week_data data_daily)) ;;
    ret (Some (mkKPI current_min current_mean current_max
                 min_d min_p mean_d mean_p max_d max_p
                 (start_date ++ " - " ++ end_date)%string)).

(** The windows of [_calculate_monthly_kpis], cut out of the weekly means. *)
Definition last_month_data (data_weekly : DataFrame) : DataFrame :=
  tail data_weekly (Z.min 4 (len data_weekly)).

Definition prev_month_data (data_weekly : DataFrame) : DataFrame :=
  if 8 <=? len data_weekly then iloc data_weekly (-8) (-4)
  else if 5 <=? len data_weekly then iloc data_weekly (-5) (-1)
  else empty_DataFrame.

(** [_calculate_monthly_kpis] *)
Definition _calculate_monthly_kpis (data : DataFrame) (particle : string)
  : result (option KPI) :=
  data_weekly <- resample_W_MON data particle ;;
  if len data_weekly <? 2 then ret None
  else
    cur <- getitem (last_month_data data_weekly) particle ;;
    let current_min := series_min cur in
    let current_mean := series_mean cur in
    let current_max := series_max cur in
    prev <- getitem (prev_month_data data_weekly) particle ;;
    let previous_min := series_min prev in
    let previous_mean := series_mean prev in
    let previous_max := series_max prev in
    let available := 0 <? len (prev_month_data data_weekly) in
    let '(mean_d, mean_p) :=
      _calculate_variation current_mean
        (if available then Some previous_mean else None) in
    let '(min_d, min_p) :=
      _calculate_variation current_min
        (if available then Some previous_min else None) in
    let '(max_d, max_p) :=
      _calculate_variation current_max
        (if available then Some previous_max else None) in
    start_date <- strftime_dm (timestamp_min (last_month_data data_weekly)) ;;
    end_date <- strftime_dm (timestamp_max (last_month_data data_weekly)) ;;
    ret (Some (mkKPI current_min current_mean current_max
                 min_d min_p mean_d mean_p max_d max_p
                 (start_date ++ " - " ++ end_date)%string)).

(** [calculate_kpis].  The instants of the model are already chronological
    values, so the coercion of the first lines is the identity. *)
Definition calculate_kpis (data : DataFrame) (particle timeframe : string)
  : result (option KPI) :=
  let data := sort_values data in
  if String.eqb timeframe "D" then _calculate_daily_kpis data particle
  else if String.eqb timeframe "W" then _calculate_weekly_kpis data particle
  else if String.eqb timeframe "M" then _calculate_monthly_kpis data particle
  else raise invalid_timeframe.

End Processor.

(* ================================================================== *)
(** ** [streamlit_App/dashboard.py], which carries its own copy *)

Module Dashboard.

(** [_calculate_variation] *)
Definition _calculate_variation (current_val : float)
    (previous_val : option float) : option float * option float :=
  match previous_val with
  | None => (None, None)
  | Some previous =>
      if isna previous || feq0 previous then (None, None)
      else
        let delta := fsub current_val previous in
        let delta_pct := fmul (fdiv delta previous) (Num (Z2Qc 100)) in
        (Some delta, Some delta_pct)
  end.

(** The windows of [_calculate_daily_kpis]. *)
Definition last_day_data (data : DataFrame) (last_date : Z) : DataFrame :=
  select (fun r => dt_date (timestamp r) =? last_date) data.

Definition prev_day_data (data : DataFrame) (last_date : Z) : DataFrame :=
  let prev_date := last_date - 1 in
  select (fun r => dt_date (timestamp r) =? prev_date) data.

(** [_calculate_daily_kpis] *)
Definition _calculate_daily_kpis (data : DataFrame) (particle : string)
  : result (option KPI) :=
  last_date <- iloc_last (map (fun r => dt_date (timestamp r)) (rows data)) ;;
  let last_day := last_day_data data last_date in
  if len last_day =? 0 then ret None
  else
    cur <- getitem last_day particle ;;
    let current_min := series_min cur in
    let current_mean := series_mean cur in
    let current_max := series_max cur in
    let prev_day := prev_day_data data last_date in
    prev <- getitem prev_day particle ;;
    let previous_min := series_min prev in
    let previous_mean := series_mean prev in
    let previous_max := series_max prev in
    let available := 0 <? len prev_day in
    let '(mean_d, mean_p) :=
      _calculate_variation current_mean
        (if available then Some previous_mean else None) in
    let '(min_d, min_p) :=
      _calculate_variation current_min
        (if available then Some previous_min else None) in
    let '(max_d, max_p) :=
      _calculate_variation current_max
        (if available then Some previous_max else None) in
    ret (Some (mkKPI current_min current_mean current_max
                 min_d min_p mean_d mean_p max_d max_p
                 (strftime_dmY last_date))).

(** The windows of [_calculate_weekly_kpis], cut out of the daily means. *)
Definition last_week_data (data_daily : DataFrame) : DataFrame :=
  tail data_daily (Z.min 7 (len data_daily)).

Definition prev_week_data (data_daily : DataFrame) : DataFrame :=
  if 14 <=? len data_daily then iloc data_daily (-14) (-7)
  else if 8 <=? len data_daily then iloc data_daily (-8) (-1)
  else empty_DataFrame.

(** [_calculate_weekly_kpis] *)
Definition _calculate_weekly_kpis (data : DataFrame) (particle : string)
  : result (option KPI) :=
  data_daily <- resample_D data particle ;;
  if len data_daily <? 2 then ret None
  else
    cur <- getitem (last_week_data data_daily) particle ;;
    let current_min := series_min cur in
    let current_mean := series_mean cur in
    let current_max := series_max cur in
    prev <- getitem (prev_week_data data_daily) particle ;;
    let previous_min := series_min prev in
    let previous_mean := series_mean prev in
    let previous_max := series_max prev in
    let available := 0 <? len (prev_week_data data_daily) in
    let '(mean_d, mean_p) :=
      _calculate_variation current_mean
        (if available then Some previous_mean else None) in
    let '(min_d, min_p) :=
      _calculate_variation current_min
        (if available then Some previous_min else None) in
    let '(max_d, max_p) :=
      _calculate_variation current_max
        (if available then Some previous_max else None) in
    start_date <- strftime_dm (timestamp_min (last_week_data data_daily)) ;;
    end_date <- strftime_dm (timestamp_max (last_week_data data_daily)) ;;
    ret (Some (mkKPI current_min current_mean current_max
                 min_d min_p mean_d mean_p max_d max_p
                 (start_date ++ " - " ++ end_date)%string)).

(** The windows of [_calculate_monthly_kpis], cut out of the weekly means. *)
Definition last_month_data (data_weekly : DataFrame) : DataFrame :=
  tail data_weekly (Z.min 4 (len data_weekly)).

Definition prev_month_data (data_weekly : DataFrame) : DataFrame :=
  if 8 <=? len data_weekly then iloc data_weekly (-8) (-4)
  else if 5 <=? len data_weekly then iloc data_weekly (-5) (-1)
  else empty_DataFrame.

(** [_calculate_monthly_kpis] *)
Definition _calculate_monthly_kpis (data : DataFrame) (particle : string)
  : result (option KPI) :=
  data_weekly <- resample_W_MON data particle ;;
  if len data_weekly <? 2 then ret None
  else
    cur <- getitem (last_month_data data_weekly) particle ;;
    let current_min := series_min cur in
    let current_mean := series_mean cur in
    let current_max := series_max cur in
    prev <- getitem (prev_month_data data_weekly) particle ;;
    let previous_min := series_min prev in
    let previous_mean := series_mean prev in
    let previous_max := series_max prev in
    let available := 0 <? len (prev_month_data data_weekly) in
    let '(mean_d, mean_p) :=
      _calculate_variation current_mean
        (if available then Some previous_mean else None) in
    let '(min_d, min_p) :=
      _calculate_variation current_min
        (if available then Some previous_min else None) in
    let '(max_d, max_p) :=
      _calculate_variation current_max
        (if available then Some previous_max else None) in
    start_date <- strftime_dm (timestamp_min (last_month_data data_weekly)) ;;
    end_date <- strftime_dm (timestamp_max (last_month_data data_weekly)) ;;
    ret (Some (mkKPI current_min current_mean current_max
                 min_d min_p mean_d mean_p max_d max_p
                 (start_date ++ " - " ++ end_date)%string)).

(** [calculate_kpis].  The instants of the model are already chronological
    values, so the coercion of the first lines is the identity. *)
Definition calculate_kpis (data : DataFrame) (particle timeframe : string)
  : result (option KPI) :=
  let data := sort_values data in
  if String.eqb timeframe "D" then _calculate_daily_kpis data particle
  else if String.eqb timeframe "W" then _calculate_weekly_kpis data particle
  else if String.eqb timeframe "M" then _calculate_monthly_kpis data particle
  else raise invalid_timeframe.

End Dashboard.

(* ================================================================== *)
(** * Properties *)

(** ** Rationals *)



Lemma Qcleb_le (x y : Qc) : Qcleb x y = true <-> (x <= y)%Qc.
Proof.
  unfold Qcleb. rewrite Qcle_alt.
  destruct (x ?= y)%Qc; split; congruence.
Qed.

Lemma Qcleb_gt (x y : Qc) : Qcleb x y = false -> (y <= x)%Qc.
Proof.
  intros H. apply Qclt_le_weak. apply Qcnot_le_lt.
  rewrite <- Qcleb_le. congruence.
Qed.

(* ------------------------------------------------------------------ *)
(** ** The Monday-closed week *)

Lemma week_end_monday (d : Z) : weekday (week_end d) = 0.
Proof.
  unfold week_end, weekday. Z.to_euclidean_division_equations. lia.
Qed.

Lemma week_end_range (d : Z) : d <= week_end d <= d + 6.
Proof.
  unfold week_end, weekday. Z.to_euclidean_division_equations. lia.
Qed.

(** The label of the bin of an instant is the midnight of the Monday that
    closes its week. *)
Lemma week_label_bin (t : Z) :
  week_label (week_bin t) = midnight (week_end (dt_date t)).
Proof.
  unfold week_label, week_bin. f_equal.
  pose proof (week_end_monday (dt_date t)) as H. unfold weekday in H.
  Z.to_euclidean_division_equations. lia.
Qed.

(** Two days share a weekly bin exactly when the same Monday closes their
    weeks. *)
Lemma week_bin_same (s t : Z) :
  week_bin s = week_bin t <->
  week_end (dt_date s) = week_end (dt_date t).
Proof.
  unfold week_bin.
  pose proof (week_end_monday (dt_date s)) as Hs.
  pose proof (week_end_monday (dt_date t)) as Ht.
  unfold weekday in Hs, Ht. split; intros H.
  - Z.to_euclidean_division_equations. lia.
  - now rewrite H.
Qed.

(* ------------------------------------------------------------------ *)
(** ** Deciding equality of computed values

    Two canonical rationals are equal as soon as their fractions are, so a
    computed value is compared with the expected one by a boolean test. *)

Class Eqb (A : Type) : Type := {
  eqb : A -> A -> bool;
  eqb_sound : forall a b, eqb a b = true -> a = b
}.

#[export] Instance Eqb_Z : Eqb Z :=
  {| eqb := Z.eqb; eqb_sound := fun a b => proj1 (Z.eqb_eq a b) |}.

#[export] Instance Eqb_nat : Eqb nat :=
  {| eqb := Nat.eqb; eqb_sound := fun a b => proj1 (Nat.eqb_eq a b) |}.

#[export] Instance Eqb_string : Eqb string :=
  {| eqb := String.eqb;
     eqb_sound := fun a b => proj1 (String.eqb_eq a b) |}.

Definition Qc_eqb (x y : Qc) : bool := Qeq_bool x y.

Lemma Qc_eqb_sound (x y : Qc) : Qc_eqb x y = true -> x = y.
Proof. intros H. apply Qc_is_canon. now apply Qeq_bool_iff. Qed.

#[export] Instance Eqb_Qc : Eqb Qc :=
  {| eqb := Qc_eqb; eqb_sound := Qc_eqb_sound |}.

Definition float_eqb (a b : float) : bool :=
  match a, b with
  | NaN, NaN => true
  | Num x, Num y => Qc_eqb x y
  | _, _ => false
  end.

Lemma float_eqb_sound (a b : float) : float_eqb a b = true -> a = b.
Proof.
  destruct a, b; simpl; intros H; try discriminate; try reflexivity.
  f_equal. now apply Qc_eqb_sound.
Qed.

#[export] Instance Eqb_float : Eqb float :=
  {| eqb := float_eqb; eqb_sound := float_eqb_sound |}.

Section Containers.
Context {A B : Type} `{EA : Eqb A} `{EB : Eqb B}.

Definition option_eqb (a b : option A) : bool :=
  match a, b with
  | None, None => true
  | Some x, Some y => eqb x y
  | _, _ => false
  end.

Lemma option_eqb_sound a b : option_eqb a b = true -> a = b.
Proof.
  destruct a, b; simpl; intros H; try discriminate; try reflexivity.
  f_equal. now apply eqb_sound.
Qed.

Definition prod_eqb (a b : A * B) : bool :=
  eqb (fst a) (fst b) && eqb (snd a) (snd b).

Lemma prod_eqb_sound a b : prod_eqb a b = true -> a = b.
Proof.
  destruct a, b. unfold prod_eqb. simpl. intros H.
  apply andb_true_iff in H as [H1 H2].
  f_equal; now apply eqb_sound.
Qed.

Fixpoint list_eqb (l m : list A) : bool :=
  match l, m with
  | [], [] => true
  | x :: l', y :: m' => eqb x y && list_eqb l' m'
  | _, _ => false
  end.

Lemma list_eqb_sound l m : list_eqb l m = true -> l = m.
Proof.
  revert m. induction l as [|x l IH]; intros [|y m] E;
    try discriminate; try reflexivity.
  simpl in E. apply andb_true_iff in E as [E1 E2].
  f_equal; [now apply eqb_sound | now apply IH].
Qed.

Definition sum_eqb (a b : A + B) : bool :=
  match a, b with
  | inl x, inl y => eqb x y
  | inr x, inr y => eqb x y
  | _, _ => false
  end.

Lemma sum_eqb_sound a b : sum_eqb a b = true -> a = b.
Proof.
  destruct a, b; simpl; intros H; try discriminate;
    f_equal; now apply eqb_sound.
Qed.
End Containers.

#[export] Instance Eqb_option {A} `{Eqb A} : Eqb (option A) :=
  {| eqb := option_eqb; eqb_sound := option_eqb_sound |}.
#[export] Instance Eqb_prod {A B} `{Eqb A} `{Eqb B} : Eqb (A * B) :=
  {| eqb := prod_eqb; eqb_sound := prod_eqb_sound |}.
#[export] Instance Eqb_list {A} `{Eqb A} : Eqb (list A) :=
  {| eqb := list_eqb; eqb_sound := list_eqb_sound |}.
#[export] Instance Eqb_sum {A B} `{Eqb A} `{Eqb B} : Eqb (A + B) :=
  {| eqb := sum_eqb; eqb_sound := sum_eqb_sound |}.

Definition exception_eqb (a b : exception) : bool :=
  match a, b with
  | ValueError x, ValueError y => String.eqb x y
  | IndexError, IndexError => true
  | KeyError x, KeyError y => String.eqb x y
  | _, _ => false
  end.

Lemma exception_eqb_sound a b : exception_eqb a b = true -> a = b.
Proof.
  destruct a, b; simpl; intros H; try discriminate; try reflexivity;
    f_equal; now apply String.eqb_eq.
Qed.

#[export] Instance Eqb_exception : Eqb exception :=
  {| eqb := exception_eqb; eqb_sound := exception_eqb_sound |}.

Definition Row_eqb (a b : Row) : bool :=
  eqb (timestamp a, cells a) (timestamp b, cells b).

Lemma Row_eqb_sound a b : Row_eqb a b = true -> a = b.
Proof.
  destruct a, b. intros H. apply eqb_sound in H. simpl in H. congruence.
Qed.

#[export] Instance Eqb_Row : Eqb Row :=
  {| eqb := Row_eqb; eqb_sound := Row_eqb_sound |}.

Definition DataFrame_eqb (a b : DataFrame) : bool :=
  eqb (columns a, rows a) (columns b, rows b).

Lemma DataFrame_eqb_sound a b : DataFrame_eqb a b = true -> a = b.
Proof.
  destruct a, b. intros H. apply eqb_sound in H. simpl in H. congruence.
Qed.

#[export] Instance Eqb_DataFrame : Eqb DataFrame :=
  {| eqb := DataFrame_eqb; eqb_sound := DataFrame_eqb_sound |}.

Definition KPI_eqb (a b : KPI) : bool :=
  eqb (kpi_min a, kpi_mean a, kpi_max a,
       (min_delta a, min_delta_pct a), (mean_delta a, mean_delta_pct a),
       (max_delta a, max_delta_pct a), period_label a)
      (kpi_min b, kpi_mean b, kpi_max b,
       (min_delta b, min_delta_pct b), (mean_delta b, mean_delta_pct b),
       (max_delta b, max_delta_pct b), period_label b).

Lemma KPI_eqb_sound a b : KPI_eqb a b = true -> a = b.
Proof.
  destruct a, b. intros H. apply eqb_sound in H. simpl in H. congruence.
Qed.

#[export] Instance Eqb_KPI : Eqb KPI :=
  {| eqb := KPI_eqb; eqb_sound := KPI_eqb_sound |}.

Ltac by_eqb := apply eqb_sound; vm_compute; reflexivity.

(* ------------------------------------------------------------------ *)
(** ** The two copies *)

(** C8. The KPI code of [src/processor.py] and the copy carried by
    [streamlit_App/dashboard.py] compute the same function: the variation
    helper, the daily, weekly and monthly paths and the dispatcher agree on
    every input, exception included. *)
Theorem implementations_agree :
  (forall c p,
     Processor._calculate_variation c p = Dashboard._calculate_variation c p) /\
  (forall data particle,
     Processor._calculate_daily_kpis data particle =
     Dashboard._calculate_daily_kpis data particle) /\
  (forall data particle,
     Processor._calculate_weekly_kpis data particle =
     Dashboard._calculate_weekly_kpis data particle) /\
  (forall data particle,
     Processor._calculate_monthly_kpis data particle =
     Dashboard._calculate_monthly_kpis data particle) /\
  (forall data particle timeframe,
     Processor.calculate_kpis data particle timeframe =
     Dashboard.calculate_kpis data particle timeframe).
Proof. repeat split. Qed.

(* ------------------------------------------------------------------ *)
(** ** What a path returns, read off its two windows *)

(** The record built from the values of the current window, the values of
    the comparison window when it has rows, and a label. *)
Definition kpi_of (cur : list float) (prev : option (list float))
    (label : string) : KPI :=
  let v stat :=
    Processor._calculate_variation (stat cur) (option_map stat prev) in
  mkKPI (series_min cur) (series_mean cur) (series_max cur)
        (fst (v series_min)) (snd (v series_min))
        (fst (v series_mean)) (snd (v series_mean))
        (fst (v series_max)) (snd (v series_max))
        label.

Definition windows_kpis (current previous : DataFrame) (particle : string)
  : result (option KPI) :=
  cur <- getitem current particle ;;
  prev <- getitem previous particle ;;
  start_date <- strftime_dm (timestamp_min current) ;;
  end_date <- strftime_dm (timestamp_max current) ;;
  ret (Some (kpi_of cur (if 0 <? len previous then Some prev else None)
               (start_date ++ " - " ++ end_date)%string)).

Ltac split_variations :=
  repeat match goal with
  | |- context [Processor._calculate_variation ?a ?b] =>
      let E := fresh "E" in
      destruct (Processor._calculate_variation a b) eqn:E
  end.

Lemma weekly_unfold data particle :
  Processor._calculate_weekly_kpis data particle =
    (data_daily <- resample_D data particle ;;
     if len data_daily <? 2 then ret None
     else windows_kpis (Processor.last_week_data data_daily)
            (Processor.prev_week_data data_daily) particle).
Proof.
  unfold Processor._calculate_weekly_kpis, windows_kpis, kpi_of.
  destruct (resample_D data particle) as [e|dd]; cbn [bind]; [reflexivity|].
  destruct (len dd <? 2); [reflexivity|].
  destruct (getitem (Processor.last_week_data dd) particle) as [e|cur];
    cbn [bind]; [reflexivity|].
  destruct (getitem (Processor.prev_week_data dd) particle) as [e|prev];
    cbn [bind]; [reflexivity|].
  destruct (0 <? len (Processor.prev_week_data dd)); cbn [option_map];
    split_variations; reflexivity.
Qed.

Lemma monthly_unfold data particle :
  Processor._calculate_monthly_kpis data particle =
    (data_weekly <- resample_W_MON data particle ;;
     if len data_weekly <? 2 then ret None
     else windows_kpis (Processor.last_month_data data_weekly)
            (Processor.prev_month_data data_weekly) particle).
Proof.
  unfold Processor._calculate_monthly_kpis, windows_kpis, kpi_of.
  destruct (resample_W_MON data particle) as [e|dd]; cbn [bind]; [reflexivity|].
  destruct (len dd <? 2); [reflexivity|].
  destruct (getitem (Processor.last_month_data dd) particle) as [e|cur];
    cbn [bind]; [reflexivity|].
  destruct (getitem (Processor.prev_month_data dd) particle) as [e|prev];
    cbn [bind]; [reflexivity|].
  destruct (0 <? len (Processor.prev_month_data dd)); cbn [option_map];
    split_variations; reflexivity.
Qed.

Lemma daily_unfold data particle :
  Processor._calculate_daily_kpis data particle =
    (last_date <-
       iloc_last (map (fun r => dt_date (timestamp r)) (rows data)) ;;
     if len (Processor.last_day_data data last_date) =? 0 then ret None
     else
       cur <- getitem (Processor.last_day_data data last_date) particle ;;
       prev <- getitem (Processor.prev_day_data data last_date) particle ;;
       ret (Some (kpi_of cur
                    (if 0 <? len (Processor.prev_day_data data last_date)
                     then Some prev else None)
                    (strftime_dmY last_date)))).
Proof.
  unfold Processor._calculate_daily_kpis, kpi_of.
  destruct (iloc_last _) as [e|d]; cbn [bind]; [reflexivity|].
  destruct (len (Processor.last_day_data data d) =? 0); [reflexivity|].
  destruct (getitem (Processor.last_day_data data d) particle) as [e|cur];
    cbn [bind]; [reflexivity|].
  destruct (getitem (Processor.prev_day_data data d) particle) as [e|prev];
    cbn [bind]; [reflexivity|].
  destruct (0 <? len (Processor.prev_day_data data d)); cbn [option_map];
    split_variations; reflexivity.
Qed.

(* ------------------------------------------------------------------ *)
(** ** Windows cut out of a bucket series *)

(** [window_at w l a k]: [w] is the run of the [k] elements of [l] at the
    indices [a], ..., [a + k - 1], that is, the indices [[a, a + k)]. *)
Definition window_at {A} (w l : list A) (a k : nat) : Prop :=
  List.length w = k /\
  forall i, (i < k)%nat -> nth_error w i = nth_error l (a + i).

Lemma window_firstn_skipn {A} (l : list A) (a k : nat) :
  (a + k <= List.length l)%nat -> window_at (firstn k (skipn a l)) l a k.
Proof.
  intros H. split.
  - rewrite length_firstn, length_skipn. lia.
  - intros i Hi. rewrite nth_error_firstn.
    assert (E : (i <? k)%nat = true) by now apply Nat.ltb_lt.
    rewrite E. apply nth_error_skipn.
Qed.

Lemma slice_from_end {A} (l : list A) (a b : nat) :
  (0 < b <= a)%nat -> (a <= List.length l)%nat ->
  slice l (- Z.of_nat a) (- Z.of_nat b) =
  firstn (a - b) (skipn (List.length l - a) l).
Proof.
  intros Hab Hal. unfold slice, slice_bound.
  assert (Ea : (- Z.of_nat a <? 0) = true) by (apply Z.ltb_lt; lia).
  assert (Eb : (- Z.of_nat b <? 0) = true) by (apply Z.ltb_lt; lia).
  rewrite Ea, Eb. f_equal; [|f_equal]; lia.
Qed.

Lemma tail_rows (df : DataFrame) (k : nat) :
  rows (tail df (Z.of_nat k)) = skipn (List.length (rows df) - k) (rows df).
Proof. unfold tail. simpl. now rewrite Nat2Z.id. Qed.

Lemma tail_window (df : DataFrame) (k : nat) :
  (k <= List.length (rows df))%nat ->
  window_at (rows (tail df (Z.of_nat k))) (rows df)
            (List.length (rows df) - k) k.
Proof.
  intros H. rewrite tail_rows.
  rewrite <- (firstn_all (skipn _ _)). rewrite length_skipn.
  replace (List.length (rows df) - (List.length (rows df) - k))%nat with k
    by lia.
  apply window_firstn_skipn. lia.
Qed.

Lemma iloc_window (df : DataFrame) (a b : nat) :
  (0 < b <= a)%nat -> (a <= List.length (rows df))%nat ->
  window_at (rows (iloc df (- Z.of_nat a) (- Z.of_nat b))) (rows df)
            (List.length (rows df) - a) (a - b).
Proof.
  intros Hab Hal. unfold iloc. simpl. rewrite slice_from_end by assumption.
  apply window_firstn_skipn. lia.
Qed.

Lemma len_length (df : DataFrame) : len df = Z.of_nat (List.length (rows df)).
Proof. reflexivity. Qed.

(** Sample series: one record a day, on the listed days, the value of the
    record being its day number. *)
Definition sample_row (d : Z) : Row :=
  mkRow (midnight d + 5) [Num (Z2Qc d)].

Definition sample_frame (days : list Z) : DataFrame :=
  mkFrame ["col"%string] (map sample_row days).

Definition buckets_of (r : result DataFrame) : DataFrame :=
  match r with
  | inr df => df
  | inl _ => empty_DataFrame
  end.

Definition ten_days : DataFrame := sample_frame (zrange 1 10).
Definition ten_days_daily : DataFrame := buckets_of (resample_D ten_days "col").

Definition nine_weeks : DataFrame :=
  sample_frame (map (fun k => 7 * k) (zrange 0 8)).
Definition nine_weeks_weekly : DataFrame :=
  buckets_of (resample_W_MON nine_weeks "col").

(* ------------------------------------------------------------------ *)
(** ** The outcomes of a path *)

Lemma index_of_In (c : string) (cols : list string) :
  In c cols <-> exists i, index_of c cols = Some i.
Proof.
  induction cols as [|h t IH]; simpl.
  - split; [tauto | intros [i H]; discriminate].
  - destruct (String.eqb c h) eqn:E.
    + apply String.eqb_eq in E. subst h. split; eauto.
    + apply String.eqb_neq in E. rewrite IH. split.
      * intros [H | [i H]]; [congruence|]. rewrite H. simpl. eauto.
      * intros [i H]. destruct (index_of c t); [|discriminate]. eauto.
Qed.

Lemma getitem_present (df : DataFrame) (c : string) :
  In c (columns df) ->
  exists vals, getitem df c = inr vals /\
               List.length vals = List.length (rows df).
Proof.
  intros H. apply index_of_In in H as [i H]. unfold getitem. rewrite H.
  eexists. split; [reflexivity|]. apply length_map.
Qed.

Lemma getitem_raises (df : DataFrame) (c : string) (e : exception) :
  getitem df c = inl e -> e = KeyError c /\ ~ In c (columns df).
Proof.
  unfold getitem. destruct (index_of c (columns df)) eqn:E; [discriminate|].
  intros H. inversion H. split; [reflexivity|].
  rewrite index_of_In. intros [i Hi]. congruence.
Qed.

Lemma resample_mean_raises bin label df c e :
  resample_mean bin label df c = inl e -> e = KeyError c.
Proof.
  unfold resample_mean. destruct (getitem df c) as [e'|vals] eqn:E.
  - cbn [bind]. intros H. inversion H. subst. now apply getitem_raises in E.
  - cbn [bind]. destruct (map _ _); discriminate.
Qed.

Lemma strftime_dm_some (t : Z) : exists s, strftime_dm (Some t) = inr s.
Proof.
  unfold strftime_dm. destruct (civil_from_days (dt_date t)) as [[yy mm] dd].
  eexists. reflexivity.
Qed.

Lemma timestamp_min_some (df : DataFrame) :
  rows df <> [] -> exists t, timestamp_min df = Some t.
Proof.
  unfold timestamp_min. destruct (rows df); [congruence|]. simpl. eauto.
Qed.

Lemma timestamp_max_some (df : DataFrame) :
  rows df <> [] -> exists t, timestamp_max df = Some t.
Proof.
  unfold timestamp_max. destruct (rows df); [congruence|]. simpl. eauto.
Qed.

(** With a current window that has rows, the two windows either yield a
    record or miss the column. *)
Lemma windows_kpis_cases current previous particle :
  rows current <> [] ->
  (exists cur prev label,
     getitem current particle = inr cur /\
     getitem previous particle = inr prev /\
     windows_kpis current previous particle =
       inr (Some (kpi_of cur (if 0 <? len previous then Some prev else None)
                    label))) \/
  windows_kpis current previous particle = inl (KeyError particle).
Proof.
  intros Hne. unfold windows_kpis.
  destruct (getitem current particle) as [e|cur] eqn:Ec.
  { right. apply getitem_raises in Ec as [-> _]. reflexivity. }
  destruct (getitem previous particle) as [e|prev] eqn:Ep.
  { right. apply getitem_raises in Ep as [-> _]. reflexivity. }
  left. cbn [bind].
  destruct (timestamp_min_some _ Hne) as [t1 ->].
  destruct (timestamp_max_some _ Hne) as [t2 ->].
  destruct (strftime_dm_some t1) as [s1 ->].
  destruct (strftime_dm_some t2) as [s2 ->].
  cbn [bind]. eauto 6.
Qed.

(** With too short a history the comparison window is [pd.DataFrame()],
    which has no column: the weekly path raises [KeyError] for 2 to 7 daily
    buckets, and the monthly path for 2 to 4 weekly buckets. *)
Lemma weekly_short_history_raises data particle data_daily :
  resample_D data particle = inr data_daily ->
  2 <= len data_daily < 8 ->
  Processor._calculate_weekly_kpis data particle = inl (KeyError particle).
Proof.
  intros Hd [H2 H8]. rewrite weekly_unfold, Hd. cbn [bind].
  destruct (len data_daily <? 2) eqn:E; [apply Z.ltb_lt in E; lia|].
  unfold windows_kpis, Processor.prev_week_data.
  destruct (14 <=? len data_daily) eqn:E14; [apply Z.leb_le in E14; lia|].
  destruct (8 <=? len data_daily) eqn:E8; [apply Z.leb_le in E8; lia|].
  destruct (getitem (Processor.last_week_data data_daily) particle)
    as [e|cur] eqn:Ec; cbn [bind].
  - apply getitem_raises in Ec as [-> _]. reflexivity.
  - reflexivity.
Qed.

Lemma monthly_short_history_raises data particle data_weekly :
  resample_W_MON data particle = inr data_weekly ->
  2 <= len data_weekly < 5 ->
  Processor._calculate_monthly_kpis data particle = inl (KeyError particle).
Proof.
  intros Hd [H2 H5]. rewrite monthly_unfold, Hd. cbn [bind].
  destruct (len data_weekly <? 2) eqn:E; [apply Z.ltb_lt in E; lia|].
  unfold windows_kpis, Processor.prev_month_data.
  destruct (8 <=? len data_weekly) eqn:E8; [apply Z.leb_le in E8; lia|].
  destruct (5 <=? len data_weekly) eqn:E5; [apply Z.leb_le in E5; lia|].
  destruct (getitem (Processor.last_month_data data_weekly) particle)
    as [e|cur] eqn:Ec; cbn [bind].
  - apply getitem_raises in Ec as [-> _]. reflexivity.
  - reflexivity.
Qed.

Lemma last_week_nonempty dd :
  2 <= len dd -> rows (Processor.last_week_data dd) <> [].
Proof.
  intros H. unfold Processor.last_week_data, tail, len in *. cbn [rows].
  intros E. apply (f_equal (@List.length Row)) in E.
  rewrite length_skipn in E. simpl in E. lia.
Qed.

Lemma last_month_nonempty dw :
  2 <= len dw -> rows (Processor.last_month_data dw) <> [].
Proof.
  intros H. unfold Processor.last_month_data, tail, len in *. cbn [rows].
  intros E. apply (f_equal (@List.length Row)) in E.
  rewrite length_skipn in E. simpl in E. lia.
Qed.

Lemma iloc_last_raises {A} (l : list A) e :
  iloc_last l = inl e -> e = IndexError /\ l = [].
Proof.
  unfold iloc_last. destruct (rev l) eqn:E; [|discriminate].
  intros H. inversion H. split; [reflexivity|].
  apply (f_equal (@rev A)) in E. now rewrite rev_involutive in E.
Qed.

(* ------------------------------------------------------------------ *)
(** ** The empty series *)

(** C5 (the code at the empty series). On a series without any record the
    daily path raises [IndexError], at [.iloc[-1]], before it reaches its
    own test [len(last_day_data) == 0]; the weekly and the monthly path
    return [None] whenever the column exists. *)
Theorem empty_series_kpis :
  forall cols particle,
    Processor.calculate_kpis (mkFrame cols []) particle "D" = inl IndexError /\
    (In particle cols ->
     Processor.calculate_kpis (mkFrame cols []) particle "W" = inr None /\
     Processor.calculate_kpis (mkFrame cols []) particle "M" = inr None).
Proof.
  intros cols particle. split; [reflexivity|].
  intros H. apply index_of_In in H as [i H].
  unfold Processor.calculate_kpis. cbn [String.eqb Ascii.eqb Bool.eqb].
  rewrite weekly_unfold, monthly_unfold.
  unfold resample_D, resample_W_MON, resample_mean, getitem, sort_values.
  cbn [columns rows sort_rows fold_left]. rewrite H. split; reflexivity.
Qed.

Lemma empty_series_kpis_witness :
  Processor.calculate_kpis (mkFrame ["col"%string] []) "col" "W" = inr None /\
  Processor.calculate_kpis (mkFrame ["col"%string] []) "col" "M" = inr None.
Proof.
  apply (proj2 (empty_series_kpis ["col"%string] "col")).
  simpl. left. reflexivity.
Defined.

(* ------------------------------------------------------------------ *)
(** ** The buckets [resample] emits *)

Lemma fold_min_spec (k : Z) (ks : list Z) :
  In (fold_right Z.min k ks) (k :: ks) /\
  Forall (fun x => fold_right Z.min k ks <= x) (k :: ks).
Proof.
  induction ks as [|h t [IHin IHle]]; simpl.
  - split; [now left|]. constructor; [lia|constructor].
  - split.
    + destruct (Z.min_spec h (fold_right Z.min k t)) as [[_ ->] | [_ ->]].
      * right. now left.
      * destruct IHin as [<- | Hin]; [now left | right; now right].
    + inversion IHle as [|? ? Hk Ht]. subst.
      constructor; [lia|]. constructor; [lia|].
      eapply Forall_impl; [|exact Ht]. simpl. intros. lia.
Qed.

Lemma fold_max_spec (k : Z) (ks : list Z) :
  In (fold_right Z.max k ks) (k :: ks) /\
  Forall (fun x => x <= fold_right Z.max k ks) (k :: ks).
Proof.
  induction ks as [|h t [IHin IHle]]; simpl.
  - split; [now left|]. constructor; [lia|constructor].
  - split.
    + destruct (Z.max_spec h (fold_right Z.max k t)) as [[_ ->] | [_ ->]].
      * destruct IHin as [<- | Hin]; [now left | right; now right].
      * right. now left.
    + inversion IHle as [|? ? Hk Ht]. subst.
      constructor; [lia|]. constructor; [lia|].
      eapply Forall_impl; [|exact Ht]. simpl. intros. lia.
Qed.

(** The bins a series occupies: [first] is the bin of its earliest record
    and [last] the bin of its latest one. *)
Definition bin_span (bin : Z -> Z) (df : DataFrame) (first last : Z) : Prop :=
  In first (map (fun r => bin (timestamp r)) (rows df)) /\
  In last (map (fun r => bin (timestamp r)) (rows df)) /\
  Forall (fun b => first <= b <= last)
         (map (fun r => bin (timestamp r)) (rows df)).

(** The records of one bin. *)
Definition in_bin (bin : Z -> Z) (b : Z) (df : DataFrame) : DataFrame :=
  select (fun r => bin (timestamp r) =? b) df.

(** The distinct bins that hold at least one record. *)
Definition occupied_bins (bin : Z -> Z) (df : DataFrame) : list Z :=
  nodup Z.eq_dec (map (fun r => bin (timestamp r)) (rows df)).

Lemma keyed_bins {A} (bin : Z -> Z) (f : Row -> A) (l : list Row) :
  map (fun kv => bin (fst kv)) (combine (map timestamp l) (map f l)) =
  map (fun r => bin (timestamp r)) l.
Proof. induction l as [|r l IH]; simpl; [reflexivity | now rewrite IH]. Qed.

Lemma keyed_bin_values (bin : Z -> Z) (f : Row -> float) (l : list Row) b :
  bin_values bin (combine (map timestamp l) (map f l)) b =
  map f (filter (fun r => bin (timestamp r) =? b) l).
Proof.
  unfold bin_values. induction l as [|r l IH]; simpl; [reflexivity|].
  destruct (bin (timestamp r) =? b); simpl; now rewrite IH.
Qed.

Lemma zrange_length (a b : Z) :
  a <= b -> Z.of_nat (List.length (zrange a b)) = b - a + 1.
Proof. intros H. unfold zrange. rewrite length_map, length_seq. lia. Qed.

Lemma zrange_nth (a b x : Z) :
  a <= x <= b -> nth_error (zrange a b) (Z.to_nat (x - a)) = Some x.
Proof.
  intros H. unfold zrange.
  rewrite nth_error_map, nth_error_seq.
  assert (E : (Z.to_nat (x - a) <? Z.to_nat (b - a + 1))%nat = true)
    by (apply Nat.ltb_lt; lia).
  rewrite E. simpl. f_equal. lia.
Qed.

Lemma resample_mean_rows bin label df c dd first last :
  resample_mean bin label df c = inr dd ->
  bin_span bin df first last ->
  exists i,
    index_of c (columns df) = Some i /\
    rows dd =
      map (fun b =>
             mkRow (label b)
               [series_mean
                  (map (fun r => nth i (cells r) NaN)
                       (filter (fun r => bin (timestamp r) =? b) (rows df)))])
          (zrange first last).
Proof.
  unfold resample_mean, getitem. intros H (Hf & Hl & Hall).
  destruct (index_of c (columns df)) as [i|]; [|discriminate].
  exists i. split; [reflexivity|]. cbn [bind ret] in H.
  rewrite keyed_bins in H.
  destruct (map (fun r => bin (timestamp r)) (rows df)) as [|k ks] eqn:E.
  { destruct Hf. }
  destruct (fold_min_spec k ks) as [Hmin_in Hmin_le].
  destruct (fold_max_spec k ks) as [Hmax_in Hmax_le].
  rewrite Forall_forall in Hall, Hmin_le, Hmax_le.
  assert (E1 : fold_right Z.min k ks = first).
  { pose proof (Hall _ Hmin_in). pose proof (Hmin_le _ Hf). lia. }
  assert (E2 : fold_right Z.max k ks = last).
  { pose proof (Hall _ Hmax_in). pose proof (Hmax_le _ Hl). lia. }
  rewrite E1, E2 in H. inversion H. cbn [rows].
  apply map_ext. intros b. now rewrite keyed_bin_values.
Qed.

Definition gap_frame : DataFrame := sample_frame [0; 2].
Definition gap_daily : DataFrame := buckets_of (resample_D gap_frame "col").

(** C7 (as stated, refuted). A series with records on day 0 and on day 2
    only is resampled to three daily buckets, the middle one holding NaN,
    although two days only hold a record. *)
Lemma resample_emits_empty_bucket :
  resample_D gap_frame "col" = inr gap_daily /\
  rows gap_daily =
    [mkRow 0 [Num (Z2Qc 0)]; mkRow 86400 [NaN]; mkRow 172800 [Num (Z2Qc 2)]] /\
  List.length (occupied_bins day_bin gap_frame) = 2%nat /\
  List.length (rows gap_daily) <>
    List.length (occupied_bins day_bin gap_frame).
Proof.
  split; [vm_compute; reflexivity|].
  split; [by_eqb|].
  split; [vm_compute; reflexivity|].
  vm_compute. discriminate.
Qed.

(** C7 (amended). Resampling a series whose records occupy the bins from
    [first] to [last] emits one bucket for every bin number from [first] to
    [last], empty spans included: the output has [last - first + 1] rows,
    the row of bin [b] carries the label of [b] and the mean of the column
    over the records of [b], and that mean is NaN when no record falls in
    [b].  A series without any record is resampled to no bucket at all.
    This holds for the daily and for the Monday-closed weekly rule. *)
Theorem resample_one_bucket_per_bin :
  forall bin label df c dd,
    resample_mean bin label df c = inr dd ->
    (rows df = [] -> rows dd = []) /\
    (forall first last,
       bin_span bin df first last ->
       Z.of_nat (List.length (rows dd)) = last - first + 1 /\
       forall b, first <= b <= last ->
         exists vals,
           getitem (in_bin bin b df) c = inr vals /\
           nth_error (rows dd) (Z.to_nat (b - first)) =
             Some (mkRow (label b) [series_mean vals]) /\
           (rows (in_bin bin b df) = [] -> series_mean vals = NaN)).
Proof.
  intros bin label df c dd H. split.
  - intros E. unfold resample_mean, getitem in H. rewrite E in H.
    destruct (index_of c (columns df)); [|discriminate].
    cbn in H. inversion H. reflexivity.
  - intros first last Hspan.
    destruct (resample_mean_rows _ _ _ _ _ _ _ H Hspan) as (i & Hi & Hrows).
    assert (Hle : first <= last).
    { destruct Hspan as (Hf & _ & Hall). rewrite Forall_forall in Hall.
      specialize (Hall _ Hf). lia. }
    split.
    + rewrite Hrows, length_map. now apply zrange_length.
    + intros b Hb. eexists. split; [|split].
      * unfold getitem, in_bin, select. cbn [columns rows]. rewrite Hi.
        reflexivity.
      * rewrite Hrows, nth_error_map, zrange_nth by assumption. reflexivity.
      * unfold in_bin, select. cbn [rows]. intros ->. reflexivity.
Qed.

Lemma resample_one_bucket_per_bin_witness :
  resample_D gap_frame "col" = inr gap_daily /\
  bin_span day_bin gap_frame 0 2 /\
  Z.of_nat (List.length (rows gap_daily)) = 2 - 0 + 1.
Proof.
  assert (H : resample_D gap_frame "col" = inr gap_daily)
    by (vm_compute; reflexivity).
  assert (S : bin_span day_bin gap_frame 0 2).
  { repeat split; vm_compute; auto. repeat constructor; discriminate. }
  split; [exact H|]. split; [exact S|].
  apply (proj2 (resample_one_bucket_per_bin day_bin day_label gap_frame
                  "col" gap_daily H) 0 2 S).
Defined.

(* ------------------------------------------------------------------ *)
(** ** Sorting by timestamp *)

Definition le_ts (a b : Row) : Prop := timestamp a <= timestamp b.

Lemma insert_row_perm (r : Row) (l : list Row) :
  Permutation (insert_row r l) (r :: l).
Proof.
  induction l as [|h t IH]; simpl; [reflexivity|].
  destruct (timestamp r <? timestamp h); [reflexivity|].
  rewrite IH. apply perm_swap.
Qed.

Lemma sort_rows_acc_perm (l acc : list Row) :
  Permutation (fold_left (fun acc r => insert_row r acc) l acc) (l ++ acc).
Proof.
  revert acc. induction l as [|r l IH]; intros acc; simpl; [reflexivity|].
  rewrite IH, insert_row_perm. symmetry. apply Permutation_middle.
Qed.

Lemma sort_rows_perm (l : list Row) : Permutation (sort_rows l) l.
Proof.
  unfold sort_rows. rewrite sort_rows_acc_perm. now rewrite app_nil_r.
Qed.

Inductive sorted_ts : list Row -> Prop :=
| sorted_nil : sorted_ts []
| sorted_cons r l : Forall (le_ts r) l -> sorted_ts l -> sorted_ts (r :: l).

Lemma insert_row_sorted (r : Row) (l : list Row) :
  sorted_ts l -> sorted_ts (insert_row r l).
Proof.
  induction 1 as [|h t Hh Ht IH]; simpl.
  - constructor; constructor.
  - destruct (timestamp r <? timestamp h) eqn:E.
    + apply Z.ltb_lt in E. constructor; [|now constructor].
      constructor; [unfold le_ts; lia|].
      eapply Forall_impl; [|exact Hh]. unfold le_ts. intros. lia.
    + apply Z.ltb_ge in E. constructor; [|exact IH].
      rewrite Forall_forall. intros x Hx.
      apply (Permutation_in _ (insert_row_perm r t)) in Hx.
      destruct Hx as [<- | Hx]; [exact E|].
      rewrite Forall_forall in Hh. now apply Hh.
Qed.

Lemma sort_rows_acc_sorted (l acc : list Row) :
  sorted_ts acc ->
  sorted_ts (fold_left (fun acc r => insert_row r acc) l acc).
Proof.
  revert acc. induction l as [|r l IH]; intros acc H; simpl; [exact H|].
  apply IH. now apply insert_row_sorted.
Qed.

Lemma sort_rows_sorted (l : list Row) : sorted_ts (sort_rows l).
Proof. apply sort_rows_acc_sorted. constructor. Qed.

Lemma iloc_last_app {A} (l : list A) (x : A) : iloc_last (l ++ [x]) = inr x.
Proof. unfold iloc_last. now rewrite rev_unit. Qed.

Lemma iloc_last_inv {A} (l : list A) (x : A) :
  iloc_last l = inr x -> exists l', l = (l' ++ [x])%list.
Proof.
  unfold iloc_last. destruct (rev l) as [|y t] eqn:E; [discriminate|].
  intros H. inversion H. subst y. exists (rev t).
  apply (f_equal (@rev A)) in E. rewrite rev_involutive in E. exact E.
Qed.

Lemma iloc_last_nonempty {A} (l : list A) :
  l <> [] -> exists x, iloc_last l = inr x.
Proof.
  intros H. destruct (exists_last H) as (l' & x & ->).
  exists x. apply iloc_last_app.
Qed.

Lemma sorted_last_max (l : list Row) (x : Row) :
  sorted_ts (l ++ [x]) -> Forall (fun r => le_ts r x) (l ++ [x]).
Proof.
  induction l as [|h t IH]; simpl; intros H.
  - constructor; [unfold le_ts; lia | constructor].
  - inversion H as [|? ? Hh Ht]. subst. constructor.
    + rewrite Forall_forall in Hh. apply Hh. apply in_or_app. right. now left.
    + now apply IH.
Qed.

Lemma dt_date_mono (s t : Z) : s <= t -> dt_date s <= dt_date t.
Proof.
  intros H. unfold dt_date, seconds_per_day. apply Z.div_le_mono; lia.
Qed.

(** The date of the last record of the sorted series is the latest date of
    the series. *)
Lemma last_date_latest (data : DataFrame) (last_date : Z) :
  iloc_last (map (fun r => dt_date (timestamp r)) (rows (sort_values data))) =
    inr last_date ->
  In last_date (map (fun r => dt_date (timestamp r)) (rows data)) /\
  Forall (fun r => dt_date (timestamp r) <= last_date) (rows data).
Proof.
  cbn [sort_values rows]. intros H.
  pose proof (sort_rows_sorted (rows data)) as Hs.
  pose proof (sort_rows_perm (rows data)) as Hp.
  destruct (sort_rows (rows data)) as [|r0 l0] eqn:E using rev_ind.
  { discriminate. }
  rewrite map_app in H. cbn [map] in H.
  rewrite iloc_last_app in H. inversion H. subst last_date.
  split.
  - apply (in_map (fun r => dt_date (timestamp r))).
    apply (Permutation_in _ Hp). apply in_or_app.
    right. now left.
  - apply sorted_last_max in Hs. rewrite Forall_forall in *.
    intros r Hr. apply dt_date_mono. apply Hs.
    apply (Permutation_in _ (Permutation_sym Hp)). exact Hr.
Qed.

(* ------------------------------------------------------------------ *)
(** ** Minimum, mean and maximum of a window *)

Lemma Qcmin_cases (x y : Qc) :
  (Qcmin x y = x /\ (x <= y)%Qc) \/ (Qcmin x y = y /\ (y <= x)%Qc).
Proof.
  unfold Qcmin. destruct (Qcleb x y) eqn:E.
  - left. split; [reflexivity | now apply Qcleb_le].
  - right. split; [reflexivity | now apply Qcleb_gt].
Qed.

Lemma Qcmax_cases (x y : Qc) :
  (Qcmax x y = y /\ (x <= y)%Qc) \/ (Qcmax x y = x /\ (y <= x)%Qc).
Proof.
  unfold Qcmax. destruct (Qcleb x y) eqn:E.
  - left. split; [reflexivity | now apply Qcleb_le].
  - right. split; [reflexivity | now apply Qcleb_gt].
Qed.

Lemma fold_Qcmin_spec (x : Qc) (xs : list Qc) :
  In (fold_right Qcmin x xs) (x :: xs) /\
  Forall (fun y => (fold_right Qcmin x xs <= y)%Qc) (x :: xs).
Proof.
  induction xs as [|h t [IHin IHle]]; simpl.
  - split; [now left|]. constructor; [apply Qcle_refl | constructor].
  - inversion IHle as [|? ? Hx Ht]. subst.
    destruct (Qcmin_cases h (fold_right Qcmin x t)) as [[-> Hle] | [-> Hle]].
    + split; [right; now left|].
      constructor; [eapply Qcle_trans; eassumption|].
      constructor; [apply Qcle_refl|].
      eapply Forall_impl; [|exact Ht]. simpl. intros a Ha.
      eapply Qcle_trans; eassumption.
    + split.
      * destruct IHin as [<- | Hin]; [now left | right; now right].
      * constructor; [exact Hx|]. constructor; [exact Hle | exact Ht].
Qed.

Lemma fold_Qcmax_spec (x : Qc) (xs : list Qc) :
  In (fold_right Qcmax x xs) (x :: xs) /\
  Forall (fun y => (y <= fold_right Qcmax x xs)%Qc) (x :: xs).
Proof.
  induction xs as [|h t [IHin IHle]]; simpl.
  - split; [now left|]. constructor; [apply Qcle_refl | constructor].
  - inversion IHle as [|? ? Hx Ht]. subst.
    destruct (Qcmax_cases h (fold_right Qcmax x t)) as [[-> Hle] | [-> Hle]].
    + split.
      * destruct IHin as [<- | Hin]; [now left | right; now right].
      * constructor; [exact Hx|]. constructor; [exact Hle | exact Ht].
    + split; [right; now left|].
      constructor; [eapply Qcle_trans; eassumption|].
      constructor; [apply Qcle_refl|].
      eapply Forall_impl; [|exact Ht]. simpl. intros a Ha.
      eapply Qcle_trans; eassumption.
Qed.

(** *** Independence of the order of the records *)

Lemma dropna_perm (l l' : list float) :
  Permutation l l' -> Permutation (dropna l) (dropna l').
Proof.
  induction 1 as [|v l l' _ IH|v w l|l l' l'' _ IH1 _ IH2]; simpl.
  - reflexivity.
  - destruct v; [exact IH | now constructor].
  - destruct v, w; try reflexivity. apply perm_swap.
  - now rewrite IH1.
Qed.

Lemma Qcsum_perm (l l' : list Qc) : Permutation l l' -> Qcsum l = Qcsum l'.
Proof.
  induction 1 as [|v l l' _ IH|v w l|l l' l'' _ IH1 _ IH2]; simpl.
  - reflexivity.
  - now rewrite IH.
  - rewrite !Qcplus_assoc. f_equal. apply Qcplus_comm.
  - congruence.
Qed.

Lemma series_min_perm (l l' : list float) :
  Permutation l l' -> series_min l = series_min l'.
Proof.
  intros H. apply dropna_perm in H. unfold series_min.
  destruct (dropna l) as [|x xs], (dropna l') as [|y ys]; try reflexivity.
  - apply Permutation_nil in H. discriminate.
  - apply Permutation_sym, Permutation_nil in H. discriminate.
  - destruct (fold_Qcmin_spec x xs) as [Hin Hle].
    destruct (fold_Qcmin_spec y ys) as [Hin' Hle'].
    rewrite Forall_forall in Hle, Hle'. f_equal. apply Qcle_antisym.
    + apply Hle. apply (Permutation_in _ (Permutation_sym H)). exact Hin'.
    + apply Hle'. apply (Permutation_in _ H). exact Hin.
Qed.

Lemma series_max_perm (l l' : list float) :
  Permutation l l' -> series_max l = series_max l'.
Proof.
  intros H. apply dropna_perm in H. unfold series_max.
  destruct (dropna l) as [|x xs], (dropna l') as [|y ys]; try reflexivity.
  - apply Permutation_nil in H. discriminate.
  - apply Permutation_sym, Permutation_nil in H. discriminate.
  - destruct (fold_Qcmax_spec x xs) as [Hin Hle].
    destruct (fold_Qcmax_spec y ys) as [Hin' Hle'].
    rewrite Forall_forall in Hle, Hle'. f_equal. apply Qcle_antisym.
    + apply Hle'. apply (Permutation_in _ H). exact Hin.
    + apply Hle. apply (Permutation_in _ (Permutation_sym H)). exact Hin'.
Qed.

Lemma series_mean_perm (l l' : list float) :
  Permutation l l' -> series_mean l = series_mean l'.
Proof.
  intros H. apply dropna_perm in H. unfold series_mean.
  destruct (dropna l) as [|x xs], (dropna l') as [|y ys]; try reflexivity.
  - apply Permutation_nil in H. discriminate.
  - apply Permutation_sym, Permutation_nil in H. discriminate.
  - now rewrite (Qcsum_perm _ _ H), (Permutation_length H).
Qed.

Lemma kpi_of_perm cur cur' prev prev' label :
  Permutation cur cur' -> Permutation prev prev' ->
  forall available : bool,
    kpi_of cur (if available then Some prev else None) label =
    kpi_of cur' (if available then Some prev' else None) label.
Proof.
  intros Hc Hp available. unfold kpi_of.
  rewrite (series_min_perm _ _ Hc), (series_mean_perm _ _ Hc), (series_max_perm _ _ Hc).
  destruct available; cbn [option_map]; [|reflexivity].
  now rewrite (series_min_perm _ _ Hp), (series_mean_perm _ _ Hp),
    (series_max_perm _ _ Hp).
Qed.

(* ------------------------------------------------------------------ *)
(** ** The daily path *)

Lemma filter_perm {A} (p : A -> bool) (l l' : list A) :
  Permutation l l' -> Permutation (filter p l) (filter p l').
Proof.
  induction 1 as [|v l l' _ IH|v w l|l l' l'' _ IH1 _ IH2]; simpl.
  - reflexivity.
  - destruct (p v); [now constructor | exact IH].
  - destruct (p v), (p w); try reflexivity. apply perm_swap.
  - now rewrite IH1.
Qed.

Lemma getitem_select_sorted (p : Row -> bool) (data : DataFrame) c vals :
  getitem (select p (sort_values data)) c = inr vals ->
  exists vals',
    getitem (select p data) c = inr vals' /\ Permutation vals vals'.
Proof.
  unfold getitem, select, sort_values. cbn [columns rows].
  destruct (index_of c (columns data)) as [i|]; [|discriminate].
  intros H. inversion H. eexists. split; [reflexivity|].
  apply Permutation_map, filter_perm, sort_rows_perm.
Qed.

Lemma len_select_sorted (p : Row -> bool) (data : DataFrame) :
  len (select p (sort_values data)) = len (select p data).
Proof.
  unfold len, select, sort_values. cbn [rows]. f_equal.
  apply Permutation_length, filter_perm, sort_rows_perm.
Qed.

Lemma getitem_length (df : DataFrame) c vals :
  getitem df c = inr vals -> Z.of_nat (List.length vals) = len df.
Proof.
  unfold getitem. destruct (index_of c (columns df)); [|discriminate].
  intros H. inversion H. unfold len. now rewrite length_map.
Qed.

(** What the daily path returns on a series that has a record and the
    column, told on the series as it was passed, before sorting. *)
Lemma daily_kpis_result (data : DataFrame) (particle : string) :
  rows data <> [] -> In particle (columns data) ->
  exists last_date cur prev,
    iloc_last (map (fun r => dt_date (timestamp r))
                   (rows (sort_values data))) = inr last_date /\
    In last_date (map (fun r => dt_date (timestamp r)) (rows data)) /\
    Forall (fun r => dt_date (timestamp r) <= last_date) (rows data) /\
    getitem (Processor.last_day_data data last_date) particle = inr cur /\
    getitem (Processor.prev_day_data data last_date) particle = inr prev /\
    cur <> [] /\
    Processor.calculate_kpis data particle "D" =
      inr (Some (kpi_of cur
                   (if 0 <? len (Processor.prev_day_data data last_date)
                    then Some prev else None)
                   (strftime_dmY last_date))).
Proof.
  intros Hne Hcol.
  assert (Hs : map (fun r => dt_date (timestamp r))
                   (rows (sort_values data)) <> []).
  { cbn [sort_values rows]. intros E. apply map_eq_nil in E.
    pose proof (sort_rows_perm (rows data)) as Hp. rewrite E in Hp.
    apply Permutation_nil in Hp. contradiction. }
  destruct (iloc_last_nonempty _ Hs) as [last_date Hlast].
  destruct (last_date_latest data last_date Hlast) as [Hin Hmax].
  destruct (getitem_present (Processor.last_day_data (sort_values data)
                               last_date) particle Hcol)
    as (cur0 & Hcur0 & Hlen0).
  destruct (getitem_present (Processor.prev_day_data (sort_values data)
                               last_date) particle Hcol)
    as (prev0 & Hprev0 & _).
  destruct (getitem_select_sorted _ _ _ _ Hcur0) as (cur & Hcur & Pcur).
  destruct (getitem_select_sorted _ _ _ _ Hprev0) as (prev & Hprev & Pprev).
  assert (Hcur_ne : cur <> []).
  { apply in_map_iff in Hin as (r & Hr & Hin).
    assert (Hf : In r (rows (Processor.last_day_data data last_date))).
    { unfold Processor.last_day_data, select. cbn [rows].
      apply filter_In. split; [exact Hin | now apply Z.eqb_eq]. }
    apply getitem_length in Hcur.
    unfold Processor.last_day_data, len, select in Hf, Hcur.
    cbn [rows] in Hf, Hcur. intros E. subst cur. revert Hf Hcur.
    destruct (filter _ (rows data));
      [intros [] | intros _ H0; simpl in H0; discriminate H0]. }
  exists last_date, cur, prev. repeat (split; [assumption|]).
  unfold Processor.calculate_kpis. cbn [String.eqb Ascii.eqb Bool.eqb].
  rewrite daily_unfold, Hlast. cbn [bind].
  assert (E0 : (len (Processor.last_day_data (sort_values data) last_date)
                =? 0) = false).
  { apply Z.eqb_neq. rewrite <- (getitem_length _ _ _ Hcur0).
    rewrite (Permutation_length Pcur).
    destruct cur; [congruence | simpl; lia]. }
  rewrite E0, Hcur0, Hprev0. cbn [bind]. unfold ret. do 2 f_equal.
  unfold Processor.prev_day_data at 1. rewrite len_select_sorted.
  now apply kpi_of_perm.
Qed.

Lemma dt_date_midnight (d o : Z) :
  0 <= o < seconds_per_day -> dt_date (midnight d + o) = d.
Proof.
  intros H. unfold dt_date, midnight.
  rewrite Z.add_comm, Z.div_add by (unfold seconds_per_day; lia).
  rewrite Z.div_small by assumption. lia.
Qed.

(* ------------------------------------------------------------------ *)
(** ** The windows behind a record *)

(** The values of the current window of each path, as the path selects
    them. *)
Definition current_window (data : DataFrame) (particle timeframe : string)
  : result (list float) :=
  let data := sort_values data in
  if String.eqb timeframe "D" then
    last_date <-
      iloc_last (map (fun r => dt_date (timestamp r)) (rows data)) ;;
    getitem (Processor.last_day_data data last_date) particle
  else if String.eqb timeframe "W" then
    data_daily <- resample_D data particle ;;
    getitem (Processor.last_week_data data_daily) particle
  else if String.eqb timeframe "M" then
    data_weekly <- resample_W_MON data particle ;;
    getitem (Processor.last_month_data data_weekly) particle
  else raise invalid_timeframe.




(** The record a call returned, for the sample series below. *)
Definition returned (r : result (option KPI)) : KPI :=
  match r with
  | inr (Some kpi) => kpi
  | _ => mkKPI NaN NaN NaN None None None None None None ""
  end.

Definition ten_days_kpi : KPI :=
  returned (Processor.calculate_kpis ten_days "col" "W").

(* ------------------------------------------------------------------ *)
(** ** The delta pairs *)








(* ================================================================== *)
(** * Further properties of the KPI code *)

(** ** A column the series does not have *)

Lemma getitem_absent (df : DataFrame) (c : string) :
  ~ In c (columns df) -> getitem df c = inl (KeyError c).
Proof.
  intros H. unfold getitem.
  destruct (index_of c (columns df)) as [i|] eqn:E; [|reflexivity].
  exfalso. apply H. apply index_of_In. eauto.
Qed.

Lemma sort_rows_nonempty (l : list Row) : l <> [] -> sort_rows l <> [].
Proof.
  intros H E. pose proof (sort_rows_perm l) as P. rewrite E in P.
  apply Permutation_nil in P. contradiction.
Qed.



(* ------------------------------------------------------------------ *)
(** ** What a path answers, by the calendar span of the series *)

Lemma bin_span_perm bin (d1 d2 : DataFrame) first last :
  Permutation (rows d1) (rows d2) ->
  bin_span bin d1 first last -> bin_span bin d2 first last.
Proof.
  intros P (Hf & Hl & Hall).
  pose proof (Permutation_map (fun r => bin (timestamp r)) P) as Pm.
  repeat split.
  - exact (Permutation_in _ Pm Hf).
  - exact (Permutation_in _ Pm Hl).
  - exact (Permutation_Forall Pm Hall).
Qed.

Lemma bin_span_sorted bin data first last :
  bin_span bin data first last ->
  bin_span bin (sort_values data) first last.
Proof.
  apply bin_span_perm. cbn [sort_values rows].
  apply Permutation_sym, sort_rows_perm.
Qed.

Lemma bin_span_le bin df first last :
  bin_span bin df first last -> first <= last.
Proof.
  intros (Hf & _ & Hall). rewrite Forall_forall in Hall.
  specialize (Hall _ Hf). lia.
Qed.

Lemma resample_mean_present bin label df c :
  In c (columns df) ->
  exists dd, resample_mean bin label df c = inr dd /\ columns dd = [c].
Proof.
  intros H. destruct (getitem_present df c H) as (vals & Hv & _).
  unfold resample_mean. rewrite Hv. cbn [bind].
  destruct (map _ _); eexists; split; reflexivity.
Qed.

(** The number of buckets is the number of bins spanned. *)
Lemma resample_mean_len bin label df c dd first last :
  resample_mean bin label df c = inr dd ->
  bin_span bin df first last ->
  len dd = last - first + 1.
Proof.
  intros H S. destruct (resample_mean_rows _ _ _ _ _ _ _ H S) as (i & _ & E).
  unfold len. rewrite E, length_map.
  apply zrange_length. exact (bin_span_le _ _ _ _ S).
Qed.

Lemma windows_kpis_present current previous particle :
  rows current <> [] ->
  In particle (columns current) -> In particle (columns previous) ->
  exists kpi, windows_kpis current previous particle = inr (Some kpi).
Proof.
  intros Hne Hc Hp. unfold windows_kpis.
  destruct (getitem_present current particle Hc) as (cur & -> & _).
  destruct (getitem_present previous particle Hp) as (prev & -> & _).
  cbn [bind].
  destruct (timestamp_min_some _ Hne) as [t1 ->].
  destruct (timestamp_max_some _ Hne) as [t2 ->].
  destruct (strftime_dm_some t1) as [s1 ->].
  destruct (strftime_dm_some t2) as [s2 ->].
  cbn [bind]. eexists. reflexivity.
Qed.

(** X2. Weekly path on a series that has the column, whose records run from
    day [first] to day [last]: the call returns [None] when all records
    fall on one day, raises [KeyError] when the series spans 2 to 7 calendar
    days, and returns a record as soon as it spans 8 days or more, however
    many of these days hold a record. *)
Theorem weekly_outcome_by_span :
  forall data particle first last,
    In particle (columns data) ->
    bin_span day_bin data first last ->
    (last = first ->
     Processor.calculate_kpis data particle "W" = inr None) /\
    (1 <= last - first <= 6 ->
     Processor.calculate_kpis data particle "W" =
       inl (KeyError particle)) /\
    (7 <= last - first ->
     exists kpi,
       Processor.calculate_kpis data particle "W" = inr (Some kpi)).
Proof.
  intros data particle first last Hcol Hspan.
  apply bin_span_sorted in Hspan.
  assert (Hcol' : In particle (columns (sort_values data))) by exact Hcol.
  destruct (resample_mean_present day_bin day_label _ _ Hcol')
    as (dd & Hdd & Hcols).
  pose proof (resample_mean_len _ _ _ _ _ _ _ Hdd Hspan) as Hlen.
  unfold Processor.calculate_kpis. cbn [String.eqb Ascii.eqb Bool.eqb].
  split; [|split].
  - intros E. rewrite weekly_unfold. unfold resample_D. rewrite Hdd.
    cbn [bind].
    destruct (len dd <? 2) eqn:E2; [reflexivity|].
    apply Z.ltb_ge in E2. lia.
  - intros H. apply (weekly_short_history_raises _ _ dd Hdd). lia.
  - intros H. rewrite weekly_unfold. unfold resample_D. rewrite Hdd.
    cbn [bind].
    destruct (len dd <? 2) eqn:E2; [apply Z.ltb_lt in E2; lia|].
    apply windows_kpis_present.
    + apply last_week_nonempty. lia.
    + unfold Processor.last_week_data, tail. cbn [columns].
      rewrite Hcols. now left.
    + unfold Processor.prev_week_data.
      destruct (14 <=? len dd); [cbn [iloc columns]; rewrite Hcols; now left|].
      destruct (8 <=? len dd) eqn:E8; [|apply Z.leb_gt in E8; lia].
      cbn [iloc columns]. rewrite Hcols. now left.
Qed.

Lemma weekly_outcome_by_span_witness :
  Processor.calculate_kpis gap_frame "col" "W" = inl (KeyError "col").
Proof.
  assert (Hc : In "col"%string (columns gap_frame)) by (left; reflexivity).
  assert (S : bin_span day_bin gap_frame 0 2).
  { repeat split; vm_compute; auto. repeat constructor; discriminate. }
  apply (proj1 (proj2 (weekly_outcome_by_span gap_frame "col" 0 2 Hc S))).
  lia.
Defined.

(** X3. Monthly path on a series that has the column, whose records run
    from the Monday-closed week [first] to the week [last]: the call returns
    [None] when all records fall in one week, raises [KeyError] when the
    series spans 2 to 4 weeks, and returns a record as soon as it spans 5
    weeks or more. *)
Theorem monthly_outcome_by_span :
  forall data particle first last,
    In particle (columns data) ->
    bin_span week_bin data first last ->
    (last = first ->
     Processor.calculate_kpis data particle "M" = inr None) /\
    (1 <= last - first <= 3 ->
     Processor.calculate_kpis data particle "M" =
       inl (KeyError particle)) /\
    (4 <= last - first ->
     exists kpi,
       Processor.calculate_kpis data particle "M" = inr (Some kpi)).
Proof.
  intros data particle first last Hcol Hspan.
  apply bin_span_sorted in Hspan.
  assert (Hcol' : In particle (columns (sort_values data))) by exact Hcol.
  destruct (resample_mean_present week_bin week_label _ _ Hcol')
    as (dw & Hdw & Hcols).
  pose proof (resample_mean_len _ _ _ _ _ _ _ Hdw Hspan) as Hlen.
  unfold Processor.calculate_kpis. cbn [String.eqb Ascii.eqb Bool.eqb].
  split; [|split].
  - intros E. rewrite monthly_unfold. unfold resample_W_MON. rewrite Hdw.
    cbn [bind].
    destruct (len dw <? 2) eqn:E2; [reflexivity|].
    apply Z.ltb_ge in E2. lia.
  - intros H. apply (monthly_short_history_raises _ _ dw Hdw). lia.
  - intros H. rewrite monthly_unfold. unfold resample_W_MON. rewrite Hdw.
    cbn [bind].
    destruct (len dw <? 2) eqn:E2; [apply Z.ltb_lt in E2; lia|].
    apply windows_kpis_present.
    + apply last_month_nonempty. lia.
    + unfold Processor.last_month_data, tail. cbn [columns].
      rewrite Hcols. now left.
    + unfold Processor.prev_month_data.
      destruct (8 <=? len dw); [cbn [iloc columns]; rewrite Hcols; now left|].
      destruct (5 <=? len dw) eqn:E5; [|apply Z.leb_gt in E5; lia].
      cbn [iloc columns]. rewrite Hcols. now left.
Qed.

Lemma monthly_outcome_by_span_witness :
  exists kpi,
    Processor.calculate_kpis nine_weeks "col" "M" = inr (Some kpi).
Proof.
  assert (Hc : In "col"%string (columns nine_weeks)) by (left; reflexivity).
  assert (S : bin_span week_bin nine_weeks 0 8).
  { repeat split; vm_compute; auto 12. repeat constructor; discriminate. }
  apply (proj2 (proj2 (monthly_outcome_by_span nine_weeks "col" 0 8 Hc S))).
  lia.
Defined.

(* ------------------------------------------------------------------ *)
(** ** The bins of a series with a record, and its latest date *)

Lemma bin_span_exists bin (df : DataFrame) :
  rows df <> [] -> exists first last, bin_span bin df first last.
Proof.
  intros H. unfold bin_span.
  destruct (map (fun r => bin (timestamp r)) (rows df)) as [|k ks] eqn:E.
  { apply map_eq_nil in E. contradiction. }
  destruct (fold_min_spec k ks) as [Hmin_in Hmin_le].
  destruct (fold_max_spec k ks) as [Hmax_in Hmax_le].
  exists (fold_right Z.min k ks), (fold_right Z.max k ks).
  repeat split; try assumption.
  rewrite Forall_forall in *. intros b Hb.
  split; [now apply Hmin_le | now apply Hmax_le].
Qed.


Lemma latest_date_unique (l : list Row) (d d' : Z) :
  In d (map (fun r => dt_date (timestamp r)) l) ->
  Forall (fun r => dt_date (timestamp r) <= d) l ->
  In d' (map (fun r => dt_date (timestamp r)) l) ->
  Forall (fun r => dt_date (timestamp r) <= d') l ->
  d = d'.
Proof.
  intros Hin Hmax Hin' Hmax'. rewrite Forall_forall in Hmax, Hmax'.
  apply in_map_iff in Hin as (r & <- & Hr).
  apply in_map_iff in Hin' as (r' & <- & Hr').
  pose proof (Hmax _ Hr'). pose proof (Hmax' _ Hr). lia.
Qed.

Lemma missing_column_absent_daily (data : DataFrame) (particle : string) :
  ~ In particle (columns data) -> rows data <> [] ->
  Processor.calculate_kpis data particle "D" = inl (KeyError particle).
Proof.
  intros H Hne.
  unfold Processor.calculate_kpis. cbn [String.eqb Ascii.eqb Bool.eqb].
  rewrite daily_unfold.
  assert (Hd : map (fun r => dt_date (timestamp r))
                   (rows (sort_values data)) <> []).
  { cbn [sort_values rows]. intros E. apply map_eq_nil in E.
    now apply (sort_rows_nonempty _ Hne). }
  destruct (iloc_last_nonempty _ Hd) as [d Hlast]. rewrite Hlast.
  cbn [bind].
  destruct (last_date_latest data d Hlast) as [Hin _].
  apply in_map_iff in Hin as (r & Hr & Hin).
  assert (E0 : (len (Processor.last_day_data (sort_values data) d) =? 0)
               = false).
  { apply Z.eqb_neq. unfold Processor.last_day_data.
    rewrite len_select_sorted. unfold len, select. cbn [rows].
    assert (Hf : In r (filter (fun r => dt_date (timestamp r) =? d)
                              (rows data)))
      by (apply filter_In; split; [exact Hin | now apply Z.eqb_eq]).
    destruct (filter _ (rows data)); [destruct Hf | simpl; lia]. }
  rewrite E0. unfold Processor.last_day_data.
  rewrite getitem_absent; [reflexivity | exact H].
Qed.

(* ------------------------------------------------------------------ *)
(** ** A day without record before the last day *)

Lemma filter_none {A} (p : A -> bool) (l : list A) :
  (forall x, In x l -> p x = false) -> filter p l = [].
Proof.
  induction l as [|h t IH]; simpl; intros H; [reflexivity|].
  rewrite (H h) by now left. apply IH. intros x Hx. apply H. now right.
Qed.

(** X7. Daily path: when no record is dated the day before the latest date
    of the series, the record returned carries no delta at all, whatever
    older records the series holds. *)
Theorem daily_gap_no_delta :
  forall data particle kpi last_date,
    Processor.calculate_kpis data particle "D" = inr (Some kpi) ->
    In last_date (map (fun r => dt_date (timestamp r)) (rows data)) ->
    Forall (fun r => dt_date (timestamp r) <= last_date) (rows data) ->
    (forall r, In r (rows data) -> dt_date (timestamp r) <> last_date - 1) ->
    min_delta kpi = None /\ min_delta_pct kpi = None /\
    mean_delta kpi = None /\ mean_delta_pct kpi = None /\
    max_delta kpi = None /\ max_delta_pct kpi = None.
Proof.
  intros data particle kpi last_date Hk Hin Hmax Hgap.
  assert (Hne : rows data <> []).
  { intros E. rewrite E in Hin. destruct Hin. }
  destruct (in_dec string_dec particle (columns data)) as [Hcol | Hout].
  2:{ rewrite (missing_column_absent_daily data particle Hout Hne) in Hk.
      discriminate Hk. }
  destruct (daily_kpis_result data particle Hne Hcol)
    as (d & cur & prev & _ & Hd & Hdmax & _ & _ & _ & Hk').
  assert (d = last_date)
    by (apply (latest_date_unique (rows data)); assumption).
  subst d. rewrite Hk in Hk'. inversion Hk' as [E]. clear Hk'.
  assert (E0 : len (Processor.prev_day_data data last_date) = 0).
  { unfold len, Processor.prev_day_data, select. cbn [rows].
    rewrite filter_none; [reflexivity|].
    intros r Hr. apply Z.eqb_neq. now apply Hgap. }
  rewrite E0. cbn. repeat split; reflexivity.
Qed.

Lemma daily_gap_no_delta_witness :
  min_delta (returned (Processor.calculate_kpis gap_frame "col" "D")) = None.
Proof.
  assert (Hk : Processor.calculate_kpis gap_frame "col" "D" =
               inr (Some (returned
                            (Processor.calculate_kpis gap_frame "col" "D"))))
    by (vm_compute; reflexivity).
  refine (proj1 (daily_gap_no_delta gap_frame "col" _ 2 Hk _ _ _)).
  - vm_compute. auto.
  - repeat constructor; vm_compute; discriminate.
  - intros r [<- | [<- | []]]; vm_compute; discriminate.
Defined.

(* ------------------------------------------------------------------ *)
(** ** The period the label of a record names *)

(** [date.strftime('%d/%m')] of a day number. *)
Definition day_month (d : Z) : string :=
  let '(_, mm, dd) := civil_from_days d in
  (two_digits dd ++ "/" ++ two_digits mm)%string.

Lemma strftime_dm_midnight (d : Z) :
  strftime_dm (Some (midnight d)) = inr (day_month d).
Proof.
  unfold strftime_dm, day_month.
  replace (dt_date (midnight d)) with d; [reflexivity|].
  rewrite <- (Z.add_0_r (midnight d)). symmetry.
  apply dt_date_midnight. unfold seconds_per_day. lia.
Qed.

Lemma zrange_In (a b x : Z) : In x (zrange a b) <-> a <= x <= b.
Proof.
  unfold zrange. rewrite in_map_iff. split.
  - intros (i & <- & Hi). apply in_seq in Hi. lia.
  - intros H. exists (Z.to_nat (x - a)). split; [lia|].
    apply in_seq. lia.
Qed.

Lemma map_seq_offset {A} (f : nat -> A) (j s m : nat) :
  map f (seq (j + s) m) = map (fun i => f (j + i)%nat) (seq s m).
Proof.
  revert s. induction m as [|m IH]; intros s; simpl; [reflexivity|].
  f_equal. rewrite <- IH. f_equal. f_equal. lia.
Qed.

Lemma zrange_skipn (a b : Z) (j : nat) :
  skipn j (zrange a b) = zrange (a + Z.of_nat j) b.
Proof.
  unfold zrange. rewrite skipn_map, skipn_seq.
  replace (Z.to_nat (b - (a + Z.of_nat j) + 1))
    with (Z.to_nat (b - a + 1) - j)%nat by lia.
  replace (0 + j)%nat with (j + 0)%nat by lia.
  rewrite map_seq_offset. apply map_ext. intros i. lia.
Qed.

(** The first and the last timestamp of a run of buckets whose labels grow
    with the bin. *)
Lemma bucket_run_bounds (label : Z -> Z) (cell : Z -> list float)
    (cols : list string) (a b : Z) :
  (forall x y, x <= y -> label x <= label y) -> a <= b ->
  let df := mkFrame cols (map (fun x => mkRow (label x) (cell x))
                              (zrange a b)) in
  timestamp_min df = Some (label a) /\ timestamp_max df = Some (label b).
Proof.
  intros Hmono Hab df. unfold timestamp_min, timestamp_max, df.
  cbn [rows]. rewrite map_map. cbn [timestamp].
  destruct (map label (zrange a b)) as [|k ks] eqn:E.
  { assert (Ha : In a (zrange a b)) by (apply zrange_In; lia).
    apply (in_map label) in Ha. rewrite E in Ha. destruct Ha. }
  destruct (fold_min_spec k ks) as [Hmin_in Hmin_le].
  destruct (fold_max_spec k ks) as [Hmax_in Hmax_le].
  rewrite <- E in Hmin_in, Hmin_le, Hmax_in, Hmax_le.
  rewrite Forall_forall in Hmin_le, Hmax_le.
  apply in_map_iff in Hmin_in as (x & Hx & Hxin).
  apply in_map_iff in Hmax_in as (y & Hy & Hyin).
  apply zrange_In in Hxin. apply zrange_In in Hyin.
  assert (Ha : In (label a) (map label (zrange a b)))
    by (apply in_map, zrange_In; lia).
  assert (Hb : In (label b) (map label (zrange a b)))
    by (apply in_map, zrange_In; lia).
  pose proof (Hmin_le _ Ha). pose proof (Hmax_le _ Hb).
  pose proof (Hmono a x ltac:(lia)). pose proof (Hmono y b ltac:(lia)).
  split; f_equal; lia.
Qed.

Lemma windows_kpis_label current previous particle kpi :
  windows_kpis current previous particle = inr (Some kpi) ->
  exists start_date end_date,
    strftime_dm (timestamp_min current) = inr start_date /\
    strftime_dm (timestamp_max current) = inr end_date /\
    period_label kpi = (start_date ++ " - " ++ end_date)%string.
Proof.
  unfold windows_kpis.
  destruct (getitem current particle) as [e|cur]; cbn [bind];
    [discriminate|].
  destruct (getitem previous particle) as [e|prev]; cbn [bind];
    [discriminate|].
  destruct (strftime_dm (timestamp_min current)) as [e|s1]; cbn [bind];
    [discriminate|].
  destruct (strftime_dm (timestamp_max current)) as [e|s2]; cbn [bind];
    [discriminate|].
  intros H. inversion H. exists s1, s2. repeat split; reflexivity.
Qed.

(** The label of a record built from the last [k] buckets of a resampled
    series, when the call got as far as returning one. *)
Lemma resampled_label bin label data particle dd first last k previous kpi :
  (forall x y, x <= y -> label x <= label y) ->
  (forall b, dt_date (label b) * seconds_per_day = label b) ->
  resample_mean bin label data particle = inr dd ->
  bin_span bin data first last ->
  0 < k <= last - first + 1 ->
  windows_kpis (tail dd k) previous particle = inr (Some kpi) ->
  period_label kpi =
    (day_month (dt_date (label (last - k + 1))) ++ " - " ++
     day_month (dt_date (label last)))%string.
Proof.
  intros Hmono Hmid Hdd Hspan Hk Hw.
  destruct (resample_mean_rows _ _ _ _ _ _ _ Hdd Hspan) as (i & _ & Hrows).
  pose proof (bin_span_le _ _ _ _ Hspan) as Hle.
  destruct (windows_kpis_label _ _ _ _ Hw) as (s & e & Hs & He & ->).
  assert (Ht : rows (tail dd k) =
               map (fun b =>
                      mkRow (label b)
                        [series_mean
                           (map (fun r => nth i (cells r) NaN)
                              (filter (fun r => bin (timestamp r) =? b)
                                      (rows data)))])
                   (zrange (last - k + 1) last)).
  { unfold tail. cbn [rows]. rewrite Hrows, length_map, skipn_map.
    rewrite zrange_skipn. do 2 f_equal.
    pose proof (zrange_length first last Hle). lia. }
  destruct (bucket_run_bounds label
              (fun b => [series_mean
                           (map (fun r => nth i (cells r) NaN)
                              (filter (fun r => bin (timestamp r) =? b)
                                      (rows data)))])
              (columns (tail dd k)) (last - k + 1) last Hmono ltac:(lia))
    as [Hmin Hmax].
  rewrite <- Ht in Hmin, Hmax.
  assert (Hframe : mkFrame (columns (tail dd k)) (rows (tail dd k)) =
                   tail dd k) by (destruct (tail dd k); reflexivity).
  rewrite Hframe in Hmin, Hmax. rewrite Hmin in Hs. rewrite Hmax in He.
  rewrite <- (Hmid (last - k + 1)) in Hs. rewrite <- (Hmid last) in He.
  fold (midnight (dt_date (label (last - k + 1)))) in Hs.
  fold (midnight (dt_date (label last))) in He.
  rewrite strftime_dm_midnight in Hs, He.
  inversion Hs. inversion He. reflexivity.
Qed.

Lemma midnight_mono (x y : Z) : x <= y -> midnight x <= midnight y.
Proof. unfold midnight, seconds_per_day. lia. Qed.

Lemma dt_date_of_midnight (d : Z) : dt_date (midnight d) = d.
Proof.
  rewrite <- (Z.add_0_r (midnight d)).
  apply dt_date_midnight. unfold seconds_per_day. lia.
Qed.

(** X8. Weekly path: whenever it returns a record, the series spans at
    least 8 calendar days and the label of the record names the 7 calendar
    days that end on the date of the latest record, whether or not each of
    these days holds a record. *)
Theorem weekly_label_last_seven_days :
  forall data particle kpi first last,
    bin_span day_bin data first last ->
    Processor.calculate_kpis data particle "W" = inr (Some kpi) ->
    7 <= last - first /\
    period_label kpi =
      (day_month (last - 6) ++ " - " ++ day_month last)%string.
Proof.
  intros data particle kpi first last Hspan Hk.
  apply bin_span_sorted in Hspan.
  unfold Processor.calculate_kpis in Hk.
  cbn [String.eqb Ascii.eqb Bool.eqb] in Hk.
  destruct (resample_D (sort_values data) particle) as [e|dd] eqn:Hdd.
  { rewrite weekly_unfold, Hdd in Hk. discriminate Hk. }
  pose proof (resample_mean_len _ _ _ _ _ _ _ Hdd Hspan) as Hlen.
  pose proof (bin_span_le _ _ _ _ Hspan) as Hle.
  assert (H8 : 8 <= len dd).
  { destruct (Z.lt_ge_cases (len dd) 8) as [Hlt | Hge]; [|exact Hge].
    destruct (Z.lt_ge_cases (len dd) 2) as [Hlt2 | Hge2].
    - rewrite weekly_unfold, Hdd in Hk. cbn [bind] in Hk.
      apply Z.ltb_lt in Hlt2. rewrite Hlt2 in Hk. discriminate Hk.
    - rewrite (weekly_short_history_raises _ _ dd Hdd) in Hk by lia.
      discriminate Hk. }
  split; [lia|].
  rewrite weekly_unfold, Hdd in Hk. cbn [bind] in Hk.
  destruct (len dd <? 2) eqn:E2; [apply Z.ltb_lt in E2; lia|].
  unfold Processor.last_week_data in Hk.
  replace (Z.min 7 (len dd)) with 7 in Hk by lia.
  assert (Hmid : forall b, dt_date (day_label b) * seconds_per_day =
                           day_label b).
  { intros b. unfold day_label. now rewrite dt_date_of_midnight. }
  rewrite (resampled_label day_bin day_label _ _ _ first last 7 _ _
             midnight_mono Hmid Hdd Hspan ltac:(lia) Hk).
  unfold day_label. rewrite !dt_date_of_midnight.
  now replace (last - 7 + 1) with (last - 6) by lia.
Qed.

Lemma weekly_label_last_seven_days_witness :
  period_label ten_days_kpi = "05/01 - 11/01"%string.
Proof.
  assert (S : bin_span day_bin ten_days 1 10).
  { repeat split; vm_compute; auto 12. repeat constructor; discriminate. }
  assert (Hk : Processor.calculate_kpis ten_days "col" "W" =
               inr (Some ten_days_kpi)) by (vm_compute; reflexivity).
  exact (proj2 (weekly_label_last_seven_days ten_days "col" ten_days_kpi
                  1 10 S Hk)).
Defined.

Lemma week_end_mono (d d' : Z) : d <= d' -> week_end d <= week_end d'.
Proof.
  intros H. pose proof (week_end_monday d) as M.
  pose proof (week_end_monday d') as M'.
  pose proof (week_end_range d). pose proof (week_end_range d').
  unfold weekday in M, M'. Z.to_euclidean_division_equations. lia.
Qed.

Lemma week_bin_mono (s t : Z) :
  dt_date s <= dt_date t -> week_bin s <= week_bin t.
Proof.
  intros H. unfold week_bin. apply Z.div_le_mono; [lia|].
  now apply week_end_mono.
Qed.

Lemma week_label_mono (x y : Z) : x <= y -> week_label x <= week_label y.
Proof. intros H. unfold week_label. apply midnight_mono. lia. Qed.

Lemma week_bin_end (d : Z) : 7 * (week_end d / 7) + 4 = week_end d.
Proof.
  pose proof (week_end_monday d) as M. unfold weekday in M.
  Z.to_euclidean_division_equations. lia.
Qed.

(** The last weekly bin of a series is the bin of its latest date. *)
Lemma last_week_bin (data : DataFrame) (first last latest : Z) :
  bin_span week_bin data first last ->
  In latest (map (fun r => dt_date (timestamp r)) (rows data)) ->
  Forall (fun r => dt_date (timestamp r) <= latest) (rows data) ->
  7 * last + 4 = week_end latest.
Proof.
  intros (_ & Hl & Hall) Hin Hmax.
  rewrite Forall_forall in Hall, Hmax.
  apply in_map_iff in Hl as (r & Hr & Hrin).
  apply in_map_iff in Hin as (r0 & Hr0 & Hr0in).
  assert (H1 : week_bin (timestamp r0) <= last).
  { apply (Hall (week_bin (timestamp r0))).
    apply (in_map (fun r => week_bin (timestamp r))). exact Hr0in. }
  assert (H2 : last <= week_bin (timestamp r0)).
  { rewrite <- Hr. apply week_bin_mono. rewrite Hr0. now apply Hmax. }
  assert (E : last = week_bin (timestamp r0)) by lia.
  rewrite E. unfold week_bin. rewrite Hr0. apply week_bin_end.
Qed.

(** X9. Monthly path: whenever it returns a record, the series spans at
    least 5 Monday-closed weeks and the label of the record runs from a
    Monday to the Monday three weeks later; that last Monday is the one on
    or after the date of the latest record, so it lies up to 6 days past the
    last data. *)
Theorem monthly_label_four_mondays :
  forall data particle kpi latest,
    In latest (map (fun r => dt_date (timestamp r)) (rows data)) ->
    Forall (fun r => dt_date (timestamp r) <= latest) (rows data) ->
    Processor.calculate_kpis data particle "M" = inr (Some kpi) ->
    weekday (week_end latest) = 0 /\
    latest <= week_end latest <= latest + 6 /\
    period_label kpi =
      (day_month (week_end latest - 21) ++ " - " ++
       day_month (week_end latest))%string.
Proof.
  intros data particle kpi latest Hin Hmax Hk.
  split; [apply week_end_monday|]. split; [apply week_end_range|].
  assert (Hne : rows data <> []).
  { intros E. rewrite E in Hin. destruct Hin. }
  destruct (bin_span_exists week_bin data Hne) as (first & last & Hspan0).
  pose proof (last_week_bin data first last latest Hspan0 Hin Hmax) as Hend.
  pose proof (bin_span_sorted _ _ _ _ Hspan0) as Hspan.
  unfold Processor.calculate_kpis in Hk.
  cbn [String.eqb Ascii.eqb Bool.eqb] in Hk.
  destruct (resample_W_MON (sort_values data) particle) as [e|dw] eqn:Hdw.
  { rewrite monthly_unfold, Hdw in Hk. discriminate Hk. }
  pose proof (resample_mean_len _ _ _ _ _ _ _ Hdw Hspan) as Hlen.
  pose proof (bin_span_le _ _ _ _ Hspan) as Hle.
  assert (H5 : 5 <= len dw).
  { destruct (Z.lt_ge_cases (len dw) 5) as [Hlt | Hge]; [|exact Hge].
    destruct (Z.lt_ge_cases (len dw) 2) as [Hlt2 | Hge2].
    - rewrite monthly_unfold, Hdw in Hk. cbn [bind] in Hk.
      apply Z.ltb_lt in Hlt2. rewrite Hlt2 in Hk. discriminate Hk.
    - rewrite (monthly_short_history_raises _ _ dw Hdw) in Hk by lia.
      discriminate Hk. }
  rewrite monthly_unfold, Hdw in Hk. cbn [bind] in Hk.
  destruct (len dw <? 2) eqn:E2; [apply Z.ltb_lt in E2; lia|].
  unfold Processor.last_month_data in Hk.
  replace (Z.min 4 (len dw)) with 4 in Hk by lia.
  assert (Hmid : forall b, dt_date (week_label b) * seconds_per_day =
                           week_label b).
  { intros b. unfold week_label. now rewrite dt_date_of_midnight. }
  rewrite (resampled_label week_bin week_label _ _ _ first last 4 _ _
             week_label_mono Hmid Hdw Hspan ltac:(lia) Hk).
  unfold week_label. rewrite !dt_date_of_midnight.
  replace (7 * (last - 4 + 1) + 4) with (week_end latest - 21) by lia.
  now rewrite Hend.
Qed.

Lemma monthly_label_four_mondays_witness :
  period_label (returned (Processor.calculate_kpis nine_weeks "col" "M")) =
    (day_month (week_end 56 - 21) ++ " - " ++ day_month (week_end 56))%string.
Proof.
  assert (Hk : Processor.calculate_kpis nine_weeks "col" "M" =
               inr (Some (returned
                            (Processor.calculate_kpis nine_weeks "col" "M"))))
    by (vm_compute; reflexivity).
  refine (proj2 (proj2 (monthly_label_four_mondays nine_weeks "col" _ 56
                          _ _ Hk))).
  - vm_compute. auto 12.
  - repeat constructor; vm_compute; discriminate.
Defined.

(* ================================================================== *)
(** * The pages: [pages/01_Exploration.py], and the same code in
      [streamlit_App/dashboard.py] *)

(** ** More of pandas and of Python *)

(** Day number of a calendar date (proleptic Gregorian). *)
Definition days_from_civil (y m d : Z) : Z :=
  let y' := if m <=? 2 then y - 1 else y in
  let era := y' / 400 in
  let yoe := y' - era * 400 in
  let mp := if 2 <? m then m - 3 else m + 9 in
  let doy := (153 * mp + 2) / 5 + d - 1 in
  let doe := yoe * 365 + yoe / 4 - yoe / 100 + doy in
  era * 146097 + doe - 719468.

(** Rule ['MS']: calendar months, closed on the left and labelled by the
    midnight of their first day. *)
Definition month_bin (t : Z) : Z :=
  let '(yy, mm, _) := civil_from_days (dt_date t) in 12 * yy + (mm - 1).
Definition month_label (b : Z) : Z :=
  midnight (days_from_civil (b / 12) (b mod 12 + 1) 1).

Definition resample_MS := resample_mean month_bin month_label.

(** [df.empty] for a frame that has its timestamp column. *)
Definition empty (df : DataFrame) : bool :=
  match rows df with
  | [] => true
  | _ :: _ => false
  end.

(** [df.drop(columns=names)], every name being a column of the frame. *)
Definition mem (c : string) (names : list string) : bool :=
  existsb (String.eqb c) names.

Fixpoint drop_cells (cols names : list string) (cs : list float)
  : list float :=
  match cols, cs with
  | c :: cols', v :: cs' =>
      if mem c names then drop_cells cols' names cs'
      else v :: drop_cells cols' names cs'
  | _, _ => []
  end.

Definition drop (df : DataFrame) (names : list string) : DataFrame :=
  mkFrame (filter (fun c => negb (mem c names)) (columns df))
          (map (fun r => mkRow (timestamp r)
                           (drop_cells (columns df) names (cells r)))
               (rows df)).

(** [int(s, 16)] on a string of hexadecimal digits. *)
Definition hex_digit (c : ascii) : option Z :=
  let n := Z.of_nat (nat_of_ascii c) in
  if (48 <=? n) && (n <=? 57) then Some (n - 48)
  else if (97 <=? n) && (n <=? 102) then Some (n - 87)
  else if (65 <=? n) && (n <=? 70) then Some (n - 55)
  else None.

Fixpoint int_16_from (acc : Z) (s : string) : result Z :=
  match s with
  | EmptyString => ret acc
  | String c s' =>
      match hex_digit c with
      | Some v => int_16_from (16 * acc + v) s'
      | None => raise (ValueError "invalid literal for int() with base 16")
      end
  end.

Definition int_16 (s : string) : result Z :=
  match s with
  | EmptyString => raise (ValueError "invalid literal for int() with base 16")
  | _ => int_16_from 0 s
  end.

(** [s.lstrip("#")] *)
Fixpoint lstrip_hash (s : string) : string :=
  match s with
  | String "#" s' => lstrip_hash s'
  | _ => s
  end.

(** [s[i:i+2]] for [0 <= i] *)
Definition two_chars (s : string) (i : nat) : string := substring i 2 s.

(** [str(n)] for a natural number below 1000. *)
Definition str_small (n : Z) : string :=
  if n <? 10 then String (digit n) EmptyString
  else if n <? 100 then two_digits n
  else String (digit (n / 100)) (two_digits n).

(** [df.resample(freq, on='timestamp')[c].mean().reset_index()] for the
    three rules the pages use; pandas rejects any other rule name. *)
Definition resample (freq : string) (df : DataFrame) (c : string)
  : result DataFrame :=
  if String.eqb freq "D" then resample_D df c
  else if String.eqb freq "W-MON" then resample_W_MON df c
  else if String.eqb freq "MS" then resample_MS df c
  else raise (ValueError "Invalid frequency").

(** What a page shows.  A figure is recorded by what the code passes to
    plotly; a metric panel by the record its three [st.metric] calls
    format. *)
Inductive Figure : Type :=
| Annotation (text : string)
| LineChart (df_agg : DataFrame) (y title x_label y_label : string)
            (line_color fillcolor : string) (tickformat : option string).

Inductive KpiPanel : Type :=
| Metrics (kpi_data : KPI)
| WarnInsufficient
| WarnParameters.

Inductive PlotPanel : Type :=
| WarnNoData
| Chart (fig : Figure).

Inductive Page : Type :=
| LoadError
| Content (kpis : KpiPanel) (plot : PlotPanel).

Module Exploration.

(** [freq_map.get(timeframe, ('D', 'Journalier', 'Date'))] *)
Definition freq_map_get (timeframe : string) : string * string * string :=
  (if String.eqb timeframe "D" then ("D", "Journalier", "Date")
   else if String.eqb timeframe "W" then
     ("W-MON", "Hebdomadaire (début lundi)", "Semaine")
   else if String.eqb timeframe "M" then ("MS", "Mensuel", "Mois")
   else ("D", "Journalier", "Date"))%string.

(** [colors.get(timeframe, '#1f77b4')] *)
Definition colors_get (timeframe : string) : string :=
  (if String.eqb timeframe "D" then "#1f77b4"
   else if String.eqb timeframe "W" then "#2ca02c"
   else if String.eqb timeframe "M" then "#ff7f0e"
   else "#1f77b4")%string.

(** [f'rgba{tuple(int(line_color.lstrip("#")[i:i+2], 16)
                  for i in (0, 2, 4)) + (0.15,)}'] *)
Definition fillcolor_of (line_color : string) : result string :=
  let hex := lstrip_hash line_color in
  r <- int_16 (two_chars hex 0) ;;
  g <- int_16 (two_chars hex 2) ;;
  b <- int_16 (two_chars hex 4) ;;
  ret ("rgba(" ++ str_small r ++ ", " ++ str_small g ++ ", " ++
       str_small b ++ ", 0.15)")%string.

(** [create_time_series_plot] *)
Definition create_time_series_plot (data : DataFrame)
    (particle timeframe : string) : result Figure :=
  let '(freq, freq_label, x_label) := freq_map_get timeframe in
  df_agg <- resample freq data particle ;;
  if empty df_agg then
    ret (Annotation "Aucune donnée disponible pour la sélection actuelle")
  else
    let title := ("<b>" ++ particle ++ " - Vue " ++ freq_label ++ "</b>")%string in
    let y_label := ("Valeur moyenne " ++ particle)%string in
    let line_color := colors_get timeframe in
    fillcolor <- fillcolor_of line_color ;;
    let tickformat :=
      if String.eqb timeframe "D" then Some "%d/%m/%Y"%string else None in
    ret (LineChart df_agg particle title x_label y_label
                   line_color fillcolor tickformat).

Definition particle_options : list string :=
  ["P0"; "P1"; "P2"; "temperature"; "humidity"]%string.


(** The date filter of [main]: [date_range] is the value of the widget. *)
Definition df_filtered (df : DataFrame) (date_range : list Z) : DataFrame :=
  match date_range with
  | [start_date; end_date] =>
      let start_ts := midnight start_date in
      let end_ts := midnight end_date + seconds_per_day in
      select (fun r => (start_ts <=? timestamp r) && (timestamp r <=? end_ts))
             df
  | _ => df
  end.

(** [[p for p in particle_options
       if p != selected_particle and p in df_filtered.columns]] *)
Definition other_particles (df : DataFrame) (selected_particle : string)
  : list string :=
  filter (fun p => negb (String.eqb p selected_particle) &&
                   mem p (columns df))
         particle_options.

(** The KPI section of [main]: any exception ends in the second warning. *)
Definition kpi_section (df : DataFrame)
    (selected_particle selected_timeframe : string) : KpiPanel :=
  match Processor.calculate_kpis df selected_particle selected_timeframe with
  | inr (Some kpi_data) => Metrics kpi_data
  | inr None => WarnInsufficient
  | inl _ => WarnParameters
  end.

(** [main], as a function of the frame loaded and of the values of its
    three widgets. *)
Definition main (df : DataFrame) (date_range : list Z)
    (selected_particle selected_timeframe : string) : result Page :=
  if empty df then ret LoadError
  else
    let filtered := df_filtered df date_range in
    let df_for_plot :=
      drop filtered (other_particles filtered selected_particle) in
    let kpis := kpi_section filtered selected_particle selected_timeframe in
    if empty df_for_plot then ret (Content kpis WarnNoData)
    else
      fig <- create_time_series_plot df_for_plot selected_particle
               selected_timeframe ;;
      ret (Content kpis (Chart fig)).

End Exploration.

(* ------------------------------------------------------------------ *)
(** ** The date filter of [main] *)

Lemma midnight_dt_date (t : Z) :
  midnight (dt_date t) <= t < midnight (dt_date t) + seconds_per_day.
Proof.
  unfold midnight, dt_date, seconds_per_day.
  Z.to_euclidean_division_equations. lia.
Qed.




(** X11. A range [(start_date, end_date)] keeps exactly the records stamped
    from the midnight that opens [start_date] to the midnight that closes
    [end_date], both included.  So every record dated from [start_date] to
    [end_date] is kept, and so is a record stamped at the very midnight
    that opens the day after [end_date]; no other record of that day and
    no record of another day is. *)
Theorem date_filter_bounds :
  forall df start_date end_date r,
    (In r (rows (Exploration.df_filtered df [start_date; end_date])) <->
     In r (rows df) /\
     midnight start_date <= timestamp r <= midnight (end_date + 1)) /\
    (In r (rows df) ->
     start_date <= dt_date (timestamp r) <= end_date ->
     In r (rows (Exploration.df_filtered df [start_date; end_date]))) /\
    (In r (rows (Exploration.df_filtered df [start_date; end_date])) ->
     start_date <= dt_date (timestamp r) <= end_date \/
     timestamp r = midnight (end_date + 1)).
Proof.
  intros df start_date end_date r.
  assert (Hiff :
    In r (rows (Exploration.df_filtered df [start_date; end_date])) <->
    In r (rows df) /\
    midnight start_date <= timestamp r <= midnight (end_date + 1)).
  { unfold Exploration.df_filtered, select. cbn [rows].
    rewrite filter_In, andb_true_iff, !Z.leb_le.
    unfold midnight, seconds_per_day. intuition lia. }
  split; [exact Hiff|]. split.
  - intros Hin Hd. apply Hiff. split; [exact Hin|].
    pose proof (midnight_dt_date (timestamp r)).
    unfold midnight, seconds_per_day in *. lia.
  - intros H. apply Hiff in H as [_ H].
    pose proof (midnight_dt_date (timestamp r)).
    unfold midnight, seconds_per_day in *.
    destruct (Z.eq_dec (timestamp r) ((end_date + 1) * 86400)) as [E | E];
      [now right | left; lia].
Qed.

Lemma date_filter_bounds_witness :
  In (sample_row 3) (rows (Exploration.df_filtered ten_days [3; 4])).
Proof.
  apply (proj1 (proj2 (date_filter_bounds ten_days 3 4 (sample_row 3)))).
  - vm_compute. auto.
  - vm_compute. split; discriminate.
Defined.

(* ------------------------------------------------------------------ *)
(** ** The chart *)




Lemma empty_true (df : DataFrame) : empty df = true <-> rows df = [].
Proof. unfold empty. destruct (rows df); split; congruence. Qed.

Lemma empty_false (df : DataFrame) : empty df = false <-> rows df <> [].
Proof. unfold empty. destruct (rows df); split; congruence. Qed.



(** An unknown timeframe draws what ['D'] draws, without the tick format. *)
Definition without_tickformat (fig : result Figure) : result Figure :=
  match fig with
  | inr (LineChart df_agg y title x_label y_label line_color fillcolor _) =>
      inr (LineChart df_agg y title x_label y_label line_color fillcolor None)
  | other => other
  end.

(** X13. Where [calculate_kpis] raises on a timeframe that is none of ['D'],
    ['W'], ['M'], [create_time_series_plot] falls back to the daily view:
    it returns the chart it returns for ['D'], daily means, title and
    colour included, only without the day/month/year tick format. *)
Theorem plot_unknown_timeframe_is_daily :
  forall data particle timeframe,
    timeframe <> "D"%string -> timeframe <> "W"%string ->
    timeframe <> "M"%string ->
    Exploration.create_time_series_plot data particle timeframe =
    without_tickformat
      (Exploration.create_time_series_plot data particle "D").
Proof.
  intros data particle timeframe HD HW HM.
  apply String.eqb_neq in HD, HW, HM.
  unfold Exploration.create_time_series_plot, Exploration.freq_map_get,
    Exploration.colors_get.
  rewrite HD, HW, HM. cbn [String.eqb Ascii.eqb Bool.eqb].
  destruct (resample "D" data particle) as [e|dd]; cbn [bind];
    [reflexivity|].
  destruct (empty dd); [reflexivity|].
  destruct (Exploration.fillcolor_of "#1f77b4") as [e|s]; reflexivity.
Qed.

Lemma plot_unknown_timeframe_is_daily_witness :
  Exploration.create_time_series_plot ten_days "col" "Q" =
  without_tickformat (Exploration.create_time_series_plot ten_days "col" "D").
Proof.
  apply plot_unknown_timeframe_is_daily; discriminate.
Defined.

(* ------------------------------------------------------------------ *)
(** ** Dropping the other columns *)





Lemma drop_empty (df : DataFrame) (names : list string) :
  empty (drop df names) = empty df.
Proof. unfold empty, drop. cbn [rows]. now destruct (rows df). Qed.



Lemma df_filtered_columns (df : DataFrame) (date_range : list Z) :
  columns (Exploration.df_filtered df date_range) = columns df.
Proof.
  unfold Exploration.df_filtered.
  destruct date_range as [|s [|e [|x l]]]; reflexivity.
Qed.




(* ------------------------------------------------------------------ *)
(** ** A date range that keeps no record *)

Lemma empty_rows_kpis (d : DataFrame) (particle : string) :
  rows d = [] -> In particle (columns d) ->
  Processor.calculate_kpis d particle "D" = inl IndexError /\
  Processor.calculate_kpis d particle "W" = inr None /\
  Processor.calculate_kpis d particle "M" = inr None.
Proof.
  intros E H. destruct d as [cols rs]. cbn [rows columns] in *. subst rs.
  split; [reflexivity|].
  apply index_of_In in H as [i H].
  unfold Processor.calculate_kpis. cbn [String.eqb Ascii.eqb Bool.eqb].
  rewrite weekly_unfold, monthly_unfold.
  unfold resample_D, resample_W_MON, resample_mean, getitem, sort_values.
  cbn [columns rows sort_rows fold_left]. rewrite H. split; reflexivity.
Qed.

(** X15. When the frame loaded has the selected column and the date range
    keeps no record (a stretch of days without data), the page shows the
    no-data warning in place of the chart, and its KPI panel depends on the
    timeframe: the daily view shows the warning that asks to widen the
    range, because the [IndexError] of the daily path is caught, while the
    weekly and the monthly view show the insufficient-data warning. *)
Theorem empty_selection_page :
  forall df date_range selected_particle,
    rows df <> [] -> In selected_particle (columns df) ->
    rows (Exploration.df_filtered df date_range) = [] ->
    Exploration.main df date_range selected_particle "D" =
      inr (Content WarnParameters WarnNoData) /\
    Exploration.main df date_range selected_particle "W" =
      inr (Content WarnInsufficient WarnNoData) /\
    Exploration.main df date_range selected_particle "M" =
      inr (Content WarnInsufficient WarnNoData).
Proof.
  intros df date_range sel Hne Hcol E.
  assert (Hcolf : In sel (columns (Exploration.df_filtered df date_range)))
    by now rewrite df_filtered_columns.
  destruct (empty_rows_kpis _ sel E Hcolf) as (HD & HW & HM).
  unfold Exploration.main, Exploration.kpi_section.
  apply empty_false in Hne as ->. rewrite drop_empty.
  apply empty_true in E as ->. rewrite HD, HW, HM.
  repeat split; reflexivity.
Qed.

Lemma empty_selection_page_witness :
  Exploration.main gap_frame [1; 1] "col" "D" =
    inr (Content WarnParameters WarnNoData).
Proof.
  apply (empty_selection_page gap_frame [1; 1] "col").
  - vm_compute. discriminate.
  - left. reflexivity.
  - vm_compute. reflexivity.
Defined.

(* ================================================================== *)
(** * The windows of the weekly and of the monthly path *)

Lemma resample_mean_columns bin label df c dd :
  resample_mean bin label df c = inr dd -> columns dd = [c].
Proof.
  unfold resample_mean. destruct (getitem df c) as [e|vals]; cbn [bind];
    [discriminate|].
  destruct (map _ _); intros H; inversion H; reflexivity.
Qed.

(** The call on two windows that both have the column, the comparison
    window holding rows: the record of the values of the two windows. *)
Lemma windows_kpis_record current previous particle :
  rows current <> [] -> rows previous <> [] ->
  In particle (columns current) -> In particle (columns previous) ->
  exists cur prev label,
    getitem current particle = inr cur /\
    getitem previous particle = inr prev /\
    List.length cur = List.length (rows current) /\
    List.length prev = List.length (rows previous) /\
    windows_kpis current previous particle =
      inr (Some (kpi_of cur (Some prev) label)).
Proof.
  intros Hc Hp Ic Ip.
  destruct (getitem_present current particle Ic) as (cur & Ec & Lc).
  destruct (getitem_present previous particle Ip) as (prev & Ep & Lp).
  destruct (windows_kpis_cases current previous particle Hc)
    as [(cur' & prev' & label & Ec' & Ep' & E) | E].
  - rewrite Ec in Ec'. rewrite Ep in Ep'. inversion Ec'. inversion Ep'.
    subst cur' prev'. exists cur, prev, label.
    assert (L : (0 <? len previous) = true).
    { apply Z.ltb_lt. unfold len. destruct (rows previous); [congruence|].
      simpl. lia. }
    rewrite L in E. repeat split; assumption.
  - unfold windows_kpis in E. rewrite Ec, Ep in E. cbn [bind] in E.
    destruct (timestamp_min_some _ Hc) as [t1 E1].
    destruct (timestamp_max_some _ Hc) as [t2 E2].
    rewrite E1, E2 in E.
    destruct (strftime_dm_some t1) as [s1 F1].
    destruct (strftime_dm_some t2) as [s2 F2].
    rewrite F1, F2 in E. discriminate.
Qed.

Lemma window_rows_nonempty {A} (w l : list A) (a k : nat) :
  window_at w l a k -> (0 < k)%nat -> w <> [].
Proof. intros [H _] Hk E. subst w. simpl in H. lia. Qed.

(** C1. Weekly path, with [N] the number of daily buckets: the call returns
    [None] when [N < 2]; the current window is the last [min 7 N] buckets;
    the comparison window is the buckets [[N-14, N-7)] when [N >= 14], the
    buckets [[N-8, N-1)] when [8 <= N < 14], and [pd.DataFrame()]
    otherwise; for [N = 10] it is the buckets [[2, 9)].  The call builds
    its answer from these two windows: when [N >= 8] it returns the record
    of the values of the current window compared with the values of the
    comparison window, seven of each; when [2 <= N < 8] the comparison
    window has no column and the call raises [KeyError]. *)
Theorem weekly_window_selection :
  forall data particle data_daily,
    resample_D data particle = inr data_daily ->
    let N := List.length (rows data_daily) in
    let current := Processor.last_week_data data_daily in
    let previous := Processor.prev_week_data data_daily in
    ((N < 2)%nat ->
       Processor._calculate_weekly_kpis data particle = inr None) /\
    window_at (rows current) (rows data_daily)
              (N - Nat.min 7 N) (Nat.min 7 N) /\
    ((14 <= N)%nat ->
       window_at (rows previous) (rows data_daily) (N - 14) 7) /\
    ((8 <= N < 14)%nat ->
       window_at (rows previous) (rows data_daily) (N - 8) 7) /\
    ((N < 8)%nat -> previous = empty_DataFrame) /\
    (N = 10%nat -> window_at (rows previous) (rows data_daily) 2 7) /\
    ((2 <= N)%nat ->
       Processor._calculate_weekly_kpis data particle =
         windows_kpis current previous particle) /\
    ((8 <= N)%nat ->
       exists cur prev label,
         getitem current particle = inr cur /\
         getitem previous particle = inr prev /\
         List.length cur = 7%nat /\ List.length prev = 7%nat /\
         Processor._calculate_weekly_kpis data particle =
           inr (Some (kpi_of cur (Some prev) label))) /\
    ((2 <= N < 8)%nat ->
       Processor._calculate_weekly_kpis data particle =
         inl (KeyError particle)).
Proof.
  intros data particle dd Hdd N current previous.
  assert (HN : len dd = Z.of_nat N) by reflexivity.
  assert (Hcur : window_at (rows current) (rows dd)
                   (N - Nat.min 7 N) (Nat.min 7 N)).
  { subst current. unfold Processor.last_week_data. rewrite HN.
    replace (Z.min 7 (Z.of_nat N)) with (Z.of_nat (Nat.min 7 N)) by lia.
    apply (tail_window dd). fold N. lia. }
  assert (Hprev14 :
    (14 <= N)%nat -> window_at (rows previous) (rows dd) (N - 14) 7).
  { intros H. subst previous. unfold Processor.prev_week_data. rewrite HN.
    destruct (14 <=? Z.of_nat N) eqn:E14; [|apply Z.leb_gt in E14; lia].
    apply (iloc_window dd 14 7); fold N; lia. }
  assert (Hprev8 :
    (8 <= N < 14)%nat -> window_at (rows previous) (rows dd) (N - 8) 7).
  { intros H. subst previous. unfold Processor.prev_week_data.
    rewrite HN.
    destruct (14 <=? Z.of_nat N) eqn:E14; [apply Z.leb_le in E14; lia|].
    destruct (8 <=? Z.of_nat N) eqn:E8; [|apply Z.leb_gt in E8; lia].
    apply (iloc_window dd 8 1); fold N; lia. }
  assert (Hpath : (2 <= N)%nat ->
    Processor._calculate_weekly_kpis data particle =
      windows_kpis current previous particle).
  { intros H. rewrite weekly_unfold, Hdd. cbn [bind]. rewrite HN.
    destruct (Z.of_nat N <? 2) eqn:E; [apply Z.ltb_lt in E; lia|].
    reflexivity. }
  split; [|split; [exact Hcur|split; [exact Hprev14|split;
    [exact Hprev8|split; [|split; [|split; [exact Hpath|split]]]]]]].
  - intros H. rewrite weekly_unfold, Hdd. cbn [bind]. rewrite HN.
    destruct (Z.of_nat N <? 2) eqn:E; [reflexivity|].
    apply Z.ltb_ge in E. lia.
  - intros H. subst previous. unfold Processor.prev_week_data. rewrite HN.
    destruct (14 <=? Z.of_nat N) eqn:E14; [apply Z.leb_le in E14; lia|].
    destruct (8 <=? Z.of_nat N) eqn:E8; [apply Z.leb_le in E8; lia|].
    reflexivity.
  - intros H. assert (E : (N - 8)%nat = 2%nat) by lia.
    assert (W : window_at (rows previous) (rows dd) (N - 8) 7)
      by (apply Hprev8; lia).
    rewrite E in W. exact W.
  - intros H. rewrite Hpath by lia.
    assert (Wp : window_at (rows previous) (rows dd)
                   (if (14 <=? N)%nat then N - 14 else N - 8)%nat 7).
    { destruct (14 <=? N)%nat eqn:E.
      - apply Nat.leb_le in E. now apply Hprev14.
      - apply Nat.leb_gt in E. apply Hprev8. lia. }
    assert (Cc : columns current = [particle]).
    { subst current. unfold Processor.last_week_data, tail. cbn [columns].
      exact (resample_mean_columns _ _ _ _ _ Hdd). }
    assert (Cp : columns previous = [particle]).
    { subst previous. unfold Processor.prev_week_data, iloc.
      destruct (14 <=? len dd); [|destruct (8 <=? len dd) eqn:E8].
      - exact (resample_mean_columns _ _ _ _ _ Hdd).
      - exact (resample_mean_columns _ _ _ _ _ Hdd).
      - apply Z.leb_gt in E8. rewrite HN in E8. lia. }
    destruct (windows_kpis_record current previous particle)
      as (cur & prev & label & Ec & Ep & Lc & Lp & E).
    + apply (window_rows_nonempty _ _ _ _ Hcur). lia.
    + apply (window_rows_nonempty _ _ _ _ Wp). lia.
    + rewrite Cc. now left.
    + rewrite Cp. now left.
    + exists cur, prev, label. destruct Hcur as [Lcur _].
      destruct Wp as [Lprev _].
      repeat split; try assumption; lia.
  - intros H. apply (weekly_short_history_raises data particle dd Hdd).
    rewrite HN. lia.
Qed.

Lemma weekly_window_selection_witness :
  resample_D ten_days "col" = inr ten_days_daily /\
  window_at (rows (Processor.prev_week_data ten_days_daily))
            (rows ten_days_daily) 2 7 /\
  exists cur prev label,
    getitem (Processor.last_week_data ten_days_daily) "col" = inr cur /\
    getitem (Processor.prev_week_data ten_days_daily) "col" = inr prev /\
    List.length cur = 7%nat /\ List.length prev = 7%nat /\
    Processor._calculate_weekly_kpis ten_days "col" =
      inr (Some (kpi_of cur (Some prev) label)).
Proof.
  assert (H : resample_D ten_days "col" = inr ten_days_daily).
  { vm_compute. reflexivity. }
  split; [exact H|].
  pose proof (weekly_window_selection ten_days "col" _ H) as T.
  cbv zeta in T.
  destruct T as (_ & _ & _ & _ & _ & T10 & _ & T8 & _).
  split.
  - apply T10. vm_compute. reflexivity.
  - apply T8. vm_compute. lia.
Defined.

(** C2. Monthly path, with [N] the number of weekly buckets: the call
    returns [None] when [N < 2]; the current window is the last [min 4 N]
    buckets; the comparison window is the buckets [[N-8, N-4)] when
    [N >= 8], which then lie immediately before the current window and
    share no bucket with it, the buckets [[N-5, N-1)] when [5 <= N < 8],
    and [pd.DataFrame()] otherwise.  The call builds its answer from these
    two windows: when [N >= 5] it returns the record of the values of the
    current window compared with the values of the comparison window, four
    of each; when [2 <= N < 5] the comparison window has no column and the
    call raises [KeyError]. *)
Theorem monthly_window_selection :
  forall data particle data_weekly,
    resample_W_MON data particle = inr data_weekly ->
    let N := List.length (rows data_weekly) in
    let current := Processor.last_month_data data_weekly in
    let previous := Processor.prev_month_data data_weekly in
    ((N < 2)%nat ->
       Processor._calculate_monthly_kpis data particle = inr None) /\
    window_at (rows current) (rows data_weekly)
              (N - Nat.min 4 N) (Nat.min 4 N) /\
    ((8 <= N)%nat ->
       window_at (rows previous) (rows data_weekly) (N - 8) 4 /\
       (rows previous ++ rows current)%list =
         skipn (N - 8) (rows data_weekly)) /\
    ((5 <= N < 8)%nat ->
       window_at (rows previous) (rows data_weekly) (N - 5) 4) /\
    ((N < 5)%nat -> previous = empty_DataFrame) /\
    ((2 <= N)%nat ->
       Processor._calculate_monthly_kpis data particle =
         windows_kpis current previous particle) /\
    ((5 <= N)%nat ->
       exists cur prev label,
         getitem current particle = inr cur /\
         getitem previous particle = inr prev /\
         List.length cur = 4%nat /\ List.length prev = 4%nat /\
         Processor._calculate_monthly_kpis data particle =
           inr (Some (kpi_of cur (Some prev) label))) /\
    ((2 <= N < 5)%nat ->
       Processor._calculate_monthly_kpis data particle =
         inl (KeyError particle)).
Proof.
  intros data particle dw Hdw N current previous.
  assert (HN : len dw = Z.of_nat N) by reflexivity.
  assert (Hcur : rows current = skipn (N - Nat.min 4 N) (rows dw)).
  { subst current. unfold Processor.last_month_data. rewrite HN.
    replace (Z.min 4 (Z.of_nat N)) with (Z.of_nat (Nat.min 4 N)) by lia.
    apply tail_rows. }
  assert (Hwin : window_at (rows current) (rows dw)
                   (N - Nat.min 4 N) (Nat.min 4 N)).
  { subst current. unfold Processor.last_month_data. rewrite HN.
    replace (Z.min 4 (Z.of_nat N)) with (Z.of_nat (Nat.min 4 N)) by lia.
    apply (tail_window dw). fold N. lia. }
  assert (Hprev8 :
    (8 <= N)%nat -> window_at (rows previous) (rows dw) (N - 8) 4).
  { intros H. subst previous. unfold Processor.prev_month_data. rewrite HN.
    destruct (8 <=? Z.of_nat N) eqn:E8; [|apply Z.leb_gt in E8; lia].
    apply (iloc_window dw 8 4); fold N; lia. }
  assert (Hprev5 :
    (5 <= N < 8)%nat -> window_at (rows previous) (rows dw) (N - 5) 4).
  { intros H. subst previous. unfold Processor.prev_month_data. rewrite HN.
    destruct (8 <=? Z.of_nat N) eqn:E8; [apply Z.leb_le in E8; lia|].
    destruct (5 <=? Z.of_nat N) eqn:E5; [|apply Z.leb_gt in E5; lia].
    apply (iloc_window dw 5 1); fold N; lia. }
  assert (Hpath : (2 <= N)%nat ->
    Processor._calculate_monthly_kpis data particle =
      windows_kpis current previous particle).
  { intros H. rewrite monthly_unfold, Hdw. cbn [bind]. rewrite HN.
    destruct (Z.of_nat N <? 2) eqn:E; [apply Z.ltb_lt in E; lia|].
    reflexivity. }
  split; [|split; [exact Hwin|split; [|split; [exact Hprev5|split;
    [|split; [exact Hpath|split]]]]]].
  - intros H. rewrite monthly_unfold, Hdw. cbn [bind]. rewrite HN.
    destruct (Z.of_nat N <? 2) eqn:E; [reflexivity|].
    apply Z.ltb_ge in E. lia.
  - intros H. split; [now apply Hprev8|].
    assert (E8 : (8 <=? Z.of_nat N) = true) by (apply Z.leb_le; lia).
    rewrite Hcur. subst previous.
    unfold Processor.prev_month_data. rewrite HN, E8.
    unfold iloc. cbn [rows].
    assert (S : slice (rows dw) (-8) (-4) =
                firstn 4 (skipn (N - 8) (rows dw)))
      by (apply (slice_from_end (rows dw) 8 4); fold N; lia).
    rewrite S. replace (N - Nat.min 4 N)%nat with (4 + (N - 8))%nat by lia.
    rewrite <- skipn_skipn. apply firstn_skipn.
  - intros H. subst previous. unfold Processor.prev_month_data. rewrite HN.
    destruct (8 <=? Z.of_nat N) eqn:E8; [apply Z.leb_le in E8; lia|].
    destruct (5 <=? Z.of_nat N) eqn:E5; [apply Z.leb_le in E5; lia|].
    reflexivity.
  - intros H. rewrite Hpath by lia.
    assert (Wp : window_at (rows previous) (rows dw)
                   (if (8 <=? N)%nat then N - 8 else N - 5)%nat 4).
    { destruct (8 <=? N)%nat eqn:E.
      - apply Nat.leb_le in E. now apply Hprev8.
      - apply Nat.leb_gt in E. apply Hprev5. lia. }
    assert (Cc : columns current = [particle]).
    { subst current. unfold Processor.last_month_data, tail. cbn [columns].
      exact (resample_mean_columns _ _ _ _ _ Hdw). }
    assert (Cp : columns previous = [particle]).
    { subst previous. unfold Processor.prev_month_data, iloc.
      destruct (8 <=? len dw); [|destruct (5 <=? len dw) eqn:E5].
      - exact (resample_mean_columns _ _ _ _ _ Hdw).
      - exact (resample_mean_columns _ _ _ _ _ Hdw).
      - apply Z.leb_gt in E5. rewrite HN in E5. lia. }
    destruct (windows_kpis_record current previous particle)
      as (cur & prev & label & Ec & Ep & Lc & Lp & E).
    + apply (window_rows_nonempty _ _ _ _ Hwin). lia.
    + apply (window_rows_nonempty _ _ _ _ Wp). lia.
    + rewrite Cc. now left.
    + rewrite Cp. now left.
    + exists cur, prev, label. destruct Hwin as [Lcur _].
      destruct Wp as [Lprev _].
      repeat split; try assumption; lia.
  - intros H. apply (monthly_short_history_raises data particle dw Hdw).
    rewrite HN. lia.
Qed.

Lemma monthly_window_selection_witness :
  resample_W_MON nine_weeks "col" = inr nine_weeks_weekly /\
  window_at (rows (Processor.prev_month_data nine_weeks_weekly))
            (rows nine_weeks_weekly) 1 4 /\
  exists cur prev label,
    getitem (Processor.last_month_data nine_weeks_weekly) "col" = inr cur /\
    getitem (Processor.prev_month_data nine_weeks_weekly) "col" = inr prev /\
    List.length cur = 4%nat /\ List.length prev = 4%nat /\
    Processor._calculate_monthly_kpis nine_weeks "col" =
      inr (Some (kpi_of cur (Some prev) label)).
Proof.
  assert (H : resample_W_MON nine_weeks "col" = inr nine_weeks_weekly).
  { vm_compute. reflexivity. }
  split; [exact H|].
  pose proof (monthly_window_selection nine_weeks "col" _ H) as T.
  cbv zeta in T.
  destruct T as (_ & _ & T8 & _ & _ & _ & T5 & _).
  split.
  - apply T8. vm_compute. lia.
  - apply T5. vm_compute. lia.
Defined.

(* ================================================================== *)
(** * The KPI code on binary64 floats and raw timestamp columns

    Up to here a float is an exact rational and a timestamp a whole number
    of seconds.  This part embeds the same functions of [src/processor.py]
    over what the program handles when it runs:
    - a value is an IEEE 754 binary64 float ([PrimFloat.float]), with its
      rounding, its infinities, its signed zeros and its NaN;
    - a timestamp is an instant or [NaT], and a [datetime.date] exists for
      the years 1 to 9999 only;
    - the 'timestamp' column handed to [calculate_kpis] is of a datetime64
      dtype, or a column of numbers that
      [pd.to_datetime(..., unit='s')] has to convert first;
    - the calls into pandas whose result depends on how the library is
      implemented (the order [sort_values] gives to equal timestamps, the
      order in which [mean] adds, [resample], [to_datetime], [strftime])
      are the fields of a record [Pandas], together with the laws the
      proofs rely on.  The theorems hold for every such record;
      [reference] is one of them, used to run the code on sample series. *)

From Stdlib Require Floats DecimalString.

Module Machine.

Import PrimFloat.

Definition float64 : Set := PrimFloat.float.

(** ** Exceptions *)

Inductive exception : Type :=
| ValueError (msg : string)
| IndexError
| KeyError (key : string)
| OverflowError (msg : string).

Definition result (A : Type) : Type := (exception + A)%type.

Definition ret {A} (a : A) : result A := inr a.
Definition raise {A} (e : exception) : result A := inl e.
Definition bind {A B} (m : result A) (k : A -> result B) : result B :=
  match m with
  | inl e => inl e
  | inr a => k a
  end.

Notation "x <- m ;; k" := (bind m (fun x => k))
  (at level 61, m at next level, right associativity).

(** What a call of [calculate_kpis] raises: the error of its own [raise]
    statement, [ValueError("Timeframe doit être 'D', 'W' ou 'M'")] on line
    59, or an exception that comes out of a library call. *)
Inductive raised : Type :=
| InvalidTimeframe
| Library (e : exception).

Definition library {A} (r : result A) : raised + A :=
  match r with
  | inl e => inl (Library e)
  | inr a => inr a
  end.

(** ** Data frames *)

(** A value of a datetime64 column: [NaT], or an instant in seconds since
    the epoch. *)
Inductive instant : Type :=
| NaT
| At (t : Z).

Record Row : Type := mkRow { timestamp : instant; cells : list float64 }.

(** [columns] names the value columns, one cell of every row each; the
    'timestamp' column is the field [timestamp] of the rows and is not
    among them: the KPIs of the column 'timestamp' itself are not
    modelled. *)
Record DataFrame : Type := mkFrame { columns : list string; rows : list Row }.

(** [pd.DataFrame()] *)
Definition empty_DataFrame : DataFrame := mkFrame [] [].

(** [len(df)] *)
Definition len (df : DataFrame) : Z := Z.of_nat (List.length (rows df)).

(** [df[c]], [KeyError] when the frame has no such column. *)
Definition getitem (df : DataFrame) (c : string) : result (list float64) :=
  match index_of c (columns df) with
  | None => raise (KeyError c)
  | Some i => ret (map (fun r => nth i (cells r) nan) (rows df))
  end.

(** [df[mask]] for a row predicate. *)
Definition select (p : Row -> bool) (df : DataFrame) : DataFrame :=
  mkFrame (columns df) (filter p (rows df)).

(** [s.iloc[-1]] *)
Definition iloc_last {A} (l : list A) : result A :=
  match rev l with
  | [] => raise IndexError
  | x :: _ => ret x
  end.

(** [df.iloc[start:stop]] *)
Definition iloc (df : DataFrame) (start stop : Z) : DataFrame :=
  mkFrame (columns df) (slice (rows df) start stop).

(** [df.tail(n)] for [n >= 0] *)
Definition tail (df : DataFrame) (n : Z) : DataFrame :=
  mkFrame (columns df)
          (skipn (List.length (rows df) - Z.to_nat n) (rows df)).

(** The frame as [calculate_kpis] receives it: its 'timestamp' column is
    of a datetime64 dtype, or it holds numbers, the seconds since the
    epoch, next to the cells of each row, or the frame has no 'timestamp'
    column at all. *)
Inductive Input : Type :=
| datetime64 (data : DataFrame)
| epoch (cols : list string) (records : list (float64 * list float64))
| untimed (cols : list string) (records : list (list float64)).

(** ** Dates *)

(** [datetime.date.min] and [datetime.date.max], 0001-01-01 and
    9999-12-31, as day numbers. *)
Definition min_date : Z := -719162.
Definition max_date : Z := 2932896.

(** 1000-01-01, the first date whose year has four digits. *)
Definition date_1000 : Z := -354285.

(** One value of [s.dt.date], [None] for [NaT]: building the
    [datetime.date] of an instant outside the years 1 to 9999 raises
    [ValueError] ("year 10000 is out of range"). *)
Definition year_out_of_range (d : Z) : exception :=
  let '(yy, _, _) := civil_from_days d in
  ValueError
    ("year " ++ DecimalString.NilZero.string_of_int (Z.to_int yy)
     ++ " is out of range").

Definition date_of (i : instant) : result (option Z) :=
  match i with
  | NaT => ret None
  | At t =>
      let d := dt_date t in
      if (d <? min_date) || (max_date <? d)
      then raise (year_out_of_range d)
      else ret (Some d)
  end.

(** [s.dt.date] *)
Fixpoint dt_dates (l : list instant) : result (list (option Z)) :=
  match l with
  | [] => ret []
  | i :: t => d <- date_of i ;; ds <- dt_dates t ;; ret (d :: ds)
  end.

(** The date of a row, once [s.dt.date] has been built without error. *)
Definition row_date (r : Row) : option Z :=
  match timestamp r with
  | NaT => None
  | At t => Some (dt_date t)
  end.

(** [date == other], elementwise: [NaT] equals nothing, itself included. *)
Definition date_eqb (a b : option Z) : bool :=
  match a, b with
  | Some x, Some y => x =? y
  | _, _ => false
  end.

(** [date - pd.Timedelta(days=1)]: [OverflowError] below [date.min]. *)
Definition day_before (d : option Z) : result (option Z) :=
  match d with
  | None => ret None
  | Some d =>
      if d <=? min_date then raise (OverflowError "date value out of range")
      else ret (Some (d - 1))
  end.

(** [df['timestamp'].min()] and [.max()], which skip [NaT]. *)
Fixpoint instants (l : list instant) : list Z :=
  match l with
  | [] => []
  | NaT :: t => instants t
  | At z :: t => z :: instants t
  end.

Definition timestamp_min (df : DataFrame) : instant :=
  match instants (map timestamp (rows df)) with
  | [] => NaT
  | t :: ts => At (fold_right Z.min t ts)
  end.

Definition timestamp_max (df : DataFrame) : instant :=
  match instants (map timestamp (rows df)) with
  | [] => NaT
  | t :: ts => At (fold_right Z.max t ts)
  end.

(** ** The library *)

(** [a <= b] in the order of [sort_values]: by instant, [NaT] last. *)
Definition instant_le (a b : instant) : Prop :=
  match a, b with
  | _, NaT => True
  | NaT, At _ => False
  | At s, At t => s <= t
  end.

Inductive sorted : list Row -> Prop :=
| sorted_empty : sorted []
| sorted_row r l :
    Forall (fun r' => instant_le (timestamp r) (timestamp r')) l ->
    sorted l -> sorted (r :: l).

Record Pandas : Type := mkPandas {
  (** [pd.to_datetime(s, unit='s')] on a column of numbers *)
  to_datetime : list float64 -> result (list instant);
  (** [df.sort_values('timestamp')] on the rows: the same rows, in the
      order of their timestamps, [NaT] last *)
  sort_rows : list Row -> list Row;
  sort_rows_permutation : forall l, Permutation (sort_rows l) l;
  sort_rows_in_order : forall l, sorted (sort_rows l);
  (** [s.min()], [s.max()] and [s.mean()], which skip NaN: the minimum is
      one of the values and no number of the series is below it, the
      maximum likewise; of the mean only that it is a function of the
      values in their order *)
  series_min : list float64 -> float64;
  series_max : list float64 -> float64;
  series_mean : list float64 -> float64;
  series_min_in : forall l,
    (exists x, In x l /\ is_nan x = false) -> In (series_min l) l;
  series_min_lower : forall l x,
    In x l -> is_nan x = false -> (series_min l <=? x)%float = true;
  series_max_in : forall l,
    (exists x, In x l /\ is_nan x = false) -> In (series_max l) l;
  series_max_upper : forall l x,
    In x l -> is_nan x = false -> (x <=? series_max l)%float = true;
  (** [df.resample(rule, on='timestamp')[c].mean().reset_index()] *)
  resample : string -> DataFrame -> string -> result DataFrame;
  (** [d.strftime('%d/%m/%Y')] on a date: day, month and year in two, two
      and four digits from the year 1000 on (how a year below 1000 is
      padded depends on the platform) *)
  date_strftime : Z -> string;
  date_strftime_four_digits : forall d,
    date_1000 <= d <= max_date -> date_strftime d = strftime_dmY d;
  (** [t.strftime('%d/%m')] on a timestamp *)
  timestamp_strftime : instant -> result string
}.

Definition sort_values (P : Pandas) (df : DataFrame) : DataFrame :=
  mkFrame (columns df) (sort_rows P (rows df)).

(** ** The KPI result *)

Record KPI : Type := mkKPI {
  kpi_min : float64;
  kpi_mean : float64;
  kpi_max : float64;
  min_delta : option float64;
  min_delta_pct : option float64;
  mean_delta : option float64;
  mean_delta_pct : option float64;
  max_delta : option float64;
  max_delta_pct : option float64;
  period_label : string
}.

(** ** [src/processor.py] *)

(** [_calculate_variation] *)
Definition _calculate_variation (current_val : float64)
    (previous_val : option float64) : option float64 * option float64 :=
  match previous_val with
  | None => (None, None)
  | Some previous =>
      if is_nan previous || (previous =? 0)%float then (None, None)
      else
        let delta := (current_val - previous)%float in
        let delta_pct := ((delta / previous) * 100)%float in
        (Some delta, Some delta_pct)
  end.

(** The windows of [_calculate_daily_kpis].  The dates compared are those
    of [data['timestamp'].dt.date], which line 65 has built already. *)
Definition last_day_data (data : DataFrame) (last_date : option Z)
  : DataFrame :=
  select (fun r => date_eqb (row_date r) last_date) data.

Definition prev_day_data (data : DataFrame) (prev_date : option Z)
  : DataFrame :=
  select (fun r => date_eqb (row_date r) prev_date) data.

(** [last_date.strftime('%d/%m/%Y')] *)
Definition strftime_date (P : Pandas) (d : option Z) : result string :=
  match d with
  | None => raise (ValueError "NaTType does not support strftime")
  | Some d => ret (date_strftime P d)
  end.

(** [_calculate_daily_kpis] *)
Definition _calculate_daily_kpis (P : Pandas) (data : DataFrame)
    (particle : string) : result (option KPI) :=
  dates <- dt_dates (map timestamp (rows data)) ;;
  last_date <- iloc_last dates ;;
  let last_day := last_day_data data last_date in
  if len last_day =? 0 then ret None
  else
    cur <- getitem last_day particle ;;
    let current_min := series_min P cur in
    let current_mean := series_mean P cur in
    let current_max := series_max P cur in
    prev_date <- day_before last_date ;;
    let prev_day := prev_day_data data prev_date in
    prev <- getitem prev_day particle ;;
    let previous_min := series_min P prev in
    let previous_mean := series_mean P prev in
    let previous_max := series_max P prev in
    let available := 0 <? len prev_day in
    let '(mean_d, mean_p) :=
      _calculate_variation current_mean
        (if available then Some previous_mean else None) in
    let '(min_d, min_p) :=
      _calculate_variation current_min
        (if available then Some previous_min else None) in
    let '(max_d, max_p) :=
      _calculate_variation current_max
        (if available then Some previous_max else None) in
    label <- strftime_date P last_date ;;
    ret (Some (mkKPI current_min current_mean current_max
                 min_d min_p mean_d mean_p max_d max_p label)).

(** The windows of [_calculate_weekly_kpis], cut out of the daily means. *)
Definition last_week_data (data_daily : DataFrame) : DataFrame :=
  tail data_daily (Z.min 7 (len data_daily)).

Definition prev_week_data (data_daily : DataFrame) : DataFrame :=
  if 14 <=? len data_daily then iloc data_daily (-14) (-7)
  else if 8 <=? len data_daily then iloc data_daily (-8) (-1)
  else empty_DataFrame.

(** [_calculate_weekly_kpis] *)
Definition _calculate_weekly_kpis (P : Pandas) (data : DataFrame)
    (particle : string) : result (option KPI) :=
  data_daily <- resample P "D" data particle ;;
  if len data_daily <? 2 then ret None
  else
    cur <- getitem (last_week_data data_daily) particle ;;
    let current_min := series_min P cur in
    let current_mean := series_mean P cur in
    let current_max := series_max P cur in
    prev <- getitem (prev_week_data data_daily) particle ;;
    let previous_min := series_min P prev in
    let previous_mean := series_mean P prev in
    let previous_max := series_max P prev in
    let available := 0 <? len (prev_week_data data_daily) in
    let '(mean_d, mean_p) :=
      _calculate_variation current_mean
        (if available then Some previous_mean else None) in
    let '(min_d, min_p) :=
      _calculate_variation current_min
        (if available then Some previous_min else None) in
    let '(max_d, max_p) :=
      _calculate_variation current_max
        (if available then Some previous_max else None) in
    start_date <-
      timestamp_strftime P (timestamp_min (last_week_data data_daily)) ;;
    end_date <-
      timestamp_strftime P (timestamp_max (last_week_data data_daily)) ;;
    ret (Some (mkKPI current_min current_mean current_max
                 min_d min_p mean_d mean_p max_d max_p
                 (start_date ++ " - " ++ end_date)%string)).

(** The windows of [_calculate_monthly_kpis], cut out of the weekly means. *)
Definition last_month_data (data_weekly : DataFrame) : DataFrame :=
  tail data_weekly (Z.min 4 (len data_weekly)).

Definition prev_month_data (data_weekly : DataFrame) : DataFrame :=
  if 8 <=? len data_weekly then iloc data_weekly (-8) (-4)
  else if 5 <=? len data_weekly then iloc data_weekly (-5) (-1)
  else empty_DataFrame.

(** [_calculate_monthly_kpis] *)
Definition _calculate_monthly_kpis (P : Pandas) (data : DataFrame)
    (particle : string) : result (option KPI) :=
  data_weekly <- resample P "W-MON" data particle ;;
  if len data_weekly <? 2 then ret None
  else
    cur <- getitem (last_month_data data_weekly) particle ;;
    let current_min := series_min P cur in
    let current_mean := series_mean P cur in
    let current_max := series_max P cur in
    prev <- getitem (prev_month_data data_weekly) particle ;;
    let previous_min := series_min P prev in
    let previous_mean := series_mean P prev in
    let previous_max := series_max P prev in
    let available := 0 <? len (prev_month_data data_weekly) in
    let '(mean_d, mean_p) :=
      _calculate_variation current_mean
        (if available then Some previous_mean else None) in
    let '(min_d, min_p) :=
      _calculate_variation current_min
        (if available then Some previous_min else None) in
    let '(max_d, max_p) :=
      _calculate_variation current_max
        (if available then Some previous_max else None) in
    start_date <-
      timestamp_strftime P (timestamp_min (last_month_data data_weekly)) ;;
    end_date <-
      timestamp_strftime P (timestamp_max (last_month_data data_weekly)) ;;
    ret (Some (mkKPI current_min current_mean current_max
                 min_d min_p mean_d mean_p max_d max_p
                 (start_date ++ " - " ++ end_date)%string)).

(** Lines 45 to 47 of [calculate_kpis]: a 'timestamp' column that is not
    of a datetime64 dtype is converted from seconds since the epoch;
    [data['timestamp']] raises [KeyError] on a frame without that
    column. *)
Definition coerce (P : Pandas) (data : Input) : result DataFrame :=
  match data with
  | datetime64 df => ret df
  | epoch cols records =>
      stamps <- to_datetime P (map fst records) ;;
      ret (mkFrame cols
             (map (fun p => mkRow (fst p) (snd p))
                  (combine stamps (map snd records))))
  | untimed _ _ => raise (KeyError "timestamp")
  end.

(** [calculate_kpis] *)
Definition calculate_kpis (P : Pandas) (data : Input)
    (particle timeframe : string) : raised + option KPI :=
  match coerce P data with
  | inl e => inl (Library e)
  | inr data =>
      let data := sort_values P data in
      if String.eqb timeframe "D"
      then library (_calculate_daily_kpis P data particle)
      else if String.eqb timeframe "W"
      then library (_calculate_weekly_kpis P data particle)
      else if String.eqb timeframe "M"
      then library (_calculate_monthly_kpis P data particle)
      else inl InvalidTimeframe
  end.

(** ** What a call returns, read off its windows *)

(** The record built from the values of the current window, the values of
    the comparison window when it has rows, and a label. *)
Definition kpi_of (P : Pandas) (cur : list float64)
    (prev : option (list float64)) (label : string) : KPI :=
  let v stat := _calculate_variation (stat cur) (option_map stat prev) in
  mkKPI (series_min P cur) (series_mean P cur) (series_max P cur)
        (fst (v (series_min P))) (snd (v (series_min P)))
        (fst (v (series_mean P))) (snd (v (series_mean P)))
        (fst (v (series_max P))) (snd (v (series_max P)))
        label.

(** What the weekly and the monthly path do with their two windows. *)
Definition windows_kpis (P : Pandas) (current previous : DataFrame)
    (particle : string) : result (option KPI) :=
  cur <- getitem current particle ;;
  prev <- getitem previous particle ;;
  start_date <- timestamp_strftime P (timestamp_min current) ;;
  end_date <- timestamp_strftime P (timestamp_max current) ;;
  ret (Some (kpi_of P cur (if 0 <? len previous then Some prev else None)
               (start_date ++ " - " ++ end_date)%string)).

(** The values of the current window of each path, as the path selects
    them. *)
Definition current_window (P : Pandas) (data : Input)
    (particle timeframe : string) : raised + list float64 :=
  match coerce P data with
  | inl e => inl (Library e)
  | inr data =>
      let data := sort_values P data in
      if String.eqb timeframe "D" then
        library (dates <- dt_dates (map timestamp (rows data)) ;;
                 last_date <- iloc_last dates ;;
                 getitem (last_day_data data last_date) particle)
      else if String.eqb timeframe "W" then
        library (data_daily <- resample P "D" data particle ;;
                 getitem (last_week_data data_daily) particle)
      else if String.eqb timeframe "M" then
        library (data_weekly <- resample P "W-MON" data particle ;;
                 getitem (last_month_data data_weekly) particle)
      else inl InvalidTimeframe
  end.

End Machine.

Import PrimFloat Machine.

(* ================================================================== *)
(** ** The order of binary64 *)

Definition cmp_le (c : option comparison) : bool :=
  match c with
  | Some Lt | Some Eq => true
  | _ => false
  end.

Lemma SFleb_cmp a b : SpecFloat.SFleb a b = cmp_le (SpecFloat.SFcompare a b).
Proof.
  unfold SpecFloat.SFleb, cmp_le.
  destruct (SpecFloat.SFcompare a b) as [[]|]; reflexivity.
Qed.

Lemma SFleb_trans a b c :
  SpecFloat.SFleb a b = true -> SpecFloat.SFleb b c = true ->
  SpecFloat.SFleb a c = true.
Proof.
  rewrite !SFleb_cmp.
  destruct a as [sa|sa| |sa ma ea], b as [sb|sb| |sb mb eb],
           c as [sc|sc| |sc mc ec];
    cbn [SpecFloat.SFcompare cmp_le];
    try discriminate; try reflexivity;
    try (destruct sa; try discriminate; try reflexivity);
    try (destruct sb; try discriminate; try reflexivity);
    try (destruct sc; try discriminate; try reflexivity);
    cbn; try discriminate; try reflexivity.
  all: change (Pos.compare_cont Eq ?x ?y) with (Pos.compare x y).
  all: destruct (Z.compare_spec ea eb), (Z.compare_spec eb ec),
                (Z.compare_spec ea ec);
    try discriminate; try reflexivity; try lia; subst.
  all: try (destruct (Pos.compare_spec ma mb), (Pos.compare_spec mb mc),
                     (Pos.compare_spec ma mc);
            cbn; try discriminate; try reflexivity; try lia).
Qed.

Lemma SFcompare_antisym a b :
  SpecFloat.SFcompare b a = option_map CompOpp (SpecFloat.SFcompare a b).
Proof.
  destruct a as [sa|sa| |sa ma ea], b as [sb|sb| |sb mb eb];
    cbn [SpecFloat.SFcompare option_map];
    try reflexivity;
    try (destruct sa; reflexivity);
    try (destruct sb; reflexivity);
    try (destruct sa, sb; reflexivity).
  f_equal. destruct sa, sb; try reflexivity.
  - rewrite (Z.compare_antisym ea eb).
    destruct (ea ?= eb); cbn [CompOpp]; try reflexivity.
    change (Pos.compare_cont Eq ?x ?y) with (Pos.compare x y).
    rewrite (Pos.compare_antisym ma mb).
    destruct (ma ?= mb)%positive; reflexivity.
  - rewrite (Z.compare_antisym ea eb).
    destruct (ea ?= eb); cbn [CompOpp]; try reflexivity.
    change (Pos.compare_cont Eq ?x ?y) with (Pos.compare x y).
    rewrite (Pos.compare_antisym ma mb).
    destruct (ma ?= mb)%positive; reflexivity.
Qed.

Lemma SFcompare_refl a : a <> SpecFloat.S754_nan ->
  SpecFloat.SFcompare a a = Some Eq.
Proof.
  destruct a as [s|s| |s m e]; cbn [SpecFloat.SFcompare]; intros H.
  - reflexivity.
  - destruct s; reflexivity.
  - congruence.
  - rewrite Z.compare_refl.
    change (Pos.compare_cont Eq m m) with (Pos.compare m m).
    rewrite Pos.compare_refl. destruct s; reflexivity.
Qed.

Lemma SFcompare_none a b :
  SpecFloat.SFcompare a b = None ->
  a = SpecFloat.S754_nan \/ b = SpecFloat.S754_nan.
Proof.
  destruct a as [sa|sa| |sa ma ea], b as [sb|sb| |sb mb eb];
    cbn [SpecFloat.SFcompare]; intros H; try discriminate; auto.
Qed.

(** [x] is a number: not NaN. *)
Lemma is_nan_spec (x : float64) :
  is_nan x = false <-> FloatOps.Prim2SF x <> SpecFloat.S754_nan.
Proof.
  unfold is_nan. rewrite FloatAxioms.eqb_spec. unfold SpecFloat.SFeqb.
  split.
  - intros H E. rewrite E in H. discriminate.
  - intros H. now rewrite (SFcompare_refl _ H).
Qed.

Lemma leb_trans (a b c : float64) :
  (a <=? b)%float = true -> (b <=? c)%float = true -> (a <=? c)%float = true.
Proof. rewrite !FloatAxioms.leb_spec. apply SFleb_trans. Qed.

Lemma leb_refl (x : float64) : is_nan x = false -> (x <=? x)%float = true.
Proof.
  intros H. apply is_nan_spec in H. rewrite FloatAxioms.leb_spec.
  unfold SpecFloat.SFleb. now rewrite (SFcompare_refl _ H).
Qed.

Lemma ltb_leb (x y : float64) :
  (x <? y)%float = true -> (x <=? y)%float = true.
Proof.
  rewrite FloatAxioms.ltb_spec, FloatAxioms.leb_spec.
  unfold SpecFloat.SFltb, SpecFloat.SFleb.
  destruct (SpecFloat.SFcompare _ _) as [[]|]; congruence.
Qed.

Lemma not_ltb_leb (x y : float64) :
  is_nan x = false -> is_nan y = false ->
  (y <? x)%float = false -> (x <=? y)%float = true.
Proof.
  intros Hx Hy. apply is_nan_spec in Hx, Hy.
  rewrite FloatAxioms.ltb_spec, FloatAxioms.leb_spec.
  unfold SpecFloat.SFltb, SpecFloat.SFleb.
  rewrite (SFcompare_antisym (FloatOps.Prim2SF x) (FloatOps.Prim2SF y)).
  destruct (SpecFloat.SFcompare _ _) as [[]|] eqn:E; cbn; try congruence.
  apply SFcompare_none in E. tauto.
Qed.

(* ================================================================== *)
(** ** A reference implementation of the library *)

(** [sort_values]: a stable insertion sort, [NaT] last. *)
Definition instant_ltb (a b : instant) : bool :=
  match a, b with
  | At s, At t => s <? t
  | At _, NaT => true
  | NaT, _ => false
  end.

Fixpoint insert_by_timestamp (r : Row) (l : list Row) : list Row :=
  match l with
  | [] => [r]
  | h :: t => if instant_ltb (timestamp r) (timestamp h) then r :: h :: t
              else h :: insert_by_timestamp r t
  end.

Definition stable_sort (l : list Row) : list Row :=
  fold_left (fun acc r => insert_by_timestamp r acc) l [].

(** The reductions of a series, NaN skipped: the minimum and the maximum
    by comparison, the mean as the sum from left to right over the
    count. *)
Definition notna (l : list float64) : list float64 :=
  filter (fun x => negb (is_nan x)) l.

Definition fmin (m y : float64) : float64 := if (y <? m)%float then y else m.
Definition fmax (m y : float64) : float64 := if (m <? y)%float then y else m.

Definition nanmin (l : list float64) : float64 :=
  match notna l with
  | [] => nan
  | x :: xs => fold_left fmin xs x
  end.

Definition nanmax (l : list float64) : float64 :=
  match notna l with
  | [] => nan
  | x :: xs => fold_left fmax xs x
  end.

Definition nanmean (l : list float64) : float64 :=
  match notna l with
  | [] => nan
  | x :: xs =>
      (fold_left add xs x / fold_left (fun n _ => n + 1) xs 1)%float
  end.

(** [pd.to_datetime(s, unit='s')]: NaN gives [NaT]; a number of seconds is
    taken down to the whole second; an infinity, or a number beyond the
    range of a nanosecond timestamp, raises [OutOfBoundsDatetime], a
    [ValueError]. *)
Definition floor_seconds (x : float64) : option Z :=
  match FloatOps.Prim2SF x with
  | SpecFloat.S754_zero _ => Some 0
  | SpecFloat.S754_finite s m e =>
      if 0 <=? e then
        Some (if s then - (Zpos m * 2 ^ e) else Zpos m * 2 ^ e)
      else
        let den := 2 ^ (- e) in
        Some (if s then - ((Zpos m + den - 1) / den) else Zpos m / den)
  | _ => None
  end.

Definition out_of_bounds : exception :=
  ValueError "cannot convert input with the unit 's'".

Definition datetime_of_seconds (x : float64) : result instant :=
  if is_nan x then ret NaT
  else
    match floor_seconds x with
    | Some z =>
        if (-9223372036 <=? z) && (z <=? 9223372036) then ret (At z)
        else raise out_of_bounds
    | None => raise out_of_bounds
    end.

Fixpoint to_datetime_seconds (l : list float64) : result (list instant) :=
  match l with
  | [] => ret []
  | x :: t =>
      i <- datetime_of_seconds x ;;
      rest <- to_datetime_seconds t ;;
      ret (i :: rest)
  end.

(** [resample]: the bins of [resample_mean] above, over the rows that have
    an instant. *)
Fixpoint keyed_values (stamps : list instant) (vals : list float64)
  : list (Z * float64) :=
  match stamps, vals with
  | At t :: stamps, v :: vals => (t, v) :: keyed_values stamps vals
  | NaT :: stamps, _ :: vals => keyed_values stamps vals
  | _, _ => []
  end.

Definition resample_bins (bin label : Z -> Z) (df : DataFrame) (c : string)
  : result DataFrame :=
  vals <- getitem df c ;;
  let keyed := keyed_values (map timestamp (rows df)) vals in
  match map (fun kv => bin (fst kv)) keyed with
  | [] => ret (mkFrame [c] [])
  | k :: ks =>
      let first := fold_right Z.min k ks in
      let last := fold_right Z.max k ks in
      ret (mkFrame [c]
             (map (fun b =>
                     mkRow (At (label b))
                       [nanmean
                          (map snd
                             (filter (fun kv => bin (fst kv) =? b) keyed))])
                  (zrange first last)))
  end.

Definition resample_rule (rule : string) (df : DataFrame) (c : string)
  : result DataFrame :=
  if String.eqb rule "D" then resample_bins day_bin day_label df c
  else if String.eqb rule "W-MON" then resample_bins week_bin week_label df c
  else raise (ValueError "Invalid frequency").

(** [t.strftime('%d/%m')] *)
Definition strftime_day_month (i : instant) : result string :=
  match i with
  | NaT => raise (ValueError "NaTType does not support strftime")
  | At t => ret (day_month (dt_date t))
  end.

(** *** The laws hold of it *)

Lemma insert_by_timestamp_perm (r : Row) (l : list Row) :
  Permutation (insert_by_timestamp r l) (r :: l).
Proof.
  induction l as [|h t IH]; simpl; [reflexivity|].
  destruct (instant_ltb (timestamp r) (timestamp h)); [reflexivity|].
  rewrite IH. apply perm_swap.
Qed.

Lemma stable_sort_acc_perm (l acc : list Row) :
  Permutation (fold_left (fun acc r => insert_by_timestamp r acc) l acc)
              (l ++ acc).
Proof.
  revert acc. induction l as [|r l IH]; intros acc; simpl; [reflexivity|].
  rewrite IH, insert_by_timestamp_perm. symmetry. apply Permutation_middle.
Qed.

Lemma stable_sort_perm (l : list Row) : Permutation (stable_sort l) l.
Proof.
  unfold stable_sort. rewrite stable_sort_acc_perm. now rewrite app_nil_r.
Qed.

Lemma instant_le_trans (a b c : instant) :
  instant_le a b -> instant_le b c -> instant_le a c.
Proof. destruct a, b, c; simpl; try tauto; lia. Qed.

Lemma instant_ltb_le (a b : instant) :
  instant_ltb a b = true -> instant_le a b.
Proof. destruct a, b; simpl; try discriminate; try tauto. lia. Qed.

Lemma instant_not_ltb_le (a b : instant) :
  instant_ltb a b = false -> instant_le b a.
Proof. destruct a, b; simpl; try discriminate; try tauto. lia. Qed.

Lemma insert_by_timestamp_sorted (r : Row) (l : list Row) :
  sorted l -> sorted (insert_by_timestamp r l).
Proof.
  induction 1 as [|h t Hh Ht IH]; simpl.
  - constructor; constructor.
  - destruct (instant_ltb (timestamp r) (timestamp h)) eqn:E.
    + apply instant_ltb_le in E. constructor; [|now constructor].
      constructor; [exact E|].
      eapply Forall_impl; [|exact Hh]. cbv beta. intros r' H.
      exact (instant_le_trans _ _ _ E H).
    + apply instant_not_ltb_le in E. constructor; [|exact IH].
      rewrite Forall_forall. intros x Hx.
      apply (Permutation_in _ (insert_by_timestamp_perm r t)) in Hx.
      destruct Hx as [<- | Hx]; [exact E|].
      rewrite Forall_forall in Hh. now apply Hh.
Qed.

Lemma stable_sort_acc_sorted (l acc : list Row) :
  sorted acc ->
  sorted (fold_left (fun acc r => insert_by_timestamp r acc) l acc).
Proof.
  revert acc. induction l as [|r l IH]; intros acc H; simpl; [exact H|].
  apply IH. now apply insert_by_timestamp_sorted.
Qed.

Lemma stable_sort_sorted (l : list Row) : sorted (stable_sort l).
Proof. apply stable_sort_acc_sorted. constructor. Qed.

Lemma notna_In (l : list float64) (x : float64) :
  In x (notna l) <-> In x l /\ is_nan x = false.
Proof.
  unfold notna. rewrite filter_In. rewrite negb_true_iff. reflexivity.
Qed.

Lemma fold_fmin_spec (xs : list float64) (m : float64) :
  is_nan m = false -> Forall (fun x => is_nan x = false) xs ->
  let r := fold_left fmin xs m in
  In r (m :: xs) /\ is_nan r = false /\
  (r <=? m)%float = true /\
  forall z, In z xs -> (r <=? z)%float = true.
Proof.
  revert m. induction xs as [|y xs IH]; intros m Hm Hxs; cbn [fold_left].
  - cbv zeta. repeat split; [now left|exact Hm|now apply leb_refl|].
    intros z [].
  - inversion Hxs as [|? ? Hy Hxs']. subst.
    assert (Hs : is_nan (fmin m y) = false)
      by (unfold fmin; destruct (y <? m)%float; assumption).
    destruct (IH (fmin m y) Hs Hxs') as (Hin & Hn & Hle & Hall).
    assert (Hm' : (fmin m y <=? m)%float = true).
    { unfold fmin. destruct (y <? m)%float eqn:E.
      - now apply ltb_leb.
      - now apply leb_refl. }
    assert (Hy' : (fmin m y <=? y)%float = true).
    { unfold fmin. destruct (y <? m)%float eqn:E.
      - now apply leb_refl.
      - now apply not_ltb_leb. }
    cbv zeta. repeat split.
    + destruct Hin as [Hin | Hin].
      * rewrite <- Hin. unfold fmin.
        destruct (y <? m)%float; [right; now left | now left].
      * right. now right.
    + exact Hn.
    + exact (leb_trans _ _ _ Hle Hm').
    + intros z [<- | Hz]; [exact (leb_trans _ _ _ Hle Hy')|now apply Hall].
Qed.

Lemma fold_fmax_spec (xs : list float64) (m : float64) :
  is_nan m = false -> Forall (fun x => is_nan x = false) xs ->
  let r := fold_left fmax xs m in
  In r (m :: xs) /\ is_nan r = false /\
  (m <=? r)%float = true /\
  forall z, In z xs -> (z <=? r)%float = true.
Proof.
  revert m. induction xs as [|y xs IH]; intros m Hm Hxs; cbn [fold_left].
  - cbv zeta. repeat split; [now left|exact Hm|now apply leb_refl|].
    intros z [].
  - inversion Hxs as [|? ? Hy Hxs']. subst.
    assert (Hs : is_nan (fmax m y) = false)
      by (unfold fmax; destruct (m <? y)%float; assumption).
    destruct (IH (fmax m y) Hs Hxs') as (Hin & Hn & Hle & Hall).
    assert (Hm' : (m <=? fmax m y)%float = true).
    { unfold fmax. destruct (m <? y)%float eqn:E.
      - now apply ltb_leb.
      - now apply leb_refl. }
    assert (Hy' : (y <=? fmax m y)%float = true).
    { unfold fmax. destruct (m <? y)%float eqn:E.
      - now apply leb_refl.
      - now apply not_ltb_leb. }
    cbv zeta. repeat split.
    + destruct Hin as [Hin | Hin].
      * rewrite <- Hin. unfold fmax.
        destruct (m <? y)%float; [right; now left | now left].
      * right. now right.
    + exact Hn.
    + exact (leb_trans _ _ _ Hm' Hle).
    + intros z [<- | Hz]; [exact (leb_trans _ _ _ Hy' Hle)|now apply Hall].
Qed.

Lemma notna_numbers (l : list float64) :
  Forall (fun x => is_nan x = false) (notna l).
Proof. rewrite Forall_forall. intros x H. now apply notna_In in H. Qed.

Lemma nanmin_in (l : list float64) :
  (exists x, In x l /\ is_nan x = false) -> In (nanmin l) l.
Proof.
  intros (x & Hx & Hn). unfold nanmin.
  pose proof (notna_numbers l) as Hall.
  assert (Hin : In x (notna l)) by now apply notna_In.
  destruct (notna l) as [|m xs] eqn:E; [destruct Hin|].
  inversion Hall as [|? ? Hm Hxs]. subst.
  destruct (fold_fmin_spec xs m Hm Hxs) as (Hr & _).
  cbv zeta in Hr. rewrite <- E in Hr. now apply notna_In in Hr.
Qed.

Lemma nanmin_lower (l : list float64) (x : float64) :
  In x l -> is_nan x = false -> (nanmin l <=? x)%float = true.
Proof.
  intros Hx Hn. unfold nanmin.
  pose proof (notna_numbers l) as Hall.
  assert (Hin : In x (notna l)) by now apply notna_In.
  destruct (notna l) as [|m xs] eqn:E; [destruct Hin|].
  inversion Hall as [|? ? Hm Hxs]. subst.
  destruct (fold_fmin_spec xs m Hm Hxs) as (_ & _ & Hle & Hlow).
  destruct Hin as [<- | Hin]; [exact Hle|now apply Hlow].
Qed.

Lemma nanmax_in (l : list float64) :
  (exists x, In x l /\ is_nan x = false) -> In (nanmax l) l.
Proof.
  intros (x & Hx & Hn). unfold nanmax.
  pose proof (notna_numbers l) as Hall.
  assert (Hin : In x (notna l)) by now apply notna_In.
  destruct (notna l) as [|m xs] eqn:E; [destruct Hin|].
  inversion Hall as [|? ? Hm Hxs]. subst.
  destruct (fold_fmax_spec xs m Hm Hxs) as (Hr & _).
  cbv zeta in Hr. rewrite <- E in Hr. now apply notna_In in Hr.
Qed.

Lemma nanmax_upper (l : list float64) (x : float64) :
  In x l -> is_nan x = false -> (x <=? nanmax l)%float = true.
Proof.
  intros Hx Hn. unfold nanmax.
  pose proof (notna_numbers l) as Hall.
  assert (Hin : In x (notna l)) by now apply notna_In.
  destruct (notna l) as [|m xs] eqn:E; [destruct Hin|].
  inversion Hall as [|? ? Hm Hxs]. subst.
  destruct (fold_fmax_spec xs m Hm Hxs) as (_ & _ & Hle & Hup).
  destruct Hin as [<- | Hin]; [exact Hle|now apply Hup].
Qed.

Definition reference : Pandas :=
  mkPandas to_datetime_seconds
           stable_sort stable_sort_perm stable_sort_sorted
           nanmin nanmax nanmean
           nanmin_in nanmin_lower nanmax_in nanmax_upper
           resample_rule
           strftime_dmY (fun d _ => eq_refl)
           strftime_day_month.

(** The bounds of [datetime.date] are those of the calendar above. *)
Lemma date_bounds :
  civil_from_days min_date = (1, 1, 1) /\
  civil_from_days (min_date - 1) = (0, 12, 31) /\
  civil_from_days max_date = (9999, 12, 31) /\
  civil_from_days (max_date + 1) = (10000, 1, 1) /\
  civil_from_days date_1000 = (1000, 1, 1).
Proof. repeat split; vm_compute; reflexivity. Qed.

(* ================================================================== *)
(** ** The variation rule in binary64 *)

Definition tenth : float64 := 0x1.999999999999ap-4%float.

(** C3 (as stated, refuted).  With current value 1 and previous value 3 the code
    computes the percentage [((1 - 3) / 3) * 100], which rounds to
    -66.666666666666657, and not the [100 * (1 - 3) / 3] of the rule,
    which rounds to -66.666666666666671. *)
Lemma variation_percent_rounding :
  Machine._calculate_variation 1%float (Some 3%float) =
    (Some (-2)%float, Some (-0x1.0aaaaaaaaaaaap+6)%float) /\
  (100 * (1 - 3) / 3)%float = (-0x1.0aaaaaaaaaaabp+6)%float /\
  (100 * (1 - 3) / 3 <? (1 - 3) / 3 * 100)%float = true.
Proof. repeat split; vm_compute; reflexivity. Qed.

(** C3 (amended).  No variation on a previous value that is
    [None], NaN or zero (of either sign); on any other previous value [p]
    the pair is [x - p] and [((x - p) / p) * 100], each operation rounded
    to binary64, in this order: the quotient first, then the product by
    100.  [variation(110, 100) = (10, 10.0)] and
    [variation(90, 100) = (-10, -10.0)]. *)
Theorem variation_rule :
  (forall x : float64, Machine._calculate_variation x None = (None, None)) /\
  (forall x p : float64, is_nan p = true ->
     Machine._calculate_variation x (Some p) = (None, None)) /\
  (forall x p : float64, (p =? 0)%float = true ->
     Machine._calculate_variation x (Some p) = (None, None)) /\
  (forall x : float64,
     Machine._calculate_variation x (Some nan) = (None, None) /\
     Machine._calculate_variation x (Some 0%float) = (None, None) /\
     Machine._calculate_variation x (Some (-0)%float) = (None, None)) /\
  (forall x p : float64, is_nan p = false -> (p =? 0)%float = false ->
     Machine._calculate_variation x (Some p) =
       (Some (x - p)%float, Some ((x - p) / p * 100)%float)) /\
  Machine._calculate_variation 110%float (Some 100%float) =
    (Some 10%float, Some 10%float) /\
  Machine._calculate_variation 90%float (Some 100%float) =
    (Some (-10)%float, Some (-10)%float).
Proof.
  split; [reflexivity|].
  split; [intros x p H; unfold Machine._calculate_variation; now rewrite H|].
  split.
  { intros x p H. unfold Machine._calculate_variation. rewrite H.
    now rewrite orb_true_r. }
  split; [intros x; repeat split; reflexivity|].
  split.
  { intros x p Hn Hz. unfold Machine._calculate_variation.
    rewrite Hn, Hz. reflexivity. }
  split; vm_compute; reflexivity.
Qed.

Lemma variation_rule_witness :
  is_nan 3%float = false /\ (3 =? 0)%float = false /\
  Machine._calculate_variation 1%float (Some 3%float) =
    (Some (1 - 3)%float, Some ((1 - 3) / 3 * 100)%float) /\
  is_nan nan = true /\
  Machine._calculate_variation 1%float (Some nan) = (None, None).
Proof.
  destruct variation_rule as (_ & Hnan & _ & _ & Hnum & _).
  split; [reflexivity|]. split; [reflexivity|].
  split; [apply Hnum; reflexivity|].
  split; [reflexivity|]. apply Hnan. reflexivity.
Defined.

(* ================================================================== *)
(** ** The error of an unknown timeframe *)

(** C4 (as stated, refuted).  A 'timestamp' column of numbers that
    [pd.to_datetime(..., unit='s')] cannot convert (here 2^70 seconds,
    beyond any 64-bit timestamp): the call with timeframe ['Q'] raises the
    error of the conversion on line 47, and never reaches line 59.  On a
    frame without 'timestamp' column it raises the [KeyError] of line
    45. *)
Lemma failed_conversion_precedes_dispatch :
  Machine.calculate_kpis reference
    (epoch ["col"%string] [(0x1p+70%float, [1%float])]) "col" "Q" =
    inl (Library out_of_bounds) /\
  Machine.calculate_kpis reference
    (untimed ["col"%string] [[1%float]]) "col" "Q" =
    inl (Library (KeyError "timestamp")).
Proof. split; vm_compute; reflexivity. Qed.

(** C4 (amended).  [calculate_kpis] raises the error of line 59
    exactly when the conversion of lines 45 to 47 succeeds and the
    timeframe is none of ['D'], ['W'] and ['M'].  On a series whose
    timestamps are datetimes already no conversion takes place: there the
    error is raised if and only if the timeframe is none of the three, and
    ['Q'] raises it.  On ['D'], ['W'] and ['M'] it is never raised,
    whatever else the library calls of the paths raise.  When the
    conversion fails, its exception is raised for every timeframe. *)
Theorem invalid_timeframe_iff :
  forall (P : Pandas) (particle timeframe : string),
    let outside :=
      timeframe <> "D"%string /\ timeframe <> "W"%string /\
      timeframe <> "M"%string in
    (forall data,
       Machine.calculate_kpis P data particle timeframe =
         inl InvalidTimeframe <->
       (exists df, coerce P data = inr df) /\ outside) /\
    (forall df,
       Machine.calculate_kpis P (datetime64 df) particle timeframe =
         inl InvalidTimeframe <-> outside) /\
    (forall df,
       Machine.calculate_kpis P (datetime64 df) particle "Q" =
         inl InvalidTimeframe) /\
    (forall data,
       timeframe = "D"%string \/ timeframe = "W"%string \/
       timeframe = "M"%string ->
       Machine.calculate_kpis P data particle timeframe <>
         inl InvalidTimeframe) /\
    (forall data e,
       coerce P data = inl e ->
       Machine.calculate_kpis P data particle timeframe = inl (Library e)).
Proof.
  intros P particle timeframe outside.
  assert (L : forall A (r : result A), library r <> inl InvalidTimeframe).
  { intros A [e|a]; simpl; discriminate. }
  assert (Main : forall data,
    Machine.calculate_kpis P data particle timeframe = inl InvalidTimeframe <->
    (exists df, coerce P data = inr df) /\ outside).
  { intros data. unfold Machine.calculate_kpis, outside.
    destruct (coerce P data) as [e|df].
    { split; [discriminate|]. intros [[df H] _]. discriminate. }
    destruct (String.eqb timeframe "D") eqn:ED.
    { apply String.eqb_eq in ED. split.
      - intros H. now apply L in H.
      - intros (_ & H & _). contradiction. }
    destruct (String.eqb timeframe "W") eqn:EW.
    { apply String.eqb_eq in EW. split.
      - intros H. now apply L in H.
      - intros (_ & _ & H & _). contradiction. }
    destruct (String.eqb timeframe "M") eqn:EM.
    { apply String.eqb_eq in EM. split.
      - intros H. now apply L in H.
      - intros (_ & _ & _ & H). contradiction. }
    apply String.eqb_neq in ED, EW, EM. split; [|reflexivity].
    intros _. split; [now exists df|]. now repeat split. }
  split; [exact Main|]. split; [|split; [|split]].
  - intros df. rewrite Main. split; [tauto|].
    intros H. split; [|exact H]. now exists df.
  - intros df. reflexivity.
  - intros data H E. apply Main in E as (_ & HD & HW & HM).
    destruct H as [H | [H | H]]; contradiction.
  - intros data e H. unfold Machine.calculate_kpis. now rewrite H.
Qed.

Lemma invalid_timeframe_iff_witness :
  Machine.calculate_kpis reference
    (datetime64 (mkFrame ["col"%string] [mkRow (At 0) [1%float]]))
    "col" "Q" = inl InvalidTimeframe /\
  Machine.calculate_kpis reference
    (datetime64 (mkFrame ["col"%string] [mkRow (At 0) [1%float]]))
    "col" "D" <> inl InvalidTimeframe /\
  Machine.calculate_kpis reference
    (epoch ["col"%string] [(0x1p+70%float, [1%float])]) "col" "Q" =
    inl (Library out_of_bounds).
Proof.
  pose proof (invalid_timeframe_iff reference "col" "Q") as TQ.
  pose proof (invalid_timeframe_iff reference "col" "D") as TD.
  cbv zeta in TQ, TD.
  destruct TQ as (_ & TQ & _ & _ & TE).
  destruct TD as (_ & _ & _ & TD & _).
  split; [|split].
  - apply TQ. repeat split; discriminate.
  - apply TD. now left.
  - apply TE. vm_compute. reflexivity.
Defined.

(* ================================================================== *)
(** ** What a path returns, in binary64 *)

Ltac split_machine_variations :=
  repeat match goal with
  | |- context [Machine._calculate_variation ?a ?b] =>
      let E := fresh "E" in
      destruct (Machine._calculate_variation a b) eqn:E
  end.

Lemma machine_daily_unfold (P : Pandas) data particle :
  Machine._calculate_daily_kpis P data particle =
    (dates <- dt_dates (map timestamp (rows data)) ;;
     last_date <- Machine.iloc_last dates ;;
     if Machine.len (Machine.last_day_data data last_date) =? 0
     then Machine.ret None
     else
       cur <- Machine.getitem (Machine.last_day_data data last_date)
                particle ;;
       prev_date <- day_before last_date ;;
       prev <- Machine.getitem (Machine.prev_day_data data prev_date)
                 particle ;;
       label <- strftime_date P last_date ;;
       Machine.ret
         (Some (Machine.kpi_of P cur
                  (if 0 <? Machine.len (Machine.prev_day_data data prev_date)
                   then Some prev else None)
                  label))).
Proof.
  unfold Machine._calculate_daily_kpis, Machine.kpi_of.
  destruct (dt_dates _) as [e|dates]; cbn [Machine.bind]; [reflexivity|].
  destruct (Machine.iloc_last dates) as [e|d]; cbn [Machine.bind];
    [reflexivity|].
  destruct (Machine.len (Machine.last_day_data data d) =? 0); [reflexivity|].
  destruct (Machine.getitem (Machine.last_day_data data d) particle)
    as [e|cur]; cbn [Machine.bind]; [reflexivity|].
  destruct (day_before d) as [e|pd]; cbn [Machine.bind]; [reflexivity|].
  destruct (Machine.getitem (Machine.prev_day_data data pd) particle)
    as [e|prev]; cbn [Machine.bind]; [reflexivity|].
  destruct (0 <? Machine.len (Machine.prev_day_data data pd));
    cbn [option_map]; split_machine_variations;
    destruct (strftime_date P d); reflexivity.
Qed.

Lemma machine_weekly_unfold (P : Pandas) data particle :
  Machine._calculate_weekly_kpis P data particle =
    (data_daily <- resample P "D" data particle ;;
     if Machine.len data_daily <? 2 then Machine.ret None
     else Machine.windows_kpis P (Machine.last_week_data data_daily)
            (Machine.prev_week_data data_daily) particle).
Proof.
  unfold Machine._calculate_weekly_kpis, Machine.windows_kpis, Machine.kpi_of.
  destruct (resample P "D" data particle) as [e|dd]; cbn [Machine.bind];
    [reflexivity|].
  destruct (Machine.len dd <? 2); [reflexivity|].
  destruct (Machine.getitem (Machine.last_week_data dd) particle) as [e|cur];
    cbn [Machine.bind]; [reflexivity|].
  destruct (Machine.getitem (Machine.prev_week_data dd) particle) as [e|prev];
    cbn [Machine.bind]; [reflexivity|].
  destruct (0 <? Machine.len (Machine.prev_week_data dd)); cbn [option_map];
    split_machine_variations; reflexivity.
Qed.

Lemma machine_monthly_unfold (P : Pandas) data particle :
  Machine._calculate_monthly_kpis P data particle =
    (data_weekly <- resample P "W-MON" data particle ;;
     if Machine.len data_weekly <? 2 then Machine.ret None
     else Machine.windows_kpis P (Machine.last_month_data data_weekly)
            (Machine.prev_month_data data_weekly) particle).
Proof.
  unfold Machine._calculate_monthly_kpis, Machine.windows_kpis,
    Machine.kpi_of.
  destruct (resample P "W-MON" data particle) as [e|dd]; cbn [Machine.bind];
    [reflexivity|].
  destruct (Machine.len dd <? 2); [reflexivity|].
  destruct (Machine.getitem (Machine.last_month_data dd) particle)
    as [e|cur]; cbn [Machine.bind]; [reflexivity|].
  destruct (Machine.getitem (Machine.prev_month_data dd) particle)
    as [e|prev]; cbn [Machine.bind]; [reflexivity|].
  destruct (0 <? Machine.len (Machine.prev_month_data dd)); cbn [option_map];
    split_machine_variations; reflexivity.
Qed.

Lemma machine_getitem_nonempty (df : Machine.DataFrame) c vals :
  Machine.getitem df c = inr vals -> Machine.rows df <> [] -> vals <> [].
Proof.
  unfold Machine.getitem. destruct (index_of c (Machine.columns df));
    [|discriminate].
  intros H Hne. inversion H. intros E. apply map_eq_nil in E. contradiction.
Qed.

Lemma machine_tail_nonempty (dd : Machine.DataFrame) (k : Z) :
  2 <= Machine.len dd -> 2 <= k ->
  Machine.rows (Machine.tail dd (Z.min k (Machine.len dd))) <> [].
Proof.
  intros H Hk. unfold Machine.tail, Machine.len in *. cbn [Machine.rows].
  intros E. apply (f_equal (@List.length Machine.Row)) in E.
  rewrite length_skipn in E. simpl in E. lia.
Qed.

Lemma library_returned {A} (r : Machine.result A) (a : A) :
  library r = inr a -> r = inr a.
Proof. destruct r; simpl; congruence. Qed.

(** What a call of the weekly or monthly kind returned is the record of
    the values of its current window. *)
Lemma windows_kpis_returned (P : Pandas) current previous particle kpi :
  Machine.windows_kpis P current previous particle = inr (Some kpi) ->
  exists cur prev label,
    Machine.getitem current particle = inr cur /\
    kpi = Machine.kpi_of P cur prev label.
Proof.
  unfold Machine.windows_kpis.
  destruct (Machine.getitem current particle) as [e|cur];
    cbn [Machine.bind]; [discriminate|].
  destruct (Machine.getitem previous particle) as [e|prev];
    cbn [Machine.bind]; [discriminate|].
  destruct (timestamp_strftime P (timestamp_min current)) as [e|s1];
    cbn [Machine.bind]; [discriminate|].
  destruct (timestamp_strftime P (timestamp_max current)) as [e|s2];
    cbn [Machine.bind]; [discriminate|].
  intros H. inversion H. eauto.
Qed.

(** Every record returned is the record of the values of the current
    window, and that window has a value. *)
Lemma machine_kpis_of_window (P : Pandas) data particle timeframe kpi :
  Machine.calculate_kpis P data particle timeframe = inr (Some kpi) ->
  exists cur prev label,
    Machine.current_window P data particle timeframe = inr cur /\
    cur <> [] /\
    kpi = Machine.kpi_of P cur prev label.
Proof.
  unfold Machine.calculate_kpis, Machine.current_window.
  destruct (coerce P data) as [e|df]; [discriminate|].
  destruct (String.eqb timeframe "D").
  { intros H. apply library_returned in H.
    rewrite machine_daily_unfold in H.
    destruct (dt_dates _) as [e|dates]; cbn [Machine.bind] in *;
      [discriminate|].
    destruct (Machine.iloc_last dates) as [e|d]; cbn [Machine.bind] in *;
      [discriminate|].
    destruct (Machine.len (Machine.last_day_data _ d) =? 0) eqn:E0;
      [discriminate|].
    destruct (Machine.getitem (Machine.last_day_data _ d) particle)
      as [e|cur] eqn:Ec; cbn [Machine.bind] in *; [discriminate|].
    destruct (day_before d) as [e|pd]; cbn [Machine.bind] in *;
      [discriminate|].
    destruct (Machine.getitem (Machine.prev_day_data _ pd) particle)
      as [e|prev]; cbn [Machine.bind] in *; [discriminate|].
    destruct (strftime_date P d) as [e|label]; cbn [Machine.bind] in *;
      [discriminate|].
    inversion H. do 3 eexists. split; [reflexivity|].
    split; [|reflexivity].
    apply (machine_getitem_nonempty _ _ _ Ec). apply Z.eqb_neq in E0.
    unfold Machine.len in E0. intros E. rewrite E in E0. now apply E0. }
  destruct (String.eqb timeframe "W").
  { intros H. apply library_returned in H.
    rewrite machine_weekly_unfold in H.
    destruct (resample P "D" _ particle) as [e|dd];
      cbn [Machine.bind] in *; [discriminate|].
    destruct (Machine.len dd <? 2) eqn:E2; [discriminate|].
    apply Z.ltb_ge in E2.
    destruct (windows_kpis_returned _ _ _ _ _ H)
      as (cur & prev & label & Hc & ->).
    rewrite Hc. exists cur, prev, label. split; [reflexivity|].
    split; [|reflexivity].
    apply (machine_getitem_nonempty _ _ _ Hc).
    apply machine_tail_nonempty; [exact E2|lia]. }
  destruct (String.eqb timeframe "M").
  { intros H. apply library_returned in H.
    rewrite machine_monthly_unfold in H.
    destruct (resample P "W-MON" _ particle) as [e|dd];
      cbn [Machine.bind] in *; [discriminate|].
    destruct (Machine.len dd <? 2) eqn:E2; [discriminate|].
    apply Z.ltb_ge in E2.
    destruct (windows_kpis_returned _ _ _ _ _ H)
      as (cur & prev & label & Hc & ->).
    rewrite Hc. exists cur, prev, label. split; [reflexivity|].
    split; [|reflexivity].
    apply (machine_getitem_nonempty _ _ _ Hc).
    apply machine_tail_nonempty; [exact E2|lia]. }
  discriminate.
Qed.

(** The weekly and the monthly path, run on a record a day for ten days
    and on a record a week for nine weeks, the value of a record being
    the number of its day or week. *)
Definition machine_sample (stamps : list (Z * float64)) : Machine.DataFrame :=
  mkFrame ["col"%string]
    (map (fun p => mkRow (At (midnight (fst p) + 5)) [snd p]) stamps).

Definition machine_ten_days : Machine.DataFrame :=
  machine_sample
    [(1, 1%float); (2, 2%float); (3, 3%float); (4, 4%float); (5, 5%float);
     (6, 6%float); (7, 7%float); (8, 8%float); (9, 9%float);
     (10, 10%float)].

Definition machine_nine_weeks : Machine.DataFrame :=
  machine_sample
    [(0, 0%float); (7, 1%float); (14, 2%float); (21, 3%float);
     (28, 4%float); (35, 5%float); (42, 6%float); (49, 7%float);
     (56, 8%float)].

Lemma machine_sample_runs :
  Machine.calculate_kpis reference (datetime64 machine_ten_days) "col" "W" =
    inr (Some (Machine.mkKPI 4%float 7%float 10%float
                 (Some 1%float) (Some ((4 - 3) / 3 * 100)%float)
                 (Some 1%float) (Some ((7 - 6) / 6 * 100)%float)
                 (Some 1%float) (Some ((10 - 9) / 9 * 100)%float)
                 "05/01 - 11/01")) /\
  Machine.calculate_kpis reference (datetime64 machine_nine_weeks) "col" "M" =
    inr (Some (Machine.mkKPI 5%float 0x1.ap+2%float 8%float
                 (Some 4%float) (Some 400%float)
                 (Some 4%float) (Some 160%float)
                 (Some 4%float) (Some 100%float)
                 "09/02 - 02/03")).
Proof. split; vm_compute; reflexivity. Qed.

(* ================================================================== *)
(** ** Order of the three statistics in binary64 *)

(** Three records of one day, each with the value 0.1. *)
Definition three_tenths : Machine.DataFrame :=
  mkFrame ["col"%string]
    [mkRow (At 0) [tenth]; mkRow (At 1) [tenth]; mkRow (At 2) [tenth]].

(** C9 (as stated, refuted).  On three records of 0.1 the sum 0.1 + 0.1 + 0.1
    rounds to 0.30000000000000004 and the mean to 0.10000000000000002,
    above the maximum 0.1. *)
Lemma mean_above_max :
  exists kpi,
    Machine.calculate_kpis reference (datetime64 three_tenths) "col" "D" =
      inr (Some kpi) /\
    Machine.kpi_min kpi = tenth /\
    Machine.kpi_max kpi = tenth /\
    Machine.kpi_mean kpi = 0x1.999999999999bp-4%float /\
    (Machine.kpi_max kpi <? Machine.kpi_mean kpi)%float = true.
Proof. eexists. repeat split; vm_compute; reflexivity. Qed.

Lemma series_min_le_max (P : Pandas) (l : list float64) :
  (exists x, In x l /\ is_nan x = false) ->
  (series_min P l <=? series_max P l)%float = true.
Proof.
  intros (x & Hx & Hn).
  exact (leb_trans _ _ _ (series_min_lower P l x Hx Hn)
                         (series_max_upper P l x Hx Hn)).
Qed.

(** C9 (amended).  In every record returned, for any timeframe,
    the three statistics are the minimum, the mean and the maximum of the
    values of one and the same current window, which holds at least one
    value; when one of these values is a number, the minimum and the
    maximum are values of the window and [min <= max].  The mean is the
    binary64 mean of the window, and the rounding of its sum and of its
    quotient can take it out of [[min, max]]. *)
Theorem kpi_min_le_max :
  forall (P : Pandas) data particle timeframe kpi,
    Machine.calculate_kpis P data particle timeframe = inr (Some kpi) ->
    exists cur,
      Machine.current_window P data particle timeframe = inr cur /\
      cur <> [] /\
      Machine.kpi_min kpi = series_min P cur /\
      Machine.kpi_mean kpi = series_mean P cur /\
      Machine.kpi_max kpi = series_max P cur /\
      ((exists x, In x cur /\ is_nan x = false) ->
         In (Machine.kpi_min kpi) cur /\ In (Machine.kpi_max kpi) cur /\
         (Machine.kpi_min kpi <=? Machine.kpi_max kpi)%float = true).
Proof.
  intros P data particle timeframe kpi H.
  destruct (machine_kpis_of_window _ _ _ _ _ H)
    as (cur & prev & label & Hc & Hne & ->).
  exists cur. split; [exact Hc|]. split; [exact Hne|].
  cbn [Machine.kpi_of Machine.kpi_min Machine.kpi_mean Machine.kpi_max].
  repeat split.
  - now apply series_min_in.
  - now apply series_max_in.
  - now apply series_min_le_max.
Qed.

Definition machine_returned (r : raised + option Machine.KPI) : Machine.KPI :=
  match r with
  | inr (Some kpi) => kpi
  | _ => Machine.mkKPI nan nan nan None None None None None None ""
  end.

Definition three_tenths_kpi : Machine.KPI :=
  machine_returned
    (Machine.calculate_kpis reference (datetime64 three_tenths) "col" "D").

Lemma kpi_min_le_max_witness :
  Machine.calculate_kpis reference (datetime64 three_tenths) "col" "D" =
    inr (Some three_tenths_kpi) /\
  exists cur,
    Machine.current_window reference (datetime64 three_tenths) "col" "D" =
      inr cur /\
    cur <> [] /\
    Machine.kpi_min three_tenths_kpi = series_min reference cur /\
    Machine.kpi_mean three_tenths_kpi = series_mean reference cur /\
    Machine.kpi_max three_tenths_kpi = series_max reference cur /\
    ((exists x, In x cur /\ is_nan x = false) ->
       In (Machine.kpi_min three_tenths_kpi) cur /\
       In (Machine.kpi_max three_tenths_kpi) cur /\
       (Machine.kpi_min three_tenths_kpi <=?
        Machine.kpi_max three_tenths_kpi)%float = true).
Proof.
  assert (H : Machine.calculate_kpis reference (datetime64 three_tenths)
                "col" "D" = inr (Some three_tenths_kpi)).
  { vm_compute. reflexivity. }
  split; [exact H|].
  exact (kpi_min_le_max reference _ _ _ _ H).
Defined.

(* ================================================================== *)
(** ** The daily path on raw timestamps *)

(** A row whose timestamp is an instant that has a [datetime.date]. *)
Definition well_dated (r : Machine.Row) : Prop :=
  exists t, Machine.timestamp r = At t /\ min_date <= dt_date t <= max_date.

(** The rows of a list dated [d], in the order of the list. *)
Definition on_date (d : Z) (l : list Machine.Row) : list Machine.Row :=
  filter (fun r => date_eqb (row_date r) (Some d)) l.

(** The values of a comparison window, [None] when it has none. *)
Definition if_any (prev : list float64) : option (list float64) :=
  match prev with
  | [] => None
  | _ => Some prev
  end.

(** A non-empty series with a NaT record, and a series dated in the year
    10000. *)
Definition with_NaT : Machine.DataFrame :=
  mkFrame ["col"%string] [mkRow NaT [1%float]; mkRow (At 0) [2%float]].

Definition year_10000 : Machine.DataFrame :=
  mkFrame ["col"%string] [mkRow (At (midnight (max_date + 1))) [1%float]].

Definition first_day : Machine.DataFrame :=
  mkFrame ["col"%string] [mkRow (At (midnight min_date)) [1%float]].

(** C6 (as stated, refuted).  On a non-empty series one of whose
    timestamps is [NaT] the sort puts that record last, the last date is
    [NaT], no record is dated [NaT] and the call returns [None].  On a
    non-empty series dated beyond the year 9999 [.dt.date] raises
    [ValueError]. *)
Lemma daily_None_on_NaT :
  Machine.rows with_NaT <> [] /\
  Machine.calculate_kpis reference (datetime64 with_NaT) "col" "D" =
    inr None /\
  Machine.rows year_10000 <> [] /\
  Machine.calculate_kpis reference (datetime64 year_10000) "col" "D" =
    inl (Library (ValueError "year 10000 is out of range")).
Proof.
  split; [discriminate|]. split; [vm_compute; reflexivity|].
  split; [discriminate|]. vm_compute. reflexivity.
Qed.

(** On a series dated 0001-01-01 only, the day before the last date does
    not exist and the subtraction of line 77 raises [OverflowError]. *)
Lemma daily_overflow_on_first_date :
  Machine.calculate_kpis reference (datetime64 first_day) "col" "D" =
    inl (Library (OverflowError "date value out of range")).
Proof. vm_compute. reflexivity. Qed.

Lemma dt_dates_well_dated (l : list Machine.Row) :
  Forall well_dated l ->
  dt_dates (map Machine.timestamp l) = inr (map row_date l).
Proof.
  induction 1 as [|r l (t & Ht & Hlo & Hhi) _ IH]; [reflexivity|].
  cbn [map dt_dates]. rewrite IH. unfold row_date. rewrite Ht.
  cbn [date_of].
  assert (E1 : (dt_date t <? min_date) = false) by (apply Z.ltb_ge; lia).
  assert (E2 : (max_date <? dt_date t) = false) by (apply Z.ltb_ge; lia).
  rewrite E1, E2. reflexivity.
Qed.

Lemma machine_iloc_last_app {A} (l : list A) (x : A) :
  Machine.iloc_last (l ++ [x]) = inr x.
Proof. unfold Machine.iloc_last. now rewrite rev_unit. Qed.

Lemma instant_le_refl (a : instant) : instant_le a a.
Proof. destruct a; simpl; [exact I | lia]. Qed.

Lemma sorted_last_latest (l : list Machine.Row) (x : Machine.Row) :
  sorted (l ++ [x]) ->
  Forall (fun r => instant_le (Machine.timestamp r) (Machine.timestamp x))
         (l ++ [x]).
Proof.
  induction l as [|h t IH]; simpl; intros H.
  - constructor; [apply instant_le_refl | constructor].
  - inversion H as [|? ? Hh Ht]. subst. constructor.
    + rewrite Forall_forall in Hh. apply Hh. apply in_or_app. right. now left.
    + now apply IH.
Qed.

Lemma machine_getitem_present (df : Machine.DataFrame) (c : string) :
  In c (Machine.columns df) ->
  exists vals, Machine.getitem df c = inr vals /\
               List.length vals = List.length (Machine.rows df).
Proof.
  intros H. apply index_of_In in H as [i H]. unfold Machine.getitem.
  rewrite H. eexists. split; [reflexivity|]. apply length_map.
Qed.

Lemma if_any_len (df : Machine.DataFrame) (c : string) (vals : list float64) :
  Machine.getitem df c = inr vals ->
  (if 0 <? Machine.len df then Some vals else None) = if_any vals.
Proof.
  unfold Machine.getitem, Machine.len.
  destruct (index_of c (Machine.columns df)); [|discriminate].
  intros H. inversion H. destruct (Machine.rows df); reflexivity.
Qed.

(** The daily path on a sorted series of well-dated rows that ends on a
    date after [date.min]. *)
Lemma machine_daily_result (P : Pandas) (cols : list string)
    (l : list Machine.Row) (x : Machine.Row) (d : Z) (particle : string) :
  Forall well_dated (l ++ [x]) -> row_date x = Some d -> min_date < d ->
  In particle cols ->
  exists cur prev,
    Machine.getitem (mkFrame cols (on_date d (l ++ [x]))) particle =
      inr cur /\
    cur <> [] /\
    Machine.getitem (mkFrame cols (on_date (d - 1) (l ++ [x]))) particle =
      inr prev /\
    Machine._calculate_daily_kpis P (mkFrame cols (l ++ [x])) particle =
      inr (Some (Machine.kpi_of P cur (if_any prev) (date_strftime P d))).
Proof.
  intros Hwd Hx Hd Hcol.
  destruct (machine_getitem_present (mkFrame cols (on_date d (l ++ [x])))
              particle Hcol) as (cur & Ec & Lc).
  destruct (machine_getitem_present
              (mkFrame cols (on_date (d - 1) (l ++ [x]))) particle Hcol)
    as (prev & Ep & Lp).
  assert (Hin : In x (on_date d (l ++ [x]))).
  { unfold on_date. apply filter_In. split.
    - apply in_or_app. right. now left.
    - rewrite Hx. simpl. apply Z.eqb_refl. }
  assert (Hne : on_date d (l ++ [x]) <> []).
  { intros E. rewrite E in Hin. destruct Hin. }
  exists cur, prev. split; [exact Ec|]. split.
  { apply (machine_getitem_nonempty _ _ _ Ec). exact Hne. }
  split; [exact Ep|].
  rewrite machine_daily_unfold. cbn [Machine.rows].
  rewrite (dt_dates_well_dated _ Hwd). cbn [Machine.bind].
  rewrite map_app. cbn [map]. rewrite machine_iloc_last_app.
  cbn [Machine.bind]. rewrite Hx.
  unfold Machine.last_day_data, Machine.prev_day_data, Machine.select.
  cbn [Machine.rows Machine.columns]. fold (on_date d (l ++ [x])).
  assert (E0 : (Machine.len (mkFrame cols (on_date d (l ++ [x]))) =? 0)
               = false).
  { apply Z.eqb_neq. unfold Machine.len. cbn [Machine.rows].
    destruct (on_date d (l ++ [x])); [congruence|]. simpl. lia. }
  rewrite E0, Ec. cbn [Machine.bind day_before].
  assert (E1 : (d <=? min_date) = false) by (apply Z.leb_gt; lia).
  rewrite E1. cbn [Machine.bind Machine.ret].
  fold (on_date (d - 1) (l ++ [x])).
  rewrite Ep. cbn [Machine.bind strftime_date].
  rewrite (if_any_len _ _ _ Ep). reflexivity.
Qed.

(** A list in strictly increasing order of its instants is the only
    sorted arrangement of its rows. *)
Definition instant_lt (a b : instant) : Prop :=
  match a, b with
  | At s, At t => s < t
  | _, _ => False
  end.

Inductive chronological : list Machine.Row -> Prop :=
| chronological_empty : chronological []
| chronological_row r l :
    Forall (fun r' => instant_lt (Machine.timestamp r) (Machine.timestamp r'))
           l ->
    chronological l -> chronological (r :: l).

Lemma instant_lt_not_le (a b : instant) :
  instant_lt a b -> instant_le b a -> False.
Proof. destruct a, b; simpl; try tauto. lia. Qed.

Lemma sorted_permutation_unique (l l' : list Machine.Row) :
  chronological l -> sorted l' -> Permutation l' l -> l' = l.
Proof.
  intros Hc. revert l'. induction Hc as [|a t Ha Ht IH]; intros l' Hs Hp.
  - apply Permutation_sym in Hp. now apply Permutation_nil in Hp.
  - destruct l' as [|h t'].
    { apply Permutation_nil in Hp. discriminate. }
    inversion Hs as [|? ? Hh Ht']. subst.
    assert (Hin : In h (a :: t)) by (apply (Permutation_in _ Hp); now left).
    destruct Hin as [<- | Hin].
    + f_equal. apply IH; [exact Ht'|].
      now apply Permutation_cons_inv in Hp.
    + exfalso. rewrite Forall_forall in Ha, Hh.
      pose proof (Ha h Hin) as Hlt.
      assert (Hin' : In a (h :: t'))
        by (apply (Permutation_in _ (Permutation_sym Hp)); now left).
      destruct Hin' as [-> | Hin'].
      * destruct (Machine.timestamp a); simpl in Hlt; [tauto|lia].
      * exact (instant_lt_not_le _ _ Hlt (Hh a Hin')).
Qed.

Lemma sort_rows_chronological (P : Pandas) (l : list Machine.Row) :
  chronological l -> sort_rows P l = l.
Proof.
  intros H. apply sorted_permutation_unique; [exact H| |].
  - apply sort_rows_in_order.
  - apply sort_rows_permutation.
Qed.

(** Five records of day [d], at the seconds [o1] to [o5] after its
    midnight, with the values 1 to 5. *)
Definition one_day (d o1 o2 o3 o4 o5 : Z) : Machine.DataFrame :=
  mkFrame ["col"%string]
    [mkRow (At (midnight d + o1)) [1%float];
     mkRow (At (midnight d + o2)) [2%float];
     mkRow (At (midnight d + o3)) [3%float];
     mkRow (At (midnight d + o4)) [4%float];
     mkRow (At (midnight d + o5)) [5%float]].

Definition one_to_five : list float64 :=
  [1%float; 2%float; 3%float; 4%float; 5%float].

Lemma series_min_one_to_five (P : Pandas) : series_min P one_to_five = 1%float.
Proof.
  assert (Hx : exists x, In x one_to_five /\ is_nan x = false)
    by (exists 1%float; split; [now left|reflexivity]).
  pose proof (series_min_in P one_to_five Hx) as Hin.
  pose proof (series_min_lower P one_to_five 1%float
                (or_introl eq_refl) eq_refl) as Hle.
  unfold one_to_five in Hin at 2.
  destruct Hin as [E | [E | [E | [E | [E | []]]]]];
    rewrite <- E in Hle |- *; try reflexivity;
    vm_compute in Hle; discriminate.
Qed.

Lemma series_max_one_to_five (P : Pandas) : series_max P one_to_five = 5%float.
Proof.
  assert (Hx : exists x, In x one_to_five /\ is_nan x = false)
    by (exists 1%float; split; [now left|reflexivity]).
  pose proof (series_max_in P one_to_five Hx) as Hin.
  assert (I5 : In 5%float one_to_five) by (do 4 right; now left).
  pose proof (series_max_upper P one_to_five 5%float I5 eq_refl) as Hle.
  unfold one_to_five in Hin at 2.
  destruct Hin as [E | [E | [E | [E | [E | []]]]]];
    rewrite <- E in Hle |- *; try reflexivity;
    vm_compute in Hle; discriminate.
Qed.

(** C6 (amended).  On a series that has a record and the column,
    whose timestamps all are instants dated within the years 1 to 9999 (no
    [NaT]) and not all dated 0001-01-01, [calculate_kpis] with timeframe
    ['D'] raises nothing and returns a record.  The last record of the
    sorted series is dated [last_date], the latest date of the series; the
    current window is the sorted series filtered on that date, so it holds
    exactly the records of the series with that date, as many times as the
    series has them; the comparison window is the same for the date one
    day earlier; the record is the record of the values of the two
    windows, labelled with the date.  Scenario A: five records of one day,
    in chronological order, with the values 1 to 5 give min 1, the mean of
    [1, 2, 3, 4, 5], which is 3, max 5, no delta, and the date as label. *)
Theorem daily_kpis_total :
  (forall (P : Pandas) (df : Machine.DataFrame) (particle : string),
     Machine.rows df <> [] ->
     In particle (Machine.columns df) ->
     Forall well_dated (Machine.rows df) ->
     Exists (fun r => row_date r <> Some min_date) (Machine.rows df) ->
     exists last_date cur prev,
       let data := sort_rows P (Machine.rows df) in
       Machine.iloc_last (map row_date data) = inr (Some last_date) /\
       In (Some last_date) (map row_date (Machine.rows df)) /\
       Forall (fun r => exists d, row_date r = Some d /\ d <= last_date)
              (Machine.rows df) /\
       Machine.getitem
         (mkFrame (Machine.columns df) (on_date last_date data)) particle =
         inr cur /\
       cur <> [] /\
       Permutation (on_date last_date data)
                   (on_date last_date (Machine.rows df)) /\
       Machine.getitem
         (mkFrame (Machine.columns df) (on_date (last_date - 1) data))
         particle = inr prev /\
       Permutation (on_date (last_date - 1) data)
                   (on_date (last_date - 1) (Machine.rows df)) /\
       Machine.calculate_kpis P (datetime64 df) particle "D" =
         inr (Some (Machine.kpi_of P cur (if_any prev)
                      (date_strftime P last_date)))) /\
  (forall (P : Pandas) (d o1 o2 o3 o4 o5 : Z),
     date_1000 <= d <= max_date ->
     0 <= o1 -> o1 < o2 -> o2 < o3 -> o3 < o4 -> o4 < o5 ->
     o5 < seconds_per_day ->
     Machine.calculate_kpis P (datetime64 (one_day d o1 o2 o3 o4 o5))
       "col" "D" =
       inr (Some (Machine.mkKPI 1%float (series_mean P one_to_five) 5%float
                    None None None None None None (strftime_dmY d)))) /\
  series_mean reference one_to_five = 3%float.
Proof.
  assert (Main : forall (P : Pandas) (df : Machine.DataFrame)
                        (particle : string),
     Machine.rows df <> [] ->
     In particle (Machine.columns df) ->
     Forall well_dated (Machine.rows df) ->
     Exists (fun r => row_date r <> Some min_date) (Machine.rows df) ->
     exists last_date cur prev,
       let data := sort_rows P (Machine.rows df) in
       Machine.iloc_last (map row_date data) = inr (Some last_date) /\
       In (Some last_date) (map row_date (Machine.rows df)) /\
       Forall (fun r => exists d, row_date r = Some d /\ d <= last_date)
              (Machine.rows df) /\
       Machine.getitem
         (mkFrame (Machine.columns df) (on_date last_date data)) particle =
         inr cur /\
       cur <> [] /\
       Permutation (on_date last_date data)
                   (on_date last_date (Machine.rows df)) /\
       Machine.getitem
         (mkFrame (Machine.columns df) (on_date (last_date - 1) data))
         particle = inr prev /\
       Permutation (on_date (last_date - 1) data)
                   (on_date (last_date - 1) (Machine.rows df)) /\
       Machine.calculate_kpis P (datetime64 df) particle "D" =
         inr (Some (Machine.kpi_of P cur (if_any prev)
                      (date_strftime P last_date)))).
  { intros P df particle Hne Hcol Hwd Hex.
    pose proof (sort_rows_permutation P (Machine.rows df)) as Hp.
    pose proof (sort_rows_in_order P (Machine.rows df)) as Hs.
    assert (Hwd' : Forall well_dated (sort_rows P (Machine.rows df))).
    { rewrite Forall_forall in *. intros r Hr. apply Hwd.
      exact (Permutation_in _ Hp Hr). }
    assert (Hne' : sort_rows P (Machine.rows df) <> []).
    { intros E. rewrite E in Hp. apply Permutation_nil in Hp.
      contradiction. }
    destruct (exists_last Hne') as (l & x & E).
    rewrite E in Hp, Hs, Hwd'.
    assert (Hxin : In x (l ++ [x])) by (apply in_or_app; right; now left).
    assert (Hx : well_dated x)
      by (rewrite Forall_forall in Hwd'; now apply Hwd').
    destruct Hx as (tx & Htx & Hlo & Hhi).
    assert (Hdx : row_date x = Some (dt_date tx))
      by (unfold row_date; now rewrite Htx).
    assert (Hmax : Forall (fun r => exists d, row_date r = Some d /\
                                              d <= dt_date tx)
                          (Machine.rows df)).
    { pose proof (sorted_last_latest _ _ Hs) as Hl.
      rewrite Forall_forall in *. intros r Hr.
      apply (Permutation_in _ (Permutation_sym Hp)) in Hr.
      pose proof (Hl r Hr) as Hle. destruct (Hwd' r Hr) as (t & Ht & _).
      exists (dt_date t). unfold row_date. rewrite Ht. split; [reflexivity|].
      rewrite Ht, Htx in Hle. simpl in Hle. now apply dt_date_mono. }
    assert (Hd : min_date < dt_date tx).
    { apply Exists_exists in Hex as (r & Hr & Hrd).
      rewrite Forall_forall in Hmax, Hwd.
      destruct (Hmax r Hr) as (d & Hd & Hle).
      destruct (Hwd r Hr) as (t & Ht & Hlo' & _).
      unfold row_date in Hd, Hrd. rewrite Ht in Hd, Hrd. inversion Hd.
      subst d. assert (dt_date t <> min_date) by congruence. lia. }
    destruct (machine_daily_result P (Machine.columns df) l x (dt_date tx)
                particle Hwd' Hdx Hd Hcol)
      as (cur & prev & Ec & Hcne & Ep & Hres).
    exists (dt_date tx), cur, prev. cbv zeta. rewrite E.
    split. { rewrite map_app. cbn [map]. rewrite machine_iloc_last_app.
             now rewrite Hdx. }
    split. { rewrite <- Hdx. apply in_map.
             exact (Permutation_in _ Hp Hxin). }
    split; [exact Hmax|]. split; [exact Ec|]. split; [exact Hcne|].
    split; [apply filter_perm; exact Hp|]. split; [exact Ep|].
    split; [apply filter_perm; exact Hp|].
    unfold Machine.calculate_kpis. cbn [coerce Machine.ret].
    cbn [String.eqb Ascii.eqb Bool.eqb]. unfold sort_values. rewrite E.
    rewrite Hres. reflexivity. }
  split; [exact Main|]. split; [|vm_compute; reflexivity].
  intros P d o1 o2 o3 o4 o5 Hd H1 H2 H3 H4 H5 H6.
  assert (Hdate : forall o c, 0 <= o < seconds_per_day ->
            row_date (mkRow (At (midnight d + o)) c) = Some d).
  { intros o c Ho. unfold row_date. cbn [Machine.timestamp].
    now rewrite dt_date_midnight. }
  assert (Hchron : chronological (Machine.rows (one_day d o1 o2 o3 o4 o5))).
  { unfold one_day. cbn [Machine.rows].
    repeat (constructor; [repeat constructor; simpl; lia|]).
    constructor. }
  unfold min_date, max_date, date_1000 in *.
  assert (Hwd : Forall well_dated (Machine.rows (one_day d o1 o2 o3 o4 o5))).
  { unfold one_day. cbn [Machine.rows].
    repeat constructor;
      (eexists; split; [reflexivity|]; rewrite dt_date_midnight;
       unfold min_date, max_date; lia). }
  unfold Machine.calculate_kpis. cbn [coerce Machine.ret].
  cbn [String.eqb Ascii.eqb Bool.eqb]. unfold sort_values.
  rewrite (sort_rows_chronological P _ Hchron).
  unfold one_day in *. cbn [Machine.rows Machine.columns] in *.
  destruct (machine_daily_result P ["col"%string]
              [mkRow (At (midnight d + o1)) [1%float];
               mkRow (At (midnight d + o2)) [2%float];
               mkRow (At (midnight d + o3)) [3%float];
               mkRow (At (midnight d + o4)) [4%float]]
              (mkRow (At (midnight d + o5)) [5%float]) d "col")
    as (cur & prev & Ec & _ & Ep & Hres).
  { exact Hwd. }
  { apply Hdate. lia. }
  { unfold min_date. lia. }
  { now left. }
  cbn [app] in Hres, Ec, Ep. rewrite Hres. cbn [library].
  unfold on_date in Ec, Ep. cbn [filter] in Ec, Ep.
  rewrite !Hdate in Ec, Ep by lia. cbn [date_eqb] in Ec, Ep.
  rewrite Z.eqb_refl in Ec.
  assert (En : (d =? d - 1) = false) by (apply Z.eqb_neq; lia).
  rewrite En in Ep.
  unfold Machine.getitem in Ec, Ep. cbn in Ec, Ep.
  inversion Ec. inversion Ep. subst cur prev.
  fold one_to_five. unfold Machine.kpi_of.
  cbn [if_any option_map Machine._calculate_variation fst snd].
  rewrite series_min_one_to_five, series_max_one_to_five.
  rewrite (date_strftime_four_digits P d) by (unfold date_1000, max_date; lia).
  reflexivity.
Qed.

Definition two_days : Machine.DataFrame :=
  mkFrame ["col"%string]
    [mkRow (At (midnight 20001 + 7)) [3%float];
     mkRow (At (midnight 20000 + 5)) [1%float];
     mkRow (At (midnight 20001 + 2)) [2%float]].

Lemma daily_kpis_total_witness :
  (exists last_date cur prev,
     Machine.iloc_last (map row_date (sort_rows reference
                                        (Machine.rows two_days))) =
       inr (Some last_date) /\
     In (Some last_date) (map row_date (Machine.rows two_days)) /\
     Forall (fun r => exists d, row_date r = Some d /\ d <= last_date)
            (Machine.rows two_days) /\
     Machine.getitem
       (mkFrame (Machine.columns two_days)
          (on_date last_date (sort_rows reference (Machine.rows two_days))))
       "col" = inr cur /\
     cur <> [] /\
     Permutation
       (on_date last_date (sort_rows reference (Machine.rows two_days)))
       (on_date last_date (Machine.rows two_days)) /\
     Machine.getitem
       (mkFrame (Machine.columns two_days)
          (on_date (last_date - 1)
             (sort_rows reference (Machine.rows two_days))))
       "col" = inr prev /\
     Permutation
       (on_date (last_date - 1)
          (sort_rows reference (Machine.rows two_days)))
       (on_date (last_date - 1) (Machine.rows two_days)) /\
     Machine.calculate_kpis reference (datetime64 two_days) "col" "D" =
       inr (Some (Machine.kpi_of reference cur (if_any prev)
                    (date_strftime reference last_date)))) /\
  Machine.calculate_kpis reference (datetime64 (one_day 20000 1 2 3 4 5))
    "col" "D" =
    inr (Some (Machine.mkKPI 1%float (series_mean reference one_to_five)
                 5%float None None None None None None
                 (strftime_dmY 20000))).
Proof.
  destruct daily_kpis_total as (T1 & T2 & _). split.
  - apply (T1 reference two_days "col"%string).
    + discriminate.
    + now left.
    + repeat constructor;
        (eexists; split; [reflexivity|]; vm_compute; split; discriminate).
    + constructor. vm_compute. discriminate.
  - apply (T2 reference 20000 1 2 3 4 5); vm_compute;
      try split; try reflexivity; discriminate.
Defined.
